(** * Control core of the IIO sensors HAL (control.c, utils.c)

    A shallow embedding of the activation manager, the report-layout
    planner, the rate controller and the poll loop of control.c.

    The C globals become the fields of a [world] record that every
    operation threads through a state monad.  Every interaction with the
    kernel (sysfs, the character devices, epoll, the wakeup socket pair,
    the clock) appends one [event] to [trace]; what the kernel answers is
    taken from an oracle [kernel], indexed by the number of interactions
    made so far, so that a theorem quantified over the oracle covers every
    behaviour of the environment. *)

From Stdlib Require Import ZArith Lia.
From stdpp Require Import base numbers list strings pretty.

Local Open Scope Z_scope.

(** ** Machine integers *)

Definition INT_MAX : Z := 2147483647.
Definition INT_MIN : Z := -2147483648.
Definition INT64_MAX : Z := 9223372036854775807.

(** Two's complement reduction to [int] and [int64_t]. *)
Definition wrap_int (z : Z) : Z := (z + 2 ^ 31) mod 2 ^ 32 - 2 ^ 31.
Definition wrap_int64 (z : Z) : Z := (z + 2 ^ 63) mod 2 ^ 64 - 2 ^ 63.

(** C's [!x] on an int. *)
Definition lnot (x : Z) : Z := if x =? 0 then 1 else 0.

(** ** Constants of control.c and of the system headers *)

Definition POLL_MIN_INTERVAL : Z := 10000.        (* uS *)
Definition INVALID_DEV_NUM : Z := 4294967295.     (* (uint32_t) -1 *)
Definition EPOLLIN : Z := 1.
Definition EINVAL : Z := 22.

Definition SENSOR_TYPE_ACCELEROMETER : Z := 1.
Definition SENSOR_TYPE_MAGNETIC_FIELD : Z := 2.
Definition SENSOR_TYPE_ORIENTATION : Z := 3.
Definition SENSOR_TYPE_GYROSCOPE : Z := 4.
Definition SENSOR_TYPE_LIGHT : Z := 5.
Definition SENSOR_TYPE_PRESSURE : Z := 6.
Definition SENSOR_TYPE_TEMPERATURE : Z := 7.
Definition SENSOR_TYPE_PROXIMITY : Z := 8.
Definition SENSOR_TYPE_ROTATION_VECTOR : Z := 11.
Definition SENSOR_TYPE_RELATIVE_HUMIDITY : Z := 12.
Definition SENSOR_TYPE_AMBIENT_TEMPERATURE : Z := 13.
Definition SENSOR_TYPE_DEVICE_PRIVATE_BASE : Z := 65536.

(** ** Paths

    The path macros live in a header that is not part of this unit; a path
    is kept as the macro that formats it together with its arguments. *)
Inductive path : Type :=
  | ENABLE_PATH (dev_num : nat)                       (* .../buffer/enable *)
  | TRIGGER_PATH (dev_num : nat)                      (* .../trigger/current_trigger *)
  | CHANNEL_PATH (dev_num : nat) (file : string)      (* .../scan_elements/<file> *)
  | SENSOR_SAMPLING_PATH (dev_num : nat) (tag : string)
  | DEV_FILE_PATH (dev_num : nat).                    (* /dev/iio:deviceN *)

(** ** The catalog (enumeration.h) *)

Record channel_descriptor_t : Type := {
  en_path : string;
  type_path : string;
  index_path : string
}.

Record sensor_catalog_entry_t : Type := {
  tag : string;
  type : Z;
  cat_channel : list channel_descriptor_t
}.

Definition no_channel : channel_descriptor_t :=
  {| en_path := ""; type_path := ""; index_path := "" |}.

(** ** What the surrounding code base supplies

    Array bounds, the type decoder, the catalog and the representation of
    floats come from files outside this unit and are parameters. *)
Class Platform : Type := {
  MAX_DEVICES : nat;
  MAX_SENSORS : nat;
  MAX_CHANNELS : nat;
  MAX_SENSOR_REPORT_SIZE : nat;
  sizeof_sensors_event_t : Z;
  float : Type;
  float_zero : float;
  datum_info_t : Type;
  datum_info_zero : datum_info_t;
  decode_type_spec : string → Z * datum_info_t;
  sensor_catalog : nat → sensor_catalog_entry_t
}.

Record epoll_event : Type := {
  events : Z;
  data_u32 : Z
}.

Section Control.

Context {P : Platform}.

Record sensors_event_t : Type := {
  version : Z;
  sensor : Z;
  ev_type : Z;
  timestamp : Z;
  data : list float
}.

(** ** Sensor table (common.h) *)

Record channel_info_t : Type := {
  offset : Z;
  size : Z;
  type_spec : string;
  type_info : datum_info_t
}.

Record sensor_ops_t : Type := {
  transform : nat → nat → list Z → float;
  finalize : nat → sensors_event_t → sensors_event_t
}.

Record sensor_info_t : Type := {
  internal_name : string;
  dev_num : nat;
  catalog_index : nat;
  num_channels : nat;
  channel : list channel_info_t;
  enable_count : Z;
  sampling_rate : Z;
  last_integration_ts : Z;
  report_buffer : list Z;
  report_pending : Z;
  ops : sensor_ops_t
}.

Definition channel_zero : channel_info_t :=
  {| offset := 0; size := 0; type_spec := ""; type_info := datum_info_zero |}.

(** A slot of the static table that was never populated. *)
Definition sensor_zero : sensor_info_t :=
  {| internal_name := ""; dev_num := 0%nat; catalog_index := 0%nat;
     num_channels := 0%nat; channel := []; enable_count := 0;
     sampling_rate := 0; last_integration_ts := 0; report_buffer := [];
     report_pending := 0;
     ops := {| transform := λ _ _ _, float_zero; finalize := λ _ e, e |} |}.

(** ** Observable interactions with the kernel, results included *)

Inductive log_level : Type := LOG_WARN | LOG_ERROR.

Inductive event : Type :=
  | SysfsWriteInt (p : path) (v : Z)
  | SysfsWriteStr (p : path) (v : string)
  | SysfsReadInt (p : path) (r : option Z)
  | SysfsReadStr (p : path) (r : option string)
  | Open (p : path) (r : Z)
  | Close (fd : Z)
  | EpollCtlAdd (fd : Z) (data_u32 : Z) (r : Z)
  | EpollCtlDel (fd : Z)
  | EpollWait (timeout : Z) (r : option (list epoll_event))
  | Usleep (us : Z)
  | WriteByte (fd : Z)
  | ReadByte (fd : Z)
  | ReadReport (fd : Z) (count : Z) (r : option (list Z))
  | GetTimestamp (r : Z)
  | EpollCreate (r : Z)
  | Socketpair (r : option (Z * Z))
  | AcquireImmediateValue (s c : nat) (r : float)
  | Log (l : log_level) (msg : string).

(** ** The kernel's answers, indexed by the number of interactions so far *)

Record kernel : Type := {
  k_get_timestamp : nat → Z;
  k_open : nat → option Z;
  k_epoll_ctl_ok : nat → bool;
  k_sysfs_read_int : nat → path → option Z;
  k_sysfs_read_str : nat → path → option string;
  k_sysfs_write : nat → Z;
  k_epoll_wait : nat → option (list epoll_event);
  k_read_report : nat → Z → option (list Z);
  k_acquire_immediate_value : nat → nat → nat → float;
  k_epoll_create : nat → Z;
  k_socketpair : nat → option (Z * Z)
}.

(** ** Process-wide state *)

Record world : Type := {
  sensor_info : list sensor_info_t;
  sensor_count : nat;
  poll_sensors_per_dev : list Z;
  trig_sensors_per_dev : list Z;
  device_fd : list Z;
  poll_fd : Z;
  poll_socket_pair : Z * Z;
  last_poll_exit_ts : Z;
  active_poll_sensors : Z;
  (* kernel side: interest list of the epoll instance, (fd, data.u32) *)
  poll_set : list (Z * Z);
  trace : list event
}.

Definition set_sensor_info (x : list sensor_info_t) (w : world) : world :=
  {| sensor_info := x; sensor_count := sensor_count w;
     poll_sensors_per_dev := poll_sensors_per_dev w;
     trig_sensors_per_dev := trig_sensors_per_dev w;
     device_fd := device_fd w; poll_fd := poll_fd w;
     poll_socket_pair := poll_socket_pair w;
     last_poll_exit_ts := last_poll_exit_ts w;
     active_poll_sensors := active_poll_sensors w;
     poll_set := poll_set w; trace := trace w |}.

Definition set_poll_sensors_per_dev (x : list Z) (w : world) : world :=
  {| sensor_info := sensor_info w; sensor_count := sensor_count w;
     poll_sensors_per_dev := x;
     trig_sensors_per_dev := trig_sensors_per_dev w;
     device_fd := device_fd w; poll_fd := poll_fd w;
     poll_socket_pair := poll_socket_pair w;
     last_poll_exit_ts := last_poll_exit_ts w;
     active_poll_sensors := active_poll_sensors w;
     poll_set := poll_set w; trace := trace w |}.

Definition set_trig_sensors_per_dev (x : list Z) (w : world) : world :=
  {| sensor_info := sensor_info w; sensor_count := sensor_count w;
     poll_sensors_per_dev := poll_sensors_per_dev w;
     trig_sensors_per_dev := x;
     device_fd := device_fd w; poll_fd := poll_fd w;
     poll_socket_pair := poll_socket_pair w;
     last_poll_exit_ts := last_poll_exit_ts w;
     active_poll_sensors := active_poll_sensors w;
     poll_set := poll_set w; trace := trace w |}.

Definition set_device_fd (x : list Z) (w : world) : world :=
  {| sensor_info := sensor_info w; sensor_count := sensor_count w;
     poll_sensors_per_dev := poll_sensors_per_dev w;
     trig_sensors_per_dev := trig_sensors_per_dev w;
     device_fd := x; poll_fd := poll_fd w;
     poll_socket_pair := poll_socket_pair w;
     last_poll_exit_ts := last_poll_exit_ts w;
     active_poll_sensors := active_poll_sensors w;
     poll_set := poll_set w; trace := trace w |}.

Definition set_last_poll_exit_ts (x : Z) (w : world) : world :=
  {| sensor_info := sensor_info w; sensor_count := sensor_count w;
     poll_sensors_per_dev := poll_sensors_per_dev w;
     trig_sensors_per_dev := trig_sensors_per_dev w;
     device_fd := device_fd w; poll_fd := poll_fd w;
     poll_socket_pair := poll_socket_pair w;
     last_poll_exit_ts := x;
     active_poll_sensors := active_poll_sensors w;
     poll_set := poll_set w; trace := trace w |}.

Definition set_active_poll_sensors (x : Z) (w : world) : world :=
  {| sensor_info := sensor_info w; sensor_count := sensor_count w;
     poll_sensors_per_dev := poll_sensors_per_dev w;
     trig_sensors_per_dev := trig_sensors_per_dev w;
     device_fd := device_fd w; poll_fd := poll_fd w;
     poll_socket_pair := poll_socket_pair w;
     last_poll_exit_ts := last_poll_exit_ts w;
     active_poll_sensors := x;
     poll_set := poll_set w; trace := trace w |}.

Definition set_poll_set (x : list (Z * Z)) (w : world) : world :=
  {| sensor_info := sensor_info w; sensor_count := sensor_count w;
     poll_sensors_per_dev := poll_sensors_per_dev w;
     trig_sensors_per_dev := trig_sensors_per_dev w;
     device_fd := device_fd w; poll_fd := poll_fd w;
     poll_socket_pair := poll_socket_pair w;
     last_poll_exit_ts := last_poll_exit_ts w;
     active_poll_sensors := active_poll_sensors w;
     poll_set := x; trace := trace w |}.

Definition set_trace (x : list event) (w : world) : world :=
  {| sensor_info := sensor_info w; sensor_count := sensor_count w;
     poll_sensors_per_dev := poll_sensors_per_dev w;
     trig_sensors_per_dev := trig_sensors_per_dev w;
     device_fd := device_fd w; poll_fd := poll_fd w;
     poll_socket_pair := poll_socket_pair w;
     last_poll_exit_ts := last_poll_exit_ts w;
     active_poll_sensors := active_poll_sensors w;
     poll_set := poll_set w; trace := x |}.

(** Field updates of a sensor slot and of a channel. *)

Definition set_channel (x : list channel_info_t) (si : sensor_info_t) : sensor_info_t :=
  {| internal_name := internal_name si; dev_num := dev_num si;
     catalog_index := catalog_index si; num_channels := num_channels si;
     channel := x; enable_count := enable_count si;
     sampling_rate := sampling_rate si;
     last_integration_ts := last_integration_ts si;
     report_buffer := report_buffer si;
     report_pending := report_pending si; ops := ops si |}.

Definition set_enable_count (x : Z) (si : sensor_info_t) : sensor_info_t :=
  {| internal_name := internal_name si; dev_num := dev_num si;
     catalog_index := catalog_index si; num_channels := num_channels si;
     channel := channel si; enable_count := x;
     sampling_rate := sampling_rate si;
     last_integration_ts := last_integration_ts si;
     report_buffer := report_buffer si;
     report_pending := report_pending si; ops := ops si |}.

Definition set_sampling_rate (x : Z) (si : sensor_info_t) : sensor_info_t :=
  {| internal_name := internal_name si; dev_num := dev_num si;
     catalog_index := catalog_index si; num_channels := num_channels si;
     channel := channel si; enable_count := enable_count si;
     sampling_rate := x;
     last_integration_ts := last_integration_ts si;
     report_buffer := report_buffer si;
     report_pending := report_pending si; ops := ops si |}.

Definition set_last_integration_ts (x : Z) (si : sensor_info_t) : sensor_info_t :=
  {| internal_name := internal_name si; dev_num := dev_num si;
     catalog_index := catalog_index si; num_channels := num_channels si;
     channel := channel si; enable_count := enable_count si;
     sampling_rate := sampling_rate si;
     last_integration_ts := x;
     report_buffer := report_buffer si;
     report_pending := report_pending si; ops := ops si |}.

Definition set_report_buffer (x : list Z) (si : sensor_info_t) : sensor_info_t :=
  {| internal_name := internal_name si; dev_num := dev_num si;
     catalog_index := catalog_index si; num_channels := num_channels si;
     channel := channel si; enable_count := enable_count si;
     sampling_rate := sampling_rate si;
     last_integration_ts := last_integration_ts si;
     report_buffer := x;
     report_pending := report_pending si; ops := ops si |}.

Definition set_report_pending (x : Z) (si : sensor_info_t) : sensor_info_t :=
  {| internal_name := internal_name si; dev_num := dev_num si;
     catalog_index := catalog_index si; num_channels := num_channels si;
     channel := channel si; enable_count := enable_count si;
     sampling_rate := sampling_rate si;
     last_integration_ts := last_integration_ts si;
     report_buffer := report_buffer si;
     report_pending := x; ops := ops si |}.

Definition set_offset (x : Z) (ch : channel_info_t) : channel_info_t :=
  {| offset := x; size := size ch; type_spec := type_spec ch;
     type_info := type_info ch |}.

Definition set_size (x : Z) (ch : channel_info_t) : channel_info_t :=
  {| offset := offset ch; size := x; type_spec := type_spec ch;
     type_info := type_info ch |}.

Definition set_type (spec : string) (info : datum_info_t) (ch : channel_info_t)
    : channel_info_t :=
  {| offset := offset ch; size := size ch; type_spec := spec;
     type_info := info |}.

(** ** Array accesses

    A read outside a list yields the zero value; a write outside leaves the
    list as it is (the C arrays have no defined behaviour there). *)

Definition arr_get (l : list Z) (i : nat) : Z := default 0 (l !! i).

Definition sensor_at (w : world) (s : nat) : sensor_info_t :=
  default sensor_zero (sensor_info w !! s).

Definition channel_at (si : sensor_info_t) (c : nat) : channel_info_t :=
  default channel_zero (channel si !! c).

Definition catalog_channel (i c : nat) : channel_descriptor_t :=
  default no_channel (cat_channel (sensor_catalog i) !! c).

(** ** The state monad *)

Definition M (A : Type) : Type := world → A * world.

Definition ret {A : Type} (a : A) : M A := λ w, (a, w).

Definition bind {A B : Type} (f : A → M B) (m : M A) : M B :=
  λ w, let '(a, w') := m w in f a w'.

#[global] Instance M_ret : MRet M := @ret.
#[global] Instance M_bind : MBind M := @bind.

Definition gets {A : Type} (f : world → A) : M A := λ w, (f w, w).
Definition modify (f : world → world) : M unit := λ w, (tt, f w).

(** [for (x in l) body(x);] *)
Fixpoint for_each {A : Type} (l : list A) (body : A → M unit) : M unit :=
  match l with
  | [] => ret tt
  | x :: l' => body x ;; for_each l' body
  end.

Definition update_sensor (s : nat) (f : sensor_info_t → sensor_info_t) : M unit :=
  modify (λ w, set_sensor_info (<[s := f (sensor_at w s)]> (sensor_info w)) w).

Definition update_channel (s c : nat) (f : channel_info_t → channel_info_t) : M unit :=
  update_sensor s (λ si, set_channel (<[c := f (channel_at si c)]> (channel si)) si).

(** ** System calls *)

Variable K : kernel.

Definition tick : M nat := gets (λ w, length (trace w)).
Definition emit (e : event) : M unit := modify (λ w, set_trace (trace w ++ [e]) w).

Definition ALOGW (msg : string) : M unit := emit (Log LOG_WARN msg).
Definition ALOGE (msg : string) : M unit := emit (Log LOG_ERROR msg).

Definition get_timestamp : M Z :=
  t ← tick;
  let r := k_get_timestamp K t in
  emit (GetTimestamp r) ;; ret r.

(** utils.c: [sysfs_read_int] gives -1 when the attribute cannot be read
    ([None]) and otherwise 0 with the parsed number. *)
Definition sysfs_read_int (p : path) : M (option Z) :=
  t ← tick;
  let r := k_sysfs_read_int K t p in
  emit (SysfsReadInt p r) ;; ret r.

Definition sysfs_read_str (p : path) : M (option string) :=
  t ← tick;
  let r := k_sysfs_read_str K t p in
  emit (SysfsReadStr p r) ;; ret r.

Definition sysfs_write_int (p : path) (value : Z) : M Z :=
  t ← tick;
  emit (SysfsWriteInt p value) ;; ret (k_sysfs_write K t).

Definition sysfs_write_str (p : path) (str : string) : M Z :=
  if decide (str = "") then ret (-1)
  else t ← tick; emit (SysfsWriteStr p str) ;; ret (k_sysfs_write K t).

(** Descriptors the process holds, as far as this unit knows them. *)
Definition open_fds (w : world) : list Z :=
  poll_fd w :: (poll_socket_pair w).1 :: (poll_socket_pair w).2 :: device_fd w.

(** [open]: the kernel hands out a non-negative descriptor that is not
    open at the moment, or fails; any other answer of the oracle is read
    as a failure. *)
Definition open_result (t : nat) (w : world) : Z :=
  match k_open K t with
  | Some fd => if (0 <=? fd) && negb (bool_decide (fd ∈ open_fds w)) then fd else -1
  | None => -1
  end.

Definition sys_open (p : path) : M Z :=
  t ← tick;
  r ← gets (open_result t);
  emit (Open p r) ;; ret r.

(** [close] also drops the descriptor from the interest list. *)
Definition sys_close (fd : Z) : M unit :=
  emit (Close fd) ;;
  modify (λ w, set_poll_set (filter (λ e, e.1 ≠ fd) (poll_set w)) w).

Definition epoll_ctl_add (fd : Z) (data_u32 : Z) : M Z :=
  t ← tick;
  let r := if k_epoll_ctl_ok K t then 0 else -1 in
  emit (EpollCtlAdd fd data_u32 r) ;;
  (if k_epoll_ctl_ok K t
   then modify (λ w, set_poll_set (poll_set w ++ [(fd, data_u32)]) w)
   else ret tt) ;;
  ret r.

Definition epoll_ctl_del (fd : Z) : M unit :=
  emit (EpollCtlDel fd) ;;
  modify (λ w, set_poll_set (filter (λ e, e.1 ≠ fd) (poll_set w)) w).

(** [write(poll_socket_pair[1], "", 1)] *)
Definition release_poll_loop : M unit :=
  fd ← gets (λ w, (poll_socket_pair w).2); emit (WriteByte fd).

(** ** Low level buffer and trigger control *)

Definition enable_buffer (dev_num : nat) (enabled : Z) : M Z :=
  sysfs_write_int (ENABLE_PATH dev_num) enabled.

Definition setup_trigger (dev_num : nat) (trigger_val : string) : M Z :=
  sysfs_write_str (TRIGGER_PATH dev_num) trigger_val.

(** ** Report-layout planner: [refresh_sensor_report_maps]

    The three local tables, indexed by scan index, and the running count of
    channels found. *)

Record index_tables : Type := {
  channel_size_from_index : list Z;
  sensor_handle_from_index : list nat;
  channel_number_from_index : list nat;
  active_channels : Z
}.

(** [int t[MAX_SENSORS * MAX_CHANNELS] = { 0 }] *)
Definition tables_zero : index_tables :=
  {| channel_size_from_index := replicate (MAX_SENSORS * MAX_CHANNELS) 0;
     sensor_handle_from_index := replicate (MAX_SENSORS * MAX_CHANNELS) 0%nat;
     channel_number_from_index := replicate (MAX_SENSORS * MAX_CHANNELS) 0%nat;
     active_channels := 0 |}.

(** "Record what this index is about".  The guard of the caller bounds
    [ch_index] from above only; a negative index addresses memory below the
    tables, which the model leaves untouched while still counting the
    channel. *)
Definition record_index (ch_index : Z) (s c : nat) (sz : Z) (t : index_tables)
    : index_tables :=
  if ch_index <? 0 then
    {| channel_size_from_index := channel_size_from_index t;
       sensor_handle_from_index := sensor_handle_from_index t;
       channel_number_from_index := channel_number_from_index t;
       active_channels := wrap_int (active_channels t + 1) |}
  else
    {| channel_size_from_index :=
         <[Z.to_nat ch_index := sz]> (channel_size_from_index t);
       sensor_handle_from_index :=
         <[Z.to_nat ch_index := s]> (sensor_handle_from_index t);
       channel_number_from_index :=
         <[Z.to_nat ch_index := c]> (channel_number_from_index t);
       active_channels := wrap_int (active_channels t + 1) |}.

(** Body of the inner loop: read the status of channel [c] of sensor [s]
    through its _en, _type and _index attributes. *)
Definition read_channel_status (s c : nat) (t : index_tables) : M index_tables :=
  si ← gets (λ w, sensor_at w s);
  let i := catalog_index si in
  (* Read _en file *)
  n_en ← sysfs_read_int (CHANNEL_PATH (dev_num si) (en_path (catalog_channel i c)));
  match n_en with
  | None => ALOGW "Failed to read _en flag" ;; ret t
  | Some ch_enabled =>
    (if negb (lnot ch_enabled =? 1)
     then update_channel s c (set_size 0)
     else ret tt) ;;
    (* Read _type file *)
    n_type ← sysfs_read_str (CHANNEL_PATH (dev_num si) (type_path (catalog_channel i c)));
    match n_type with
    | None => ALOGW "Failed to read type" ;; ret t
    | Some spec_buf =>
      let '(sz, info) := decode_type_spec spec_buf in
      update_channel s c (set_type spec_buf info) ;;
      (* Read _index file *)
      n_index ← sysfs_read_int (CHANNEL_PATH (dev_num si) (index_path (catalog_channel i c)));
      match n_index with
      | None => ALOGW "Failed to read index" ;; ret t
      | Some ch_index =>
        if ch_index >=? Z.of_nat MAX_SENSORS
        then ALOGE "Index out of bounds!" ;; ret t
        else ret (record_index ch_index s c sz t)
      end
    end
  end.

Fixpoint read_channels (s : nat) (cs : list nat) (t : index_tables) : M index_tables :=
  match cs with
  | [] => ret t
  | c :: cs' => t' ← read_channel_status s c t; read_channels s cs' t'
  end.

(** First loop: every sensor linked to the device. *)
Fixpoint read_sensors (dev : nat) (ss : list nat) (t : index_tables) : M index_tables :=
  match ss with
  | [] => ret t
  | s :: ss' =>
    si ← gets (λ w, sensor_at w s);
    if decide (dev_num si ≠ dev) then read_sensors dev ss' t
    else t' ← read_channels s (seq 0 (num_channels si)) t; read_sensors dev ss' t'
  end.

(** Second loop: walk the scan indices in order and hand out offsets. *)
Fixpoint assign_offsets (t : index_tables) (idxs : list nat) (off : Z) : M unit :=
  match idxs with
  | [] => ret tt
  | i :: idxs' =>
    let s := default 0%nat (sensor_handle_from_index t !! i) in
    let c := default 0%nat (channel_number_from_index t !! i) in
    let sz := arr_get (channel_size_from_index t) i in
    if sz =? 0 then assign_offsets t idxs' off
    else
      update_channel s c (set_offset off) ;;
      update_channel s c (set_size sz) ;;
      assign_offsets t idxs' (wrap_int (off + sz))
  end.

Definition refresh_sensor_report_maps (dev : nat) : M unit :=
  count ← gets sensor_count;
  t ← read_sensors dev (seq 0 count) tables_zero;
  assign_offsets t (seq 0 (MAX_SENSORS * MAX_CHANNELS)) 0.

(** ** Activation manager *)

Definition zero_buffer : list Z := replicate MAX_SENSOR_REPORT_SIZE 0.

(** "We changed the state of a sensor - adjust per iio device counters" *)
Definition adjust_device_counters (s : nat) (enabled : Z) : M Z :=
  si ← gets (λ w, sensor_at w s);
  let dev := dev_num si in
  if decide (num_channels si ≠ 0%nat) then
    (if enabled =? 0
     then modify (λ w, set_trig_sensors_per_dev
            (<[dev := wrap_int (arr_get (trig_sensors_per_dev w) dev - 1)]>
               (trig_sensors_per_dev w)) w)
     else modify (λ w, set_trig_sensors_per_dev
            (<[dev := wrap_int (arr_get (trig_sensors_per_dev w) dev + 1)]>
               (trig_sensors_per_dev w)) w)) ;;
    ret 1
  else if enabled =? 0 then
    modify (λ w, set_active_poll_sensors (wrap_int (active_poll_sensors w - 1)) w) ;;
    modify (λ w, set_poll_sensors_per_dev
            (<[dev := wrap_int (arr_get (poll_sensors_per_dev w) dev - 1)]>
               (poll_sensors_per_dev w)) w) ;;
    ret 1
  else
    modify (λ w, set_active_poll_sensors (wrap_int (active_poll_sensors w + 1)) w) ;;
    modify (λ w, set_poll_sensors_per_dev
            (<[dev := wrap_int (arr_get (poll_sensors_per_dev w) dev + 1)]>
               (poll_sensors_per_dev w)) w) ;;
    ret 1.

(** -1 on an inconsistency, 0 when nothing is left to do, 1 when the state
    of the sensor toggled. *)
Definition adjust_counters (s : nat) (enabled : Z) : M Z :=
  if enabled =? 0 then
    si ← gets (λ w, sensor_at w s);
    if enable_count si =? 0 then ret (-1)     (* Spurious disable call *)
    else
      update_sensor s (λ si, set_enable_count (wrap_int (enable_count si - 1)) si) ;;
      si ← gets (λ w, sensor_at w s);
      if enable_count si >? 0 then ret 0
      else
        update_sensor s (set_report_pending 0) ;;
        update_sensor s (set_report_buffer zero_buffer) ;;
        adjust_device_counters s enabled
  else
    update_sensor s (λ si, set_enable_count (wrap_int (enable_count si + 1)) si) ;;
    si ← gets (λ w, sensor_at w s);
    if negb (enable_count si =? 1) then ret 0
    else adjust_device_counters s enabled.

(** "Configure trigger": the [switch] on the number of trigger-mode
    sensors now active on the device. *)
Definition configure_trigger (dev : nat) (name : string) : M unit :=
  trig ← gets (λ w, arr_get (trig_sensors_per_dev w) dev);
  if trig =? 0 then setup_trigger dev "none" ;; ret tt
  else if trig =? 1 then
    setup_trigger dev (name +:+ "-dev" +:+ pretty dev) ;; ret tt
  else ret tt      (* The trigger is already set *).

(** The block guarded by [if (!is_poll_sensor)]: buffer off, trigger,
    channel enables, layout refresh, buffer on. *)
Definition configure_trigger_sensor (s : nat) (enabled : Z) : M unit :=
  si ← gets (λ w, sensor_at w s);
  let dev := dev_num si in
  let i := catalog_index si in
  (* Changes have to be made while the buffer is turned off *)
  enable_buffer dev 0 ;;
  configure_trigger dev (internal_name si) ;;
  for_each (seq 0 (num_channels si))
    (λ c, sysfs_write_int (CHANNEL_PATH dev (en_path (catalog_channel i c))) enabled ;;
          ret tt) ;;
  (* If there's at least one sensor left *)
  trig ← gets (λ w, arr_get (trig_sensors_per_dev w) dev);
  if trig =? 0 then ret tt
  else refresh_sensor_report_maps dev ;; enable_buffer dev 1 ;; ret tt.

(** The tail of [sensor_activate]: keep a descriptor on the character
    device while someone uses it. *)
Definition manage_device_fd (s : nat) (enabled : Z) (dev : nat) (is_poll_sensor : bool)
    : M Z :=
  dev_fd ← gets (λ w, arr_get (device_fd w) dev);
  if enabled =? 0 then
    polls ← gets (λ w, arr_get (poll_sensors_per_dev w) dev);
    trigs ← gets (λ w, arr_get (trig_sensors_per_dev w) dev);
    (if negb (dev_fd =? -1) && (polls =? 0) && (trigs =? 0) then
       epoll_ctl_del dev_fd ;;
       sys_close dev_fd ;;
       modify (λ w, set_device_fd (<[dev := -1]> (device_fd w)) w)
     else ret tt) ;;
    ret 0
  else if dev_fd =? -1 then
    (* First enabled sensor on this iio device *)
    dev_fd ← sys_open (DEV_FILE_PATH dev);
    modify (λ w, set_device_fd (<[dev := dev_fd]> (device_fd w)) w) ;;
    if dev_fd =? -1 then
      ALOGE "Could not open fd" ;;
      adjust_counters s 0 ;;
      ret (-1)
    else if negb is_poll_sensor then
      (* Add this iio device fd to the set of watched fds *)
      r ← epoll_ctl_add dev_fd (Z.of_nat dev);
      if r =? -1 then ALOGE "Failed adding to poll set" ;; ret (-1)
      else release_poll_loop ;; ret 0
    else release_poll_loop ;; ret 0
  else
    (* Release the polling loop so an updated timeout gets used *)
    release_poll_loop ;; ret 0.

Definition sensor_activate (s : nat) (enabled : Z) : M Z :=
  si ← gets (λ w, sensor_at w s);
  let dev := dev_num si in
  let is_poll_sensor := bool_decide (num_channels si = 0%nat) in
  r ← adjust_counters s enabled;
  (* If the operation was neutral in terms of state, we're done *)
  if r <=? 0 then ret r
  else
    (if is_poll_sensor then ret tt else configure_trigger_sensor s enabled) ;;
    manage_device_fd s enabled dev is_poll_sensor.

(** ** Report demultiplexer: [integrate_device_report] *)

(** Sum of the channel sizes of every sensor of the device. *)
Definition expected_report_size (w : world) (dev : nat) : Z :=
  foldl (λ acc s,
           let si := sensor_at w s in
           if decide (dev_num si = dev)
           then foldl (λ acc' c, wrap_int (acc' + size (channel_at si c)))
                      acc (seq 0 (num_channels si))
           else acc)
        0 (seq 0 MAX_SENSORS).

(** [memcpy(dst + at, src, |src|)] inside a buffer. *)
Definition memcpy_at (dst : list Z) (pos : Z) (src : list Z) : list Z :=
  take (Z.to_nat pos) dst ++ src ++ drop (Z.to_nat pos + length src) dst.

(** Copy the channels of one sensor out of the device report [buf]; the
    result is the report buffer. *)
Fixpoint copy_channels (si : sensor_info_t) (buf : list Z) (cs : list nat)
    (sr_offset : Z) (target : list Z) : list Z :=
  match cs with
  | [] => target
  | c :: cs' =>
    let source := drop (Z.to_nat (offset (channel_at si c))) buf in
    let sz := size (channel_at si c) in
    copy_channels si buf cs' (wrap_int (sr_offset + sz))
      (memcpy_at target sr_offset (take (Z.to_nat sz) source))
  end.

Definition sys_read_report (fd : Z) (count : Z) : M (option (list Z)) :=
  t ← tick;
  let r := take (Z.to_nat count) <$> k_read_report K t count in
  emit (ReadReport fd count r) ;; ret r.

Definition integrate_device_report (dev_num_ : Z) : M Z :=
  trigs ← gets (λ w, arr_get (trig_sensors_per_dev w) (Z.to_nat dev_num_));
  if (dev_num_ <? 0) || (dev_num_ >=? Z.of_nat MAX_DEVICES) || (trigs =? 0) then
    ALOGE "Event reported on unexpected iio device" ;; ret (-1)
  else
    let dev := Z.to_nat dev_num_ in
    expected_size ← gets (λ w, expected_report_size w dev);
    fd ← gets (λ w, arr_get (device_fd w) dev);
    len ← sys_read_report fd expected_size;
    match len with
    | None => ALOGE "Could not read report from iio device" ;; ret (-1)
    | Some bytes =>
      let buf := take (MAX_SENSOR_REPORT_SIZE * MAX_SENSORS)
                   (bytes ++ replicate (MAX_SENSOR_REPORT_SIZE * MAX_SENSORS) 0) in
      for_each (seq 0 MAX_SENSORS) (λ s,
        si ← gets (λ w, sensor_at w s);
        if decide (dev_num si = dev) then
          (* Copy data from device to sensor report buffer *)
          update_sensor s (λ si, set_report_buffer
            (copy_channels si buf (seq 0 (num_channels si)) 0 (report_buffer si)) si) ;;
          (if enable_count si =? 0 then ret tt
           else update_sensor s (set_report_pending 1))
        else ret tt) ;;
      ret 0
    end.

(** ** Event shaper: [propagate_sensor_report] *)

Definition num_fields_of_type (sensor_type : Z) : option nat :=
  if (sensor_type =? SENSOR_TYPE_ACCELEROMETER)
     || (sensor_type =? SENSOR_TYPE_MAGNETIC_FIELD)
     || (sensor_type =? SENSOR_TYPE_ORIENTATION)
     || (sensor_type =? SENSOR_TYPE_GYROSCOPE) then Some 3%nat
  else if (sensor_type =? SENSOR_TYPE_LIGHT)
     || (sensor_type =? SENSOR_TYPE_AMBIENT_TEMPERATURE)
     || (sensor_type =? SENSOR_TYPE_TEMPERATURE)
     || (sensor_type =? SENSOR_TYPE_PROXIMITY)
     || (sensor_type =? SENSOR_TYPE_PRESSURE)
     || (sensor_type =? SENSOR_TYPE_RELATIVE_HUMIDITY) then Some 1%nat
  else if sensor_type =? SENSOR_TYPE_ROTATION_VECTOR then Some 4%nat
  else if sensor_type =? SENSOR_TYPE_DEVICE_PRIVATE_BASE then Some 0%nat
  else None.

Definition set_data (x : list float) (e : sensors_event_t) : sensors_event_t :=
  {| version := version e; sensor := sensor e; ev_type := ev_type e;
     timestamp := timestamp e; data := x |}.

Definition acquire_immediate_value (s c : nat) : M float :=
  t ← tick;
  let r := k_acquire_immediate_value K t s c in
  emit (AcquireImmediateValue s c r) ;; ret r.

(** Poll-mode: read the fields through sysfs. *)
Fixpoint acquire_fields (s : nat) (cs : list nat) (e : sensors_event_t)
    : M sensors_event_t :=
  match cs with
  | [] => ret e
  | c :: cs' =>
    v ← acquire_immediate_value s c;
    acquire_fields s cs' (set_data (<[c := v]> (data e)) e)
  end.

(** Trigger-mode: convert the fields of the report buffer, starting at
    [current_sample]. *)
Fixpoint transform_fields (si : sensor_info_t) (s : nat) (cs : list nat)
    (current_sample : Z) (e : sensors_event_t) : sensors_event_t :=
  match cs with
  | [] => e
  | c :: cs' =>
    let v := transform (ops si) s c (drop (Z.to_nat current_sample) (report_buffer si)) in
    transform_fields si s cs' (current_sample + size (channel_at si c))
      (set_data (<[c := v]> (data e)) e)
  end.

Definition propagate_sensor_report (s : nat) : M sensors_event_t :=
  si ← gets (λ w, sensor_at w s);
  let sensor_type := type (sensor_catalog (catalog_index si)) in
  ts ← get_timestamp;
  let e := {| version := sizeof_sensors_event_t; sensor := Z.of_nat s;
              ev_type := sensor_type; timestamp := ts;
              data := replicate 16 float_zero |} in
  num_fields ← match num_fields_of_type sensor_type with
               | Some n => ret n
               | None => ALOGE "Unknown sensor type!" ;; ret 0%nat
               end;
  (* Take note of current time counter value for rate control purposes *)
  ts' ← get_timestamp;
  update_sensor s (set_last_integration_ts ts') ;;
  (* If we're dealing with a poll-mode sensor *)
  if decide (num_channels si = 0%nat) then
    e' ← acquire_fields s (seq 0 num_fields) e;
    ret (finalize (ops si) s e')
  else
    si' ← gets (λ w, sensor_at w s);
    ret (finalize (ops si) s (transform_fields si' s (seq 0 num_fields) 0 e)).

(** ** Rate controller, timer side: [get_poll_time] *)

Definition lowest_target_ts (w : world) : Z :=
  foldl (λ lowest s,
           let si := sensor_at w s in
           if negb (enable_count si =? 0) && negb (sampling_rate si =? 0)
              && bool_decide (num_channels si = 0%nat)
           then
             let target_ts := wrap_int64 (last_integration_ts si
                                          + Z.quot 1000000000 (sampling_rate si)) in
             if target_ts <? lowest then target_ts else lowest
           else lowest)
        INT64_MAX (seq 0 (sensor_count w)).

Definition get_poll_time : M Z :=
  aps ← gets active_poll_sensors;
  if aps =? 0 then ret (-1)      (* Infinite wait *)
  else
    lowest ← gets lowest_target_ts;
    if lowest =? INT64_MAX then ret (-1)
    else
      current_ts ← get_timestamp;
      if lowest <=? current_ts then ret 0
      else ret (wrap_int (Z.quot (wrap_int64 (lowest - current_ts)) 1000000)).  (* ms *)

(** ** Wait and dispatch loop: [sensor_poll] *)

Definition acknowledge_release : M unit :=
  fd ← gets (λ w, (poll_socket_pair w).1); emit (ReadByte fd).

Definition usleep (us : Z) : M unit := emit (Usleep us).

Definition epoll_wait (timeout : Z) : M (option (list epoll_event)) :=
  t ← tick;
  let r := take MAX_DEVICES <$> k_epoll_wait K t in
  emit (EpollWait timeout r) ;; ret r.

(** The loop at [return_first_available_sensor_report]. *)
Fixpoint return_first_available_sensor_report (ss : list nat)
    : M (option sensors_event_t) :=
  match ss with
  | [] => ret None
  | s :: ss' =>
    si ← gets (λ w, sensor_at w s);
    if report_pending si =? 0 then return_first_available_sensor_report ss'
    else
      (* Return that up *)
      e ← propagate_sensor_report s;
      update_sensor s (set_report_pending 0) ;;
      ret (Some e)
  end.

(** "Keep a minimum time interval between poll operations" *)
Definition keep_min_interval : M unit :=
  now ← get_timestamp;
  last ← gets last_poll_exit_ts;
  let delta := wrap_int (Z.quot (wrap_int64 (now - last)) 1000) in
  if (delta >? 0) && (delta <? POLL_MIN_INTERVAL)
  then usleep (POLL_MIN_INTERVAL - delta)
  else ret tt.

(** "For each of the devices for which a report is available"; the result
    tells whether the loop left through [goto await_event]. *)
Fixpoint dispatch_events (evs : list epoll_event) : M bool :=
  match evs with
  | [] => ret false
  | e :: evs' =>
    if events e =? EPOLLIN then
      if data_u32 e =? INVALID_DEV_NUM then acknowledge_release ;; ret true
      else integrate_device_report (wrap_int (data_u32 e)) ;; dispatch_events evs'
    else dispatch_events evs'
  end.

(** "It's a good time to invalidate poll-mode sensor values" *)
Definition invalidate_poll_sensors : M unit :=
  aps ← gets active_poll_sensors;
  if aps =? 0 then ret tt
  else
    count ← gets sensor_count;
    for_each (seq 0 count) (λ s,
      si ← gets (λ w, sensor_at w s);
      if negb (enable_count si =? 0) && bool_decide (num_channels si = 0%nat)
      then update_sensor s (set_report_pending 1)
      else ret tt).

(** From the label [await_event] on; every [goto] spends one unit of
    [fuel], and [None] means the loop is still waiting when it runs out. *)
Fixpoint await_event (fuel : nat) : M (option (Z * sensors_event_t)) :=
  match fuel with
  | O => ret None
  | S fuel' =>
    keep_min_interval ;;
    timeout ← get_poll_time;
    nfds ← epoll_wait timeout;
    ts ← get_timestamp;
    modify (set_last_poll_exit_ts ts) ;;
    match nfds with
    | None => await_event fuel'
    | Some evs =>
      again ← dispatch_events evs;
      if again : bool then await_event fuel'
      else
        invalidate_poll_sensors ;;
        count ← gets sensor_count;
        found ← return_first_available_sensor_report (seq 0 count);
        match found with
        | Some e => ret (Some (1, e))
        | None => await_event fuel'
        end
    end
  end.

Definition sensor_poll (fuel : nat) (count : Z) : M (option (Z * sensors_event_t)) :=
  n ← gets sensor_count;
  found ← return_first_available_sensor_report (seq 0 n);
  match found with
  | Some e => ret (Some (1, e))
  | None => await_event fuel
  end.

(** ** Rate controller, control side: [sensor_set_delay] *)

Definition sensor_set_delay (s : nat) (ns : Z) : M Z :=
  si ← gets (λ w, sensor_at w s);
  let dev := dev_num si in
  let prefix := tag (sensor_catalog (catalog_index si)) in
  if ns =? 0 then
    ALOGE "Rejecting zero delay request" ;; ret (- EINVAL)
  else
    let new_sampling_rate := wrap_int (Z.quot 1000000000 ns) in
    let new_sampling_rate := if new_sampling_rate =? 0 then 1 else new_sampling_rate in
    cur ← sysfs_read_int (SENSOR_SAMPLING_PATH dev prefix);
    match cur with
    | Some cur_sampling_rate =>
      if new_sampling_rate =? cur_sampling_rate then ret tt
      else
        trigs ← gets (λ w, arr_get (trig_sensors_per_dev w) dev);
        (if trigs =? 0 then ret tt else enable_buffer dev 0 ;; ret tt) ;;
        sysfs_write_int (SENSOR_SAMPLING_PATH dev prefix) new_sampling_rate ;;
        trigs ← gets (λ w, arr_get (trig_sensors_per_dev w) dev);
        (if trigs =? 0 then ret tt else enable_buffer dev 1 ;; ret tt)
    | None => ret tt
    end ;;
    update_sensor s (set_sampling_rate new_sampling_rate) ;;
    (* Release the polling loop so an updated timeout value gets used *)
    release_poll_loop ;;
    ret 0.

(** ** Start-up: [allocate_control_data] *)

Definition set_poll_fd (x : Z) (w : world) : world :=
  {| sensor_info := sensor_info w; sensor_count := sensor_count w;
     poll_sensors_per_dev := poll_sensors_per_dev w;
     trig_sensors_per_dev := trig_sensors_per_dev w;
     device_fd := device_fd w; poll_fd := x;
     poll_socket_pair := poll_socket_pair w;
     last_poll_exit_ts := last_poll_exit_ts w;
     active_poll_sensors := active_poll_sensors w;
     poll_set := poll_set w; trace := trace w |}.

Definition set_poll_socket_pair (x : Z * Z) (w : world) : world :=
  {| sensor_info := sensor_info w; sensor_count := sensor_count w;
     poll_sensors_per_dev := poll_sensors_per_dev w;
     trig_sensors_per_dev := trig_sensors_per_dev w;
     device_fd := device_fd w; poll_fd := poll_fd w;
     poll_socket_pair := x;
     last_poll_exit_ts := last_poll_exit_ts w;
     active_poll_sensors := active_poll_sensors w;
     poll_set := poll_set w; trace := trace w |}.

(** The statics as the loader leaves them, with the sensor table as the
    enumerator filled it. *)
Definition process_start (sensors : list sensor_info_t) (count : nat) : world :=
  {| sensor_info := sensors; sensor_count := count;
     poll_sensors_per_dev := replicate MAX_DEVICES 0;
     trig_sensors_per_dev := replicate MAX_DEVICES 0;
     device_fd := replicate MAX_DEVICES 0;
     poll_fd := 0; poll_socket_pair := (0, 0);
     last_poll_exit_ts := 0; active_poll_sensors := 0;
     poll_set := []; trace := [] |}.

Definition allocate_control_data : M Z :=
  modify (set_device_fd (replicate MAX_DEVICES (-1))) ;;
  t ← tick;
  let epfd := k_epoll_create K t in
  emit (EpollCreate epfd) ;;
  modify (set_poll_fd epfd) ;;
  if epfd =? -1 then
    ALOGE "Can't create epoll instance for iio sensors!" ;; ret (-1)
  else
    (* Create and add "unblocking" fd to the set of watched fds *)
    t ← tick;
    let sv := k_socketpair K t in
    emit (Socketpair sv) ;;
    match sv with
    | None =>
      ALOGE "Can't create socket pair for iio sensors!" ;;
      sys_close epfd ;; ret (-1)
    | Some fds =>
      modify (set_poll_socket_pair fds) ;;
      epoll_ctl_add fds.1 INVALID_DEV_NUM ;;
      ret epfd
    end.

(** ** Frames: what the layout planner may touch *)

(** Events the planner emits: reads of scan_elements attributes and
    diagnostics. *)
Definition is_layout_event (e : event) : bool :=
  match e with
  | SysfsReadInt (CHANNEL_PATH _ _) _ => true
  | SysfsReadStr (CHANNEL_PATH _ _) _ => true
  | Log _ _ => true
  | _ => false
  end.

(** Two sensor tables that differ in channel layouts only. *)
Definition layout_rel (l l' : list sensor_info_t) : Prop :=
  Forall2 (λ si si', si' = set_channel (channel si') si) l l'.

Definition layout_step (w w' : world) (evs : list event) : Prop :=
  w' = set_trace (trace w ++ evs) (set_sensor_info (sensor_info w') w)
  ∧ layout_rel (sensor_info w) (sensor_info w')
  ∧ Forall (λ e, is_layout_event e = true) evs.

Definition layout_only {A : Type} (m : M A) : Prop :=
  ∀ w, ∃ evs, layout_step w (m w).2 evs.

(** ** The control-plane view of [sensor_activate]

    What one call does to the refcount of its sensor, the per-device
    counters, the descriptor table and the interest list, as a function of
    the two answers of the kernel it may consume: the result [open_r] of
    [open] and whether EPOLL_CTL_ADD succeeds.  [sensor_activate_refines]
    relates it to the code. *)

Record ctl : Type := Ctl {
  c_enable_count : Z;
  c_polls : list Z;
  c_trigs : list Z;
  c_active : Z;
  c_fds : list Z;
  c_pset : list (Z * Z)
}.

Definition ctl_of (w : world) (s : nat) : ctl :=
  Ctl (enable_count (sensor_at w s)) (poll_sensors_per_dev w)
      (trig_sensors_per_dev w) (active_poll_sensors w) (device_fd w) (poll_set w).

Definition adjust_at (l : list Z) (d : nat) (k : Z) : list Z :=
  <[d := wrap_int (arr_get l d + k)]> l.

(** The per-device counters after an activation edge in direction [k]. *)
Definition edge_ctl (si : sensor_info_t) (k : Z) (ec : Z) (c : ctl) : ctl :=
  if decide (num_channels si ≠ 0%nat)
  then Ctl ec (c_polls c) (adjust_at (c_trigs c) (dev_num si) k) (c_active c)
           (c_fds c) (c_pset c)
  else Ctl ec (adjust_at (c_polls c) (dev_num si) k) (c_trigs c)
           (wrap_int (c_active c + k)) (c_fds c) (c_pset c).

Definition with_fd (d : nat) (fd : Z) (pset : list (Z * Z)) (c : ctl) : ctl :=
  Ctl (c_enable_count c) (c_polls c) (c_trigs c) (c_active c)
      (<[d := fd]> (c_fds c)) pset.

Definition with_enable_count (ec : Z) (c : ctl) : ctl :=
  Ctl ec (c_polls c) (c_trigs c) (c_active c) (c_fds c) (c_pset c).

(** Result, new view, and the events of the descriptor management. *)
Definition activate_ctl (si : sensor_info_t) (wakeup_fd : Z) (enabled : Z)
    (open_r : Z) (add_ok : bool) (c : ctl) : Z * ctl * list event :=
  let d := dev_num si in
  if enabled =? 0 then
    if c_enable_count c =? 0 then (-1, c, [])
    else
      let ec1 := wrap_int (c_enable_count c - 1) in
      if ec1 >? 0 then (0, with_enable_count ec1 c, [])
      else
        let c1 := edge_ctl si (-1) ec1 c in
        let fd := arr_get (c_fds c1) d in
        if negb (fd =? -1) && (arr_get (c_polls c1) d =? 0)
           && (arr_get (c_trigs c1) d =? 0)
        then (0, with_fd d (-1)
                   (filter (λ e, e.1 ≠ fd) (filter (λ e, e.1 ≠ fd) (c_pset c1))) c1,
              [EpollCtlDel fd; Close fd])
        else (0, c1, [])
  else
    let ec1 := wrap_int (c_enable_count c + 1) in
    if negb (ec1 =? 1) then (0, with_enable_count ec1 c, [])
    else
      let c1 := edge_ctl si 1 ec1 c in
      if arr_get (c_fds c1) d =? -1 then
        if open_r =? -1 then
          (-1, with_fd d (-1) (c_pset c1) (edge_ctl si (-1) (wrap_int (ec1 - 1)) c1),
           [Open (DEV_FILE_PATH d) (-1); Log LOG_ERROR "Could not open fd"])
        else if decide (num_channels si ≠ 0%nat) then
          if add_ok then
            (0, with_fd d open_r (c_pset c1 ++ [(open_r, Z.of_nat d)]) c1,
             [Open (DEV_FILE_PATH d) open_r; EpollCtlAdd open_r (Z.of_nat d) 0;
              WriteByte wakeup_fd])
          else
            (-1, with_fd d open_r (c_pset c1) c1,
             [Open (DEV_FILE_PATH d) open_r; EpollCtlAdd open_r (Z.of_nat d) (-1);
              Log LOG_ERROR "Failed adding to poll set"])
        else
          (0, with_fd d open_r (c_pset c1) c1,
           [Open (DEV_FILE_PATH d) open_r; WriteByte wakeup_fd])
      else (0, c1, [WriteByte wakeup_fd])
  .

(** Whether the counter step reports a toggle of the sensor. *)
Definition is_edge (enabled : Z) (ec : Z) : bool :=
  if enabled =? 0 then negb (ec =? 0) && negb (wrap_int (ec - 1) >? 0)
  else wrap_int (ec + 1) =? 1.

(** Shape of the events of [configure_trigger_sensor]: buffer off, at most
    one trigger write, one enable write per channel, and, when trigger-mode
    sensors remain on the device, the planner's reads followed by buffer
    on. *)
Definition configure_events (si : sensor_info_t) (enabled : Z) (trigs_left : Z)
    (evs : list event) : Prop :=
  ∃ trig_evs layout_evs,
    evs = SysfsWriteInt (ENABLE_PATH (dev_num si)) 0 :: trig_evs
          ++ map (λ c, SysfsWriteInt
                         (CHANNEL_PATH (dev_num si)
                            (en_path (catalog_channel (catalog_index si) c)))
                         enabled) (seq 0 (num_channels si))
          ++ (if trigs_left =? 0 then []
              else layout_evs ++ [SysfsWriteInt (ENABLE_PATH (dev_num si)) 1])
    ∧ (trig_evs = [] ∨ ∃ name, trig_evs = [SysfsWriteStr (TRIGGER_PATH (dev_num si)) name])
    ∧ Forall (λ e, is_layout_event e = true) layout_evs.

(** Fields of a sensor slot that no operation of this unit changes. *)
Definition same_identity (si si' : sensor_info_t) : Prop :=
  dev_num si' = dev_num si ∧ num_channels si' = num_channels si
  ∧ catalog_index si' = catalog_index si ∧ internal_name si' = internal_name si.

(** The world after [adjust_device_counters] moved the counters of the
    device of [si] by [k]. *)
Definition apply_edge (si : sensor_info_t) (k : Z) (w : world) : world :=
  if decide (num_channels si ≠ 0%nat)
  then set_trig_sensors_per_dev
         (adjust_at (trig_sensors_per_dev w) (dev_num si) k) w
  else set_poll_sensors_per_dev
         (adjust_at (poll_sensors_per_dev w) (dev_num si) k)
         (set_active_poll_sensors (wrap_int (active_poll_sensors w + k)) w).

(** What a call of [sensor_activate] on sensor [s] leaves alone. *)
Definition activate_frame (s : nat) (w w' : world) : Prop :=
  sensor_count w' = sensor_count w
  ∧ poll_fd w' = poll_fd w
  ∧ poll_socket_pair w' = poll_socket_pair w
  ∧ last_poll_exit_ts w' = last_poll_exit_ts w
  ∧ length (sensor_info w') = length (sensor_info w)
  ∧ (∀ s', same_identity (sensor_at w s') (sensor_at w' s'))
  ∧ (∀ s', s' ≠ s → enable_count (sensor_at w' s') = enable_count (sensor_at w s')).

(** Sensor tables that agree on the identity of every slot and on every
    refcount but that of slot [s]. *)
Definition ident_rel (s : nat) (l l' : list sensor_info_t) : Prop :=
  length l' = length l
  ∧ ∀ s', same_identity (default sensor_zero (l !! s')) (default sensor_zero (l' !! s'))
          ∧ (s' ≠ s → enable_count (default sensor_zero (l' !! s'))
                      = enable_count (default sensor_zero (l !! s'))).

(** ** Sequences of calls *)

(** [n] calls of [sensor_activate] on the same sensor; the results in call
    order. *)
Fixpoint activate_n (n : nat) (s : nat) (enabled : Z) : M (list Z) :=
  match n with
  | O => ret []
  | S n' =>
    r ← sensor_activate s enabled;
    rs ← activate_n n' s enabled;
    ret (r :: rs)
  end.

(** The activation counters that are not per sensor. *)
Definition counters (w : world) : list Z * list Z * Z :=
  (poll_sensors_per_dev w, trig_sensors_per_dev w, active_poll_sensors w).

Definition is_int (z : Z) : Prop := INT_MIN ≤ z ≤ INT_MAX.

(** The counters hold C [int]s. *)
Definition int_counters (w : world) : Prop :=
  Forall is_int (poll_sensors_per_dev w)
  ∧ Forall is_int (trig_sensors_per_dev w)
  ∧ is_int (active_poll_sensors w).

(** Events on which the poll loop blocks. *)
Definition is_wait_event (e : event) : bool :=
  match e with
  | EpollWait _ _ | Usleep _ => true
  | _ => false
  end.

(** ** Classes of events of an activation *)

(** A write of [v] to buffer/enable. *)
Definition is_buffer_enable (v : Z) (e : event) : bool :=
  match e with
  | SysfsWriteInt (ENABLE_PATH _) v' => v' =? v
  | _ => false
  end.

(** A write to the _en attribute of a channel. *)
Definition is_channel_enable (e : event) : bool :=
  match e with
  | SysfsWriteInt (CHANNEL_PATH _ _) _ => true
  | _ => false
  end.

(** A read of the layout planner. *)
Definition is_layout_read (e : event) : bool :=
  match e with
  | SysfsReadInt (CHANNEL_PATH _ _) _ => true
  | SysfsReadStr (CHANNEL_PATH _ _) _ => true
  | _ => false
  end.

Definition is_sysfs_event (e : event) : bool :=
  match e with
  | SysfsWriteInt _ _ | SysfsWriteStr _ _ | SysfsReadInt _ _ | SysfsReadStr _ _ => true
  | _ => false
  end.

(** The events a call appended to the trace. *)
Definition emitted (w w' : world) : list event :=
  drop (length (trace w)) (trace w').

(** A computation that only ever appends to the trace. *)
Definition trace_grows {A : Type} (m : M A) : Prop :=
  ∀ w, ∃ evs, trace (m w).2 = trace w ++ evs.

(** ** Waiter membership *)

(** Calls of [sensor_activate] in order, [(s, enabled)] each. *)
Fixpoint activate_all (calls : list (nat * Z)) : M (list Z) :=
  match calls with
  | [] => ret []
  | (s, enabled) :: calls' =>
    r ← sensor_activate s enabled;
    rs ← activate_all calls';
    ret (r :: rs)
  end.

(** The descriptor of device [d] is open and in the interest list. *)
Definition registered (w : world) (d : nat) : Prop :=
  arr_get (device_fd w) d ≠ -1 ∧ arr_get (device_fd w) d ∈ (poll_set w).*1.

(** Every sensor is bound to one of the devices 0 .. MAX_DEVICES - 1. *)
Definition devices_in_range (sensors : list sensor_info_t) : Prop :=
  Forall (λ si, (dev_num si < MAX_DEVICES)%nat) sensors.

(** Every sensor of device [d] is trigger-mode. *)
Definition trigger_only (sensors : list sensor_info_t) (d : nat) : Prop :=
  ∀ s si, sensors !! s = Some si → dev_num si = d → num_channels si ≠ 0%nat.

Definition counts_for (d : nat) (si : sensor_info_t) : Z :=
  if decide (dev_num si = d ∧ 0 < enable_count si) then 1 else 0.

(** Number of enabled sensors of device [d]. *)
Fixpoint enabled_on (d : nat) (l : list sensor_info_t) : Z :=
  match l with
  | [] => 0
  | si :: l' => counts_for d si + enabled_on d l'
  end.

(** What holds of a device [d] without poll-mode sensors after [k] calls,
    when registrations succeed. *)
Definition waiter_inv (sensors : list sensor_info_t) (d : nat) (k : Z) (w : world)
    : Prop :=
  length (sensor_info w) = length sensors
  ∧ (∀ s, same_identity (default sensor_zero (sensors !! s)) (sensor_at w s))
  ∧ (∀ s, 0 ≤ enable_count (sensor_at w s) ≤ k)
  ∧ arr_get (trig_sensors_per_dev w) d = enabled_on d (sensor_info w)
  ∧ arr_get (poll_sensors_per_dev w) d = 0
  ∧ length (trig_sensors_per_dev w) = MAX_DEVICES
  ∧ length (poll_sensors_per_dev w) = MAX_DEVICES
  ∧ length (device_fd w) = MAX_DEVICES
  ∧ (arr_get (device_fd w) d ≠ -1 ↔ 0 < arr_get (trig_sensors_per_dev w) d)
  ∧ (arr_get (device_fd w) d ≠ -1 → arr_get (device_fd w) d ∈ (poll_set w).*1)
  ∧ (∀ d', d' ≠ d → (d' < MAX_DEVICES)%nat → arr_get (device_fd w) d' ≠ -1 →
           arr_get (device_fd w) d' ≠ arr_get (device_fd w) d).

(** ** Pending reports *)

(** No report is pending for a sensor that is not enabled. *)
Definition no_stale_report (w : world) : Prop :=
  ∀ s, report_pending (sensor_at w s) ≠ 0 → enable_count (sensor_at w s) ≠ 0.

(** ** The wait loop *)

(** Events of the dispatch loop: the wakeup byte, a device report, a log
    line. *)
Definition is_dispatch_event (e : event) : bool :=
  match e with
  | ReadByte _ | ReadReport _ _ _ | Log _ _ => true
  | _ => false
  end.

(** A computation that appends only events accepted by [ok] to the trace
    and leaves [last_poll_exit_ts] alone. *)
Definition emits_only {A : Type} (ok : event → bool) (m : M A) : Prop :=
  ∀ w, ∃ evs, trace (m w).2 = trace w ++ evs
              ∧ Forall (λ e, ok e = true) evs
              ∧ last_poll_exit_ts (m w).2 = last_poll_exit_ts w.

(** The events of [sensor_poll] as rounds of the wait loop, from the
    value [last] of [last_poll_exit_ts] to its value [last'] at the end.
    A round is: what the dispatch loop of the previous round did, one clock
    reading [now], the sleep that [delta = (int) ((now - last) / 1000)]
    asks for, the clock reading of [get_poll_time] if it makes one, the
    wait, and the clock reading that becomes [last_poll_exit_ts].  After
    the last round nothing waits or sleeps. *)
Inductive poll_rounds : Z → list event → Z → Prop :=
  | rounds_end (last : Z) (evs : list event) :
      Forall (λ e, is_wait_event e = false) evs →
      poll_rounds last evs last
  | rounds_wait (last now timeout ts last' : Z) (r : option (list epoll_event))
      (mid pre rest : list event) :
      let delta := wrap_int (Z.quot (wrap_int64 (now - last)) 1000) in
      Forall (λ e, is_dispatch_event e = true) mid →
      (pre = [] ∨ ∃ t, pre = [GetTimestamp t]) →
      poll_rounds ts rest last' →
      poll_rounds last
        (mid ++ GetTimestamp now
           :: (if (delta >? 0) && (delta <? POLL_MIN_INTERVAL)
               then [Usleep (POLL_MIN_INTERVAL - delta)] else [])
           ++ pre ++ EpollWait timeout r :: GetTimestamp ts :: rest)
        last'.

End Control.

(** * utils.c: sysfs accessors and timestamps

    The functions of utils.c over the system calls they make.  A call
    appends one [sys_event] to the trace; the kernel's answer comes from an
    oracle [os] indexed by the number of calls made so far.  A pointer
    argument that may be NULL is an [option]; a buffer is the list of its
    bytes. *)

Module Utils.

Inductive open_flag : Type := O_RDONLY | O_WRONLY.

Inductive clockid : Type := CLOCK_REALTIME | CLOCK_BOOTTIME | CLOCK_MONOTONIC.

Record timespec : Type := {
  tv_sec : Z;
  tv_nsec : Z
}.

Inductive sys_event : Type :=
  | SysOpen (path : string) (flag : open_flag) (r : Z)
  | SysRead (fd : Z) (count : Z) (r : option (list Z))
  | SysWrite (fd : Z) (bytes : list Z) (r : Z)
  | SysClose (fd : Z)
  | SysClock (id : clockid) (r : timespec)
  | SysLog (l : log_level) (msg : string).

Record os : Type := {
  os_open : nat → string → open_flag → Z;
  os_read : nat → Z → Z → option (list Z);
  os_write : nat → Z → list Z → Z;
  os_clock : nat → clockid → timespec
}.

(** What libc and the ABI supply: the parsers behind [str2int],
    [str2float] and [str2uint64], and the widths of [time_t] and [long]. *)
Class Libc (F : Type) : Type := {
  atoi : list Z → Z;
  atoll : list Z → Z;
  strtof : list Z → F;
  time_t_bits : Z;
  long_bits : Z
}.

(** Two's complement reduction to a signed integer of [bits] bits. *)
Definition wrap_bits (bits : Z) (z : Z) : Z :=
  (z + 2 ^ (bits - 1)) mod 2 ^ bits - 2 ^ (bits - 1).

(** The bytes of a buffer up to the first NUL. *)
Fixpoint c_str (buf : list Z) : list Z :=
  match buf with
  | [] => []
  | b :: buf' => if b =? 0 then [] else b :: c_str buf'
  end.

Definition bytes_of_string (s : string) : list Z :=
  (λ c, Z.of_N (Ascii.N_of_ascii c)) <$> String.list_ascii_of_string s.

Definition U (A : Type) : Type := list sys_event → A * list sys_event.

#[global] Instance U_ret : MRet U := λ A (a : A) tr, (a, tr).
#[global] Instance U_bind : MBind U :=
  λ A B (f : A → U B) (m : U A) tr, let '(a, tr') := m tr in f a tr'.

Section Calls.

Context {F : Type} {L : Libc F}.
Variable O : os.

Definition sys_emit (e : sys_event) : U unit := λ tr, (tt, tr ++ [e]).

Definition sys_tick : U nat := λ tr, (length tr, tr).

Definition ALOGW (msg : string) : U unit := sys_emit (SysLog LOG_WARN msg).
Definition ALOGE (msg : string) : U unit := sys_emit (SysLog LOG_ERROR msg).

Definition sys_open (path : string) (flag : open_flag) : U Z :=
  t ← sys_tick;
  let r := os_open O t path flag in
  sys_emit (SysOpen path flag r) ;; mret r.

(** [read] hands back at most [count] bytes, or fails. *)
Definition sys_read (fd : Z) (count : Z) : U (option (list Z)) :=
  t ← sys_tick;
  let r := take (Z.to_nat count) <$> os_read O t fd count in
  sys_emit (SysRead fd count r) ;; mret r.

Definition sys_write (fd : Z) (bytes : list Z) : U Z :=
  t ← sys_tick;
  let r := os_write O t fd bytes in
  sys_emit (SysWrite fd bytes r) ;; mret r.

Definition sys_close (fd : Z) : U unit := sys_emit (SysClose fd).

Definition clock_gettime (id : clockid) : U timespec :=
  t ← sys_tick;
  let r := os_clock O t id in
  sys_emit (SysClock id r) ;; mret r.

(** The result and the buffer as the call leaves it. *)
Definition sysfs_read (path : string) (buf : option (list Z)) (buf_len : Z)
    : U (Z * option (list Z)) :=
  match buf with
  | None => mret (-1, buf)
  | Some b =>
    if bool_decide (path = "") || (buf_len <? 1) then mret (-1, buf)
    else
      fd ← sys_open path O_RDONLY;
      if fd =? -1 then mret (-1, buf)
      else
        len ← sys_read fd buf_len;
        sys_close fd ;;
        match len with
        | None => ALOGW "Cannot read from" ;; mret (-1, buf)
        | Some bytes =>
          mret (Z.of_nat (length bytes), Some (bytes ++ drop (length bytes) b))
        end
  end.

Definition sysfs_write (path : string) (buf : option (list Z)) (buf_len : Z) : U Z :=
  match buf with
  | None => mret (-1)
  | Some b =>
    if bool_decide (path = "") || (buf_len <? 1) then mret (-1)
    else
      fd ← sys_open path O_WRONLY;
      if fd =? -1 then mret (-1)
      else
        len ← sys_write fd (take (Z.to_nat buf_len) b);
        sys_close fd ;;
        (if len =? -1 then ALOGW "Cannot write to"
         else if negb (len =? buf_len) then ALOGW "Cannot write bytes to"
         else mret tt) ;;
        mret len
  end.

Definition sysfs_read_str (path : string) (buf : option (list Z)) (buf_len : Z)
    : U (Z * option (list Z)) :=
  match buf with
  | None => mret (-1, buf)
  | Some _ =>
    if buf_len <? 1 then mret (-1, buf)
    else
      r ← sysfs_read path buf buf_len;
      let len := r.1 in
      if len =? -1 then ALOGW "Cannot read string from" ;; mret (-1, r.2)
      else
        (* buf[len == 0 ? 0 : len - 1] = '\0' *)
        let idx := if len =? 0 then 0 else len - 1 in
        mret (len, (λ b, <[Z.to_nat idx := 0]> b) <$> r.2)
  end.

(** [char buf[20]] is not initialised: [stack] is whatever it holds.  The
    result is the return value and, on success, the number stored through
    [v]. *)
Definition sysfs_read_num {A : Type} (path : string) (str2num : list Z → A)
    (stack : list Z) : U (Z * option A) :=
  r ← sysfs_read_str path (Some (take 20 (stack ++ replicate 20 0))) 20;
  let len := r.1 in
  if len <=? 0 then ALOGW "Cannot read number from" ;; mret (-1, None)
  else mret (0, str2num <$> r.2).

Definition str2int (buf : list Z) : Z := atoi (c_str buf).
Definition str2float (buf : list Z) : F := strtof (c_str buf).
Definition str2uint64 (buf : list Z) : Z := atoll (c_str buf) mod 2 ^ 64.

Definition sysfs_read_int (path : string) (stack : list Z) : U (Z * option Z) :=
  sysfs_read_num path str2int stack.

Definition sysfs_read_float (path : string) (stack : list Z) : U (Z * option F) :=
  sysfs_read_num path str2float stack.

Definition sysfs_read_uint64 (path : string) (stack : list Z) : U (Z * option Z) :=
  sysfs_read_num path str2uint64 stack.

(** [sprintf(buf, "%d", value)] gives the decimal text of [value]. *)
Definition sysfs_write_int (path : string) (value : Z) : U Z :=
  let buf := bytes_of_string (pretty value) in
  let len := Z.of_nat (length buf) in
  if bool_decide (path = "") || (len <=? 0) then
    ALOGE "Unexpected condition in sysfs_write_int" ;; mret (-1)
  else
    fd ← sys_open path O_WRONLY;
    if fd =? -1 then mret (-1)
    else
      r ← sys_write fd buf;
      (if negb (r =? len) then ALOGW "Cannot write" else mret tt) ;;
      sys_close fd ;;
      mret r.

Definition sysfs_write_str (path : string) (str : option (list Z)) : U Z :=
  match str with
  | None => mret (-1)
  | Some s =>
    if default 0 (s !! 0%nat) =? 0 then mret (-1)
    else sysfs_write path str (Z.of_nat (length (c_str s)))
  end.

(** [1000000000LL * ts.tv_sec + ts.tv_nsec] *)
Definition timestamp_of (ts : timespec) : Z :=
  wrap_int64 (wrap_int64 (1000000000 * tv_sec ts) + tv_nsec ts).

Definition get_timestamp_realtime : U Z :=
  ts ← clock_gettime CLOCK_REALTIME; mret (timestamp_of ts).

Definition get_timestamp_boot : U Z :=
  ts ← clock_gettime CLOCK_BOOTTIME; mret (timestamp_of ts).

Definition get_timestamp_monotonic : U Z :=
  ts ← clock_gettime CLOCK_MONOTONIC; mret (timestamp_of ts).

Definition set_timestamp (target_ns : Z) : timespec :=
  {| tv_sec := wrap_bits time_t_bits (Z.quot target_ns 1000000000);
     tv_nsec := wrap_bits long_bits (Z.rem target_ns 1000000000) |}.

End Calls.

(** A run of system calls that holds at most one descriptor at a time,
    transfers data only on the descriptor it holds, closes only that one,
    and holds none at the end; [held] is the descriptor held at the
    start. *)
Fixpoint fd_discipline (held : option Z) (evs : list sys_event) : bool :=
  match evs with
  | [] => bool_decide (held = None)
  | SysOpen _ _ r :: evs' =>
    match held with
    | None => fd_discipline (if r =? -1 then None else Some r) evs'
    | Some _ => false
    end
  | SysRead fd _ _ :: evs' => bool_decide (held = Some fd) && fd_discipline held evs'
  | SysWrite fd _ _ :: evs' => bool_decide (held = Some fd) && fd_discipline held evs'
  | SysClose fd :: evs' => bool_decide (held = Some fd) && fd_discipline None evs'
  | SysClock _ _ :: evs' => fd_discipline held evs'
  | SysLog _ _ :: evs' => fd_discipline held evs'
  end.

End Utils.

(** * A concrete configuration

    An accelerometer with three 16-bit channels and a one-channel
    temperature sensor, both trigger-mode, and a poll-mode light sensor,
    all on iio device 0; floats are kept as integers.  Used to run the
    code on examples. *)

Module Demo.

Definition accel_channel (axis : string) : channel_descriptor_t :=
  {| en_path := "in_accel_" +:+ axis +:+ "_en";
     type_path := "in_accel_" +:+ axis +:+ "_type";
     index_path := "in_accel_" +:+ axis +:+ "_index" |}.

Definition temp_channel : channel_descriptor_t :=
  {| en_path := "in_temp_en"; type_path := "in_temp_type";
     index_path := "in_temp_index" |}.

Definition catalog (i : nat) : sensor_catalog_entry_t :=
  match i with
  | 0%nat => {| tag := "accel"; type := SENSOR_TYPE_ACCELEROMETER;
                cat_channel := [accel_channel "x"; accel_channel "y"; accel_channel "z"] |}
  | 1%nat => {| tag := "illuminance"; type := SENSOR_TYPE_LIGHT; cat_channel := [] |}
  | _ => {| tag := "temp"; type := SENSOR_TYPE_TEMPERATURE;
            cat_channel := [temp_channel] |}
  end.

(** Storage size in bytes of the descriptors used here. *)
Definition decode (spec : string) : Z * unit :=
  (if String.eqb spec "le:s16/16>>0" then 2
   else if String.eqb spec "le:s32/32>>0" then 4 else 0, tt).

#[local] Instance platform : Platform :=
  {| MAX_DEVICES := 8; MAX_SENSORS := 12; MAX_CHANNELS := 4;
     MAX_SENSOR_REPORT_SIZE := 32; sizeof_sensors_event_t := 104;
     float := Z; float_zero := 0;
     datum_info_t := unit; datum_info_zero := tt;
     decode_type_spec := decode; sensor_catalog := catalog |}.

Definition demo_ops : sensor_ops_t :=
  {| transform := λ _ _ bytes, default 0 (bytes !! 0%nat); finalize := λ _ e, e |}.

Definition make_sensor (name : string) (index channels : nat) : sensor_info_t :=
  {| internal_name := name; dev_num := 0%nat; catalog_index := index;
     num_channels := channels;
     channel := replicate 4 channel_zero; enable_count := 0;
     sampling_rate := 0; last_integration_ts := 0;
     report_buffer := replicate 32 0; report_pending := 0; ops := demo_ops |}.

Definition accel : sensor_info_t := make_sensor "accel" 0 3.
Definition light : sensor_info_t := make_sensor "als" 1 0.
Definition temp : sensor_info_t := make_sensor "temp" 2 1.

(** Scan index of a channel as a healthy kernel reports it. *)
Definition scan_index (file : string) : option Z :=
  if String.eqb file "in_accel_x_index" then Some 0
  else if String.eqb file "in_accel_y_index" then Some 1
  else if String.eqb file "in_accel_z_index" then Some 2
  else if String.eqb file "in_temp_index" then Some 3
  else None.

(** A kernel that answers every request: fresh descriptors, 16-bit
    channels, every _en attribute reading [en], scan indices given by
    [index], a clock that advances 1 ms per interaction, and a wait that
    fails. *)
Definition kernel_with (en : Z) (index : string → option Z) (add_ok : bool) : kernel :=
  {| k_get_timestamp := λ t, 1000000 * Z.of_nat t;
     k_open := λ t, Some (10 + Z.of_nat t);
     k_epoll_ctl_ok := λ _, add_ok;
     k_sysfs_read_int := λ _ p,
       match p with
       | CHANNEL_PATH _ f =>
         match index f with Some i => Some i | None => Some en end
       | SENSOR_SAMPLING_PATH _ _ => Some 10
       | _ => None
       end;
     k_sysfs_read_str := λ _ _, Some "le:s16/16>>0";
     k_sysfs_write := λ _, 1;
     k_epoll_wait := λ _, None;
     k_read_report := λ _ _, None;
     k_acquire_immediate_value := λ _ _ _, 0;
     k_epoll_create := λ _, 3;
     k_socketpair := λ _, Some (4, 5) |}.

Definition healthy : kernel := kernel_with 1 scan_index true.

(** The state after a successful [allocate_control_data]. *)
Definition booted (sensors : list sensor_info_t) : world :=
  (allocate_control_data healthy (process_start sensors (length sensors))).2.

(** A kernel whose scan_elements attributes cannot be read. *)
Definition unreadable : kernel :=
  {| k_get_timestamp := k_get_timestamp healthy;
     k_open := k_open healthy;
     k_epoll_ctl_ok := k_epoll_ctl_ok healthy;
     k_sysfs_read_int := λ _ _, None;
     k_sysfs_read_str := λ _ _, None;
     k_sysfs_write := k_sysfs_write healthy;
     k_epoll_wait := k_epoll_wait healthy;
     k_read_report := k_read_report healthy;
     k_acquire_immediate_value := k_acquire_immediate_value healthy;
     k_epoll_create := k_epoll_create healthy;
     k_socketpair := k_socketpair healthy |}.

(** A kernel that reports scan index [i] for the temperature channel. *)
Definition temp_index_at (i : Z) : kernel :=
  kernel_with 1 (λ f, if String.eqb f "in_temp_index" then Some i else None) true.

(** A kernel whose clock advances 100 ns per interaction and whose wait
    returns at once with no event. *)
Definition racing : kernel :=
  {| k_get_timestamp := λ t, 100 * Z.of_nat t;
     k_open := k_open healthy;
     k_epoll_ctl_ok := k_epoll_ctl_ok healthy;
     k_sysfs_read_int := k_sysfs_read_int healthy;
     k_sysfs_read_str := k_sysfs_read_str healthy;
     k_sysfs_write := k_sysfs_write healthy;
     k_epoll_wait := λ _, Some [];
     k_read_report := k_read_report healthy;
     k_acquire_immediate_value := k_acquire_immediate_value healthy;
     k_epoll_create := k_epoll_create healthy;
     k_socketpair := k_socketpair healthy |}.

(** A kernel that signals device 0 on every wait and delivers the report
    1, 2, ... 8; everything else as [healthy]. *)
Definition reporting : kernel :=
  {| k_get_timestamp := k_get_timestamp healthy;
     k_open := k_open healthy;
     k_epoll_ctl_ok := k_epoll_ctl_ok healthy;
     k_sysfs_read_int := k_sysfs_read_int healthy;
     k_sysfs_read_str := k_sysfs_read_str healthy;
     k_sysfs_write := k_sysfs_write healthy;
     k_epoll_wait := λ _, Some [{| events := EPOLLIN; data_u32 := 0 |}];
     k_read_report := λ _ _, Some [1; 2; 3; 4; 5; 6; 7; 8];
     k_acquire_immediate_value := k_acquire_immediate_value healthy;
     k_epoll_create := k_epoll_create healthy;
     k_socketpair := k_socketpair healthy |}.

(** A kernel on which device 0 always has a report ready: every wait
    returns at once with the device's event and the read delivers six
    bytes.  The clock shows one second of uptime and advances 100 ns per
    interaction; everything else as [healthy]. *)
Definition flooding : kernel :=
  {| k_get_timestamp := λ t, 1000000000 + 100 * Z.of_nat t;
     k_open := k_open healthy;
     k_epoll_ctl_ok := k_epoll_ctl_ok healthy;
     k_sysfs_read_int := k_sysfs_read_int healthy;
     k_sysfs_read_str := k_sysfs_read_str healthy;
     k_sysfs_write := k_sysfs_write healthy;
     k_epoll_wait := λ _, Some [{| events := EPOLLIN; data_u32 := 0 |}];
     k_read_report := λ _ _, Some [1; 2; 3; 4; 5; 6];
     k_acquire_immediate_value := k_acquire_immediate_value healthy;
     k_epoll_create := k_epoll_create healthy;
     k_socketpair := k_socketpair healthy |}.

(** A kernel on which the character devices cannot be opened. *)
Definition no_device : kernel :=
  {| k_get_timestamp := k_get_timestamp healthy;
     k_open := λ _, None;
     k_epoll_ctl_ok := k_epoll_ctl_ok healthy;
     k_sysfs_read_int := k_sysfs_read_int healthy;
     k_sysfs_read_str := k_sysfs_read_str healthy;
     k_sysfs_write := k_sysfs_write healthy;
     k_epoll_wait := k_epoll_wait healthy;
     k_read_report := k_read_report healthy;
     k_acquire_immediate_value := k_acquire_immediate_value healthy;
     k_epoll_create := k_epoll_create healthy;
     k_socketpair := k_socketpair healthy |}.

(** The accelerometer enabled on [reporting]. *)
Definition streaming : world := (sensor_activate reporting 0 1 (booted [accel])).2.

(** The light sensor enabled and set to 10 Hz. *)
Definition polled : world :=
  (sensor_set_delay healthy 0 100000000 (sensor_activate healthy 0 1 (booted [light])).2).2.

(** ** utils.c on a file system with one attribute holding "42\n" *)

(** The leading decimal digits of a string as a number, as far as this
    development needs [atoi]. *)
Fixpoint decimal_from (acc : Z) (s : list Z) : Z :=
  match s with
  | [] => acc
  | c :: s' =>
      if (48 <=? c) && (c <=? 57) then decimal_from (10 * acc + (c - 48)) s' else acc
  end.

Definition decimal (s : list Z) : Z := decimal_from 0 s.

#[local] Instance libc : Utils.Libc Z :=
  {| Utils.atoi := decimal; Utils.atoll := decimal; Utils.strtof := decimal;
     Utils.time_t_bits := 64; Utils.long_bits := 64 |}.

Definition attribute_os : Utils.os :=
  {| Utils.os_open := λ _ _ _, 7;
     Utils.os_read := λ _ _ _, Some [52; 50; 10];
     Utils.os_write := λ _ _ bytes, Z.of_nat (length bytes);
     Utils.os_clock := λ _ _, {| Utils.tv_sec := 1500; Utils.tv_nsec := 123 |} |}.

End Demo.

(** * Properties *)

Section Properties.

Context {P : Platform}.
Variable K : kernel.

Ltac unfold_monad :=
  unfold mbind, M_bind, bind, ret, gets, modify in *.

(** ** Machine integers *)

Lemma wrap_int_small z : INT_MIN ≤ z ≤ INT_MAX → wrap_int z = z.
Proof.
  unfold wrap_int, INT_MIN, INT_MAX. intros Hz.
  rewrite Z.mod_small; lia.
Qed.

Lemma wrap_int_range z : INT_MIN ≤ wrap_int z ≤ INT_MAX.
Proof.
  unfold wrap_int, INT_MIN, INT_MAX.
  pose proof (Z.mod_pos_bound (z + 2 ^ 31) (2 ^ 32)). lia.
Qed.

(** ** Sensor slots *)

Lemma sensor_at_insert_eq w s si :
  (s < length (sensor_info w))%nat →
  sensor_at (set_sensor_info (<[s := si]> (sensor_info w)) w) s = si.
Proof.
  intros Hs. unfold sensor_at. simpl.
  by rewrite list_lookup_insert_eq.
Qed.

Lemma sensor_at_insert_ne w s s' si :
  s ≠ s' →
  sensor_at (set_sensor_info (<[s := si]> (sensor_info w)) w) s' = sensor_at w s'.
Proof.
  intros Hs. unfold sensor_at. simpl.
  by rewrite list_lookup_insert_ne.
Qed.

(** ** The layout planner only rewrites channel layouts *)

Lemma layout_rel_refl l : layout_rel l l.
Proof.
  unfold layout_rel. apply Forall2_same_length_lookup_2; [done |].
  intros i x y Hx Hy. rewrite Hx in Hy. injection Hy as <-. by destruct x.
Qed.

Lemma layout_rel_trans l1 l2 l3 :
  layout_rel l1 l2 → layout_rel l2 l3 → layout_rel l1 l3.
Proof.
  unfold layout_rel. intros H12 H23.
  eapply Forall2_trans; [| exact H12 | exact H23].
  simpl. intros x y z -> ->. by destruct x.
Qed.

Lemma layout_rel_insert l s ch :
  layout_rel l (<[s := set_channel ch (default sensor_zero (l !! s))]> l).
Proof.
  unfold layout_rel. apply Forall2_same_length_lookup_2.
  { by rewrite length_insert. }
  intros i x y Hx Hy.
  destruct (decide (i = s)) as [-> | Hne].
  - rewrite list_lookup_insert_eq in Hy by (by eapply lookup_lt_Some).
    injection Hy as <-. rewrite Hx. by destruct x.
  - rewrite list_lookup_insert_ne in Hy by done.
    rewrite Hx in Hy. injection Hy as <-. by destruct x.
Qed.

Lemma layout_rel_sensor l l' s :
  layout_rel l l' →
  default sensor_zero (l' !! s)
  = set_channel (channel (default sensor_zero (l' !! s))) (default sensor_zero (l !! s)).
Proof.
  intros H. unfold layout_rel in H.
  destruct (l !! s) as [si |] eqn:E.
  - destruct (Forall2_lookup_l _ _ _ _ _ H E) as (si' & -> & Hs). exact Hs.
  - apply Forall2_length in H.
    rewrite (proj2 (lookup_ge_None l' s)); [done |].
    apply lookup_ge_None in E. lia.
Qed.

Lemma layout_step_refl w : layout_step w w [].
Proof.
  split; [| split].
  - destruct w. simpl. by rewrite app_nil_r.
  - apply layout_rel_refl.
  - constructor.
Qed.

Lemma layout_step_trans w1 w2 w3 e1 e2 :
  layout_step w1 w2 e1 → layout_step w2 w3 e2 → layout_step w1 w3 (e1 ++ e2).
Proof.
  intros (H1 & R1 & F1) (H2 & R2 & F2). split; [| split].
  - rewrite H2. rewrite H1 at 1 2. destruct w1. simpl. by rewrite app_assoc.
  - by eapply layout_rel_trans.
  - by apply Forall_app.
Qed.

Lemma layout_only_ret {A} (a : A) : layout_only (ret a).
Proof. intros w. exists []. apply layout_step_refl. Qed.

Lemma layout_only_gets {A} (f : world → A) : layout_only (gets f).
Proof. intros w. exists []. apply layout_step_refl. Qed.

Lemma layout_only_bind {A B} (m : M A) (f : A → M B) :
  layout_only m → (∀ a, layout_only (f a)) → layout_only (bind f m).
Proof.
  intros Hm Hf w. unfold bind.
  destruct (Hm w) as [e1 H1]. destruct (m w) as [a w1] eqn:E. simpl in H1.
  destruct (Hf a w1) as [e2 H2].
  exists (e1 ++ e2). by eapply layout_step_trans.
Qed.

Lemma layout_only_emit e : is_layout_event e = true → layout_only (emit e).
Proof.
  intros He w. exists [e]. split; [| split].
  - by destruct w.
  - apply layout_rel_refl.
  - by constructor.
Qed.

Lemma layout_only_update_channel s c f : layout_only (update_channel s c f).
Proof.
  intros w. exists []. split; [| split].
  - destruct w. simpl. by rewrite app_nil_r.
  - simpl. apply layout_rel_insert.
  - constructor.
Qed.

Lemma layout_only_log l msg : layout_only (emit (Log l msg)).
Proof. by apply layout_only_emit. Qed.

Lemma layout_only_sysfs_read_int d f :
  layout_only (sysfs_read_int K (CHANNEL_PATH d f)).
Proof.
  unfold sysfs_read_int, tick.
  apply layout_only_bind; [apply layout_only_gets |]. intros t.
  apply layout_only_bind; [by apply layout_only_emit |]. intros _.
  apply layout_only_ret.
Qed.

Lemma layout_only_sysfs_read_str d f :
  layout_only (sysfs_read_str K (CHANNEL_PATH d f)).
Proof.
  unfold sysfs_read_str, tick.
  apply layout_only_bind; [apply layout_only_gets |]. intros t.
  apply layout_only_bind; [by apply layout_only_emit |]. intros _.
  apply layout_only_ret.
Qed.

Ltac layout_tac :=
  repeat first
    [ apply layout_only_ret
    | apply layout_only_gets
    | apply layout_only_update_channel
    | apply layout_only_log
    | apply layout_only_sysfs_read_int
    | apply layout_only_sysfs_read_str
    | match goal with
      | |- ∀ _, layout_only _ => intro
      | |- layout_only (match ?x with _ => _ end) => destruct x
      end
    | apply layout_only_bind ].

Lemma layout_only_read_channel_status s c t :
  layout_only (read_channel_status K s c t).
Proof. unfold read_channel_status, ALOGW, ALOGE. layout_tac. Qed.

Lemma layout_only_read_channels s cs t :
  layout_only (read_channels K s cs t).
Proof.
  revert t. induction cs as [| c cs IH]; intros t; simpl.
  - apply layout_only_ret.
  - apply layout_only_bind; [apply layout_only_read_channel_status | exact IH].
Qed.

Lemma layout_only_read_sensors dev ss t :
  layout_only (read_sensors K dev ss t).
Proof.
  revert t. induction ss as [| s ss IH]; intros t; simpl.
  - apply layout_only_ret.
  - apply layout_only_bind; [apply layout_only_gets |]. intros si.
    destruct (decide (dev_num si ≠ dev)); [apply IH |].
    apply layout_only_bind; [apply layout_only_read_channels | exact IH].
Qed.

Lemma layout_only_assign_offsets t idxs off :
  layout_only (assign_offsets t idxs off).
Proof.
  revert off. induction idxs as [| i idxs IH]; intros off; simpl.
  - apply layout_only_ret.
  - destruct (_ =? 0); [apply IH |].
    apply layout_only_bind; [apply layout_only_update_channel |]. intros _.
    apply layout_only_bind; [apply layout_only_update_channel |]. intros _.
    apply IH.
Qed.

Lemma layout_only_refresh dev : layout_only (refresh_sensor_report_maps K dev).
Proof.
  unfold refresh_sensor_report_maps.
  apply layout_only_bind; [apply layout_only_gets |]. intros n.
  apply layout_only_bind; [apply layout_only_read_sensors |]. intros t.
  apply layout_only_assign_offsets.
Qed.

(** ** Events of the trigger reconfiguration *)

Lemma for_each_emit {A} (l : list A) (body : A → M unit) (e : A → event) (w : world) :
  (∀ c w0, body c w0 = (tt, set_trace (trace w0 ++ [e c]) w0)) →
  for_each l body w = (tt, set_trace (trace w ++ map e l) w).
Proof.
  intros Hb. revert w. induction l as [| c l IH]; intros w; simpl.
  - destruct w; simpl. by rewrite app_nil_r.
  - unfold mbind, M_bind, bind. rewrite Hb, IH.
    destruct w; simpl. by rewrite <- app_assoc.
Qed.

Lemma enable_buffer_eq d v w :
  enable_buffer K d v w
  = (k_sysfs_write K (length (trace w)),
     set_trace (trace w ++ [SysfsWriteInt (ENABLE_PATH d) v]) w).
Proof. reflexivity. Qed.

Lemma setup_trigger_eq d name w :
  ∃ r evs, setup_trigger K d name w = (r, set_trace (trace w ++ evs) w)
    ∧ (evs = [] ∨ evs = [SysfsWriteStr (TRIGGER_PATH d) name]).
Proof.
  unfold setup_trigger, sysfs_write_str.
  destruct (decide (name = "")).
  - exists (-1), []. split; [| by left]. destruct w; simpl. by rewrite app_nil_r.
  - eexists _, _. split; [reflexivity | by right].
Qed.


Lemma configure_trigger_eq d name w :
  ∃ evs, configure_trigger K d name w = (tt, set_trace (trace w ++ evs) w)
    ∧ (evs = [] ∨ ∃ name', evs = [SysfsWriteStr (TRIGGER_PATH d) name']).
Proof.
  unfold configure_trigger. unfold mbind, M_bind, bind, gets. cbv beta iota zeta.
  destruct (_ =? 0); [| destruct (_ =? 1)].
  - destruct (setup_trigger_eq d "none" w) as (r & evs & -> & [-> | ->]);
      eexists; (split; [reflexivity |]); eauto.
  - destruct (setup_trigger_eq d (name +:+ "-dev" +:+ pretty d) w)
      as (r & evs & -> & [-> | ->]); eexists; (split; [reflexivity |]); eauto.
  - exists []. split; [| by left]. unfold ret. destruct w; simpl. by rewrite app_nil_r.
Qed.

Lemma configure_trigger_sensor_spec s enabled w :
  let si := sensor_at w s in
  let d := dev_num si in
  ∃ w' trig_evs layout_evs,
    configure_trigger_sensor K s enabled w = (tt, w')
    ∧ w' = set_trace (trace w ++
              SysfsWriteInt (ENABLE_PATH d) 0 :: trig_evs
              ++ map (λ c, SysfsWriteInt
                             (CHANNEL_PATH d (en_path (catalog_channel (catalog_index si) c)))
                             enabled) (seq 0 (num_channels si))
              ++ (if arr_get (trig_sensors_per_dev w) d =? 0 then []
                  else layout_evs ++ [SysfsWriteInt (ENABLE_PATH d) 1]))
            (set_sensor_info (sensor_info w') w)
    ∧ layout_rel (sensor_info w) (sensor_info w')
    ∧ (trig_evs = [] ∨ ∃ name, trig_evs = [SysfsWriteStr (TRIGGER_PATH d) name])
    ∧ Forall (λ e, is_layout_event e = true) layout_evs.
Proof.
  intros si d. unfold configure_trigger_sensor.
  unfold mbind, M_bind, bind, gets. cbv beta iota zeta. fold si. fold d.
  rewrite enable_buffer_eq.
  set (w1 := set_trace _ w).
  destruct (configure_trigger_eq d (internal_name si) w1) as (tevs & -> & Htevs).
  rewrite (for_each_emit _ _
    (λ c, SysfsWriteInt (CHANNEL_PATH d (en_path (catalog_channel (catalog_index si) c)))
            enabled)) by reflexivity.
  subst w1. cbn [trig_sensors_per_dev set_trace trace].
  destruct (arr_get (trig_sensors_per_dev w) d =? 0) eqn:Etrig.
  - eexists _, tevs, []. split; [reflexivity |]. simpl.
    split; [| split; [apply layout_rel_refl | split; [exact Htevs | constructor]]].
    destruct w; simpl. rewrite app_nil_r. by rewrite <- !app_assoc.
  - match goal with |- context [refresh_sensor_report_maps K d ?w0] =>
      destruct (layout_only_refresh d w0) as (levs & Hw & Hrel & Hlevs);
      destruct (refresh_sensor_report_maps K d w0) as [[] w2] eqn:E
    end.
    simpl in Hw, Hrel. rewrite enable_buffer_eq. 
    eexists _, tevs, levs. split; [reflexivity |]. simpl.
    split; [| split; [exact Hrel | split; [exact Htevs | exact Hlevs]]].
    rewrite Hw at 1 2. destruct w; simpl. by rewrite <- !app_assoc.
Qed.
(** ** The counter step in closed form *)

Lemma adjust_device_counters_eq w s enabled :
  adjust_device_counters s enabled w
  = (1, apply_edge (sensor_at w s) (if enabled =? 0 then -1 else 1) w).
Proof.
  unfold adjust_device_counters, apply_edge, adjust_at.
  unfold mbind, M_bind, bind, gets, modify, ret. cbv beta iota zeta.
  destruct (decide _); destruct (enabled =? 0); reflexivity.
Qed.

Lemma adjust_counters_eq w s enabled :
  (s < length (sensor_info w))%nat →
  let si := sensor_at w s in
  let ec1 := wrap_int (enable_count si + (if enabled =? 0 then -1 else 1)) in
  adjust_counters s enabled w =
    if enabled =? 0 then
      if enable_count si =? 0 then (-1, w)
      else if ec1 >? 0
        then (0, set_sensor_info (<[s := set_enable_count ec1 si]> (sensor_info w)) w)
        else (1, apply_edge si (-1)
                   (set_sensor_info
                      (<[s := set_report_buffer zero_buffer
                                (set_report_pending 0 (set_enable_count ec1 si))]>
                         (sensor_info w)) w))
    else if negb (ec1 =? 1)
      then (0, set_sensor_info (<[s := set_enable_count ec1 si]> (sensor_info w)) w)
      else (1, apply_edge si 1
                 (set_sensor_info (<[s := set_enable_count ec1 si]> (sensor_info w)) w)).
Proof.
  intros Hs si ec1. subst si ec1. unfold adjust_counters.
  unfold mbind, M_bind, bind, gets, update_sensor, modify, ret. cbv beta iota zeta.
  destruct (enabled =? 0) eqn:Een.
  - replace (enable_count (sensor_at w s) + -1)
      with (enable_count (sensor_at w s) - 1) by lia.
    destruct (enable_count (sensor_at w s) =? 0); [reflexivity |].
    rewrite sensor_at_insert_eq by done. cbn [enable_count set_enable_count].
    destruct (_ >? 0); [reflexivity |].
    rewrite adjust_device_counters_eq, Een.
    rewrite !sensor_at_insert_eq by (cbn; rewrite ?length_insert; done).
    cbn [sensor_info set_sensor_info]. rewrite !list_insert_insert_eq.
    f_equal.
  - rewrite sensor_at_insert_eq by done. cbn [enable_count set_enable_count].
    destruct (_ =? 1); [| reflexivity]. cbn [negb].
    rewrite adjust_device_counters_eq, Een.
    rewrite !sensor_at_insert_eq by done. reflexivity.
Qed.

(** ** The descriptor management in closed form *)

Lemma sys_open_eq p w :
  sys_open K p w
  = (open_result K (length (trace w)) w,
     set_trace (trace w ++ [Open p (open_result K (length (trace w)) w)]) w).
Proof. reflexivity. Qed.

Lemma open_result_fresh t w :
  open_result K t w = -1 ∨ (0 ≤ open_result K t w ∧ open_result K t w ∉ open_fds w).
Proof.
  unfold open_result. destruct (k_open K t) as [fd |]; [| by left].
  destruct (0 <=? fd) eqn:E1; [| by left].
  destruct (bool_decide (fd ∈ open_fds w)) eqn:E2; [by left |].
  right. apply bool_decide_eq_false in E2. simpl. split; [lia | done].
Qed.

Lemma manage_device_fd_eq s enabled d isp w :
  let fd := arr_get (device_fd w) d in
  manage_device_fd K s enabled d isp w =
    if enabled =? 0 then
      if negb (fd =? -1) && (arr_get (poll_sensors_per_dev w) d =? 0)
         && (arr_get (trig_sensors_per_dev w) d =? 0)
      then (0, set_device_fd (<[d := -1]> (device_fd w))
                 (set_poll_set
                    (filter (λ e, e.1 ≠ fd) (filter (λ e, e.1 ≠ fd) (poll_set w)))
                    (set_trace (trace w ++ [EpollCtlDel fd; Close fd]) w)))
      else (0, w)
    else if fd =? -1 then
      let r := open_result K (length (trace w)) w in
      let w1 := set_device_fd (<[d := r]> (device_fd w))
                  (set_trace (trace w ++ [Open (DEV_FILE_PATH d) r]) w) in
      if r =? -1 then
        (-1, (adjust_counters s 0
                (set_trace (trace w1 ++ [Log LOG_ERROR "Could not open fd"]) w1)).2)
      else if negb isp then
        if k_epoll_ctl_ok K (length (trace w1)) then
          (0, set_poll_set (poll_set w ++ [(r, Z.of_nat d)])
                (set_trace (trace w1 ++ [EpollCtlAdd r (Z.of_nat d) 0;
                                         WriteByte (poll_socket_pair w).2]) w1))
        else
          (-1, set_trace (trace w1 ++ [EpollCtlAdd r (Z.of_nat d) (-1);
                                       Log LOG_ERROR "Failed adding to poll set"]) w1)
      else (0, set_trace (trace w1 ++ [WriteByte (poll_socket_pair w).2]) w1)
    else (0, set_trace (trace w ++ [WriteByte (poll_socket_pair w).2]) w).
Proof.
  intros fd. subst fd. unfold manage_device_fd.
  unfold mbind, M_bind, bind, gets. cbv beta iota zeta.
  destruct (enabled =? 0).
  - destruct (negb _ && _ && _); [| reflexivity].
    unfold epoll_ctl_del, sys_close, emit, modify, mbind, M_bind, bind, ret.
    destruct w; cbn. by rewrite <- app_assoc.
  - destruct (arr_get (device_fd w) d =? -1);
      [| unfold release_poll_loop, emit, gets, modify, mbind, M_bind, bind, ret;
         by destruct w].
    rewrite sys_open_eq. unfold modify. cbv beta iota zeta.
    destruct (open_result K (length (trace w)) w =? -1).
    + unfold ALOGE, emit, modify. cbv beta iota zeta.
      destruct (adjust_counters s 0 _); reflexivity.
    + destruct isp; cbn [negb].
      * unfold release_poll_loop, emit, gets, modify, mbind, M_bind, bind, ret.
        by destruct w.
      * unfold epoll_ctl_add, tick, emit, modify, gets, mbind, M_bind, bind, ret.
        cbv beta iota zeta.
        cbn [trace set_trace set_device_fd].
        destruct (k_epoll_ctl_ok K _) eqn:E.
        -- change (0 =? -1) with false. cbv beta iota.
           unfold release_poll_loop, emit, gets, modify, mbind, M_bind, bind, ret.
           destruct w; cbn. by rewrite <- !app_assoc.
        -- change (-1 =? -1) with true. cbv beta iota.
           unfold ALOGE, emit, gets, modify, mbind, M_bind, bind, ret.
           destruct w; cbn. by rewrite <- !app_assoc.
Qed.

(** ** [sensor_activate] refines its control-plane view *)

Lemma configure_step s enabled (isp : bool) w1 :
  ∃ cfg_evs w2,
    (if isp then ret tt else configure_trigger_sensor K s enabled) w1 = (tt, w2)
    ∧ w2 = set_trace (trace w1 ++ cfg_evs) (set_sensor_info (sensor_info w2) w1)
    ∧ layout_rel (sensor_info w1) (sensor_info w2)
    ∧ (if isp then cfg_evs = []
       else configure_events (sensor_at w1 s) enabled
              (arr_get (trig_sensors_per_dev w1) (dev_num (sensor_at w1 s))) cfg_evs).
Proof.
  destruct isp.
  - exists [], w1. split; [reflexivity |]. split; [| split; [apply layout_rel_refl | done]].
    destruct w1; cbn. by rewrite app_nil_r.
  - destruct (configure_trigger_sensor_spec s enabled w1)
      as (w2 & tevs & levs & Hcfg & Hw2 & Hrel & Htevs & Hlevs).
    eexists _, w2. split; [exact Hcfg |]. split; [exact Hw2 |]. split; [exact Hrel |].
    exists tevs, levs. done.
Qed.

Lemma same_identity_refl si : same_identity si si.
Proof. by repeat split. Qed.

Lemma same_identity_trans a b c :
  same_identity a b → same_identity b c → same_identity a c.
Proof.
  intros (H1 & H2 & H3 & H4) (G1 & G2 & G3 & G4).
  repeat split; congruence.
Qed.

Lemma ident_rel_refl s l : ident_rel s l l.
Proof. split; [done |]. intros s'. split; [apply same_identity_refl | done]. Qed.

Lemma ident_rel_trans s l1 l2 l3 :
  ident_rel s l1 l2 → ident_rel s l2 l3 → ident_rel s l1 l3.
Proof.
  intros [L1 H1] [L2 H2]. split; [congruence |]. intros s'.
  destruct (H1 s') as [A1 B1]. destruct (H2 s') as [A2 B2].
  split; [by eapply same_identity_trans |]. intros Hne.
  rewrite B2, B1; done.
Qed.

Lemma ident_rel_insert s l x :
  same_identity (default sensor_zero (l !! s)) x → ident_rel s l (<[s := x]> l).
Proof.
  intros Hx. split; [by rewrite length_insert |]. intros s'.
  destruct (decide (s' = s)) as [-> | Hne].
  - split; [| done].
    destruct (decide (s < length l)%nat) as [Hlt | Hge].
    + by rewrite list_lookup_insert_eq.
    + rewrite list_insert_ge by lia. apply same_identity_refl.
  - rewrite list_lookup_insert_ne by done.
    split; [apply same_identity_refl | done].
Qed.

Lemma ident_rel_layout s l l' : layout_rel l l' → ident_rel s l l'.
Proof.
  intros H. split; [symmetry; by eapply Forall2_length |]. intros s'.
  rewrite (layout_rel_sensor l l' s' H).
  split; [by repeat split | done].
Qed.

Lemma activate_frame_intro s w w' :
  sensor_count w' = sensor_count w →
  poll_fd w' = poll_fd w →
  poll_socket_pair w' = poll_socket_pair w →
  last_poll_exit_ts w' = last_poll_exit_ts w →
  ident_rel s (sensor_info w) (sensor_info w') →
  activate_frame s w w'.
Proof.
  intros H1 H2 H3 H4 [H5 H6]. repeat split; try done; apply H6.
Qed.

Lemma layout_step_fields w1 w2 evs :
  w2 = set_trace (trace w1 ++ evs) (set_sensor_info (sensor_info w2) w1) →
  device_fd w2 = device_fd w1
  ∧ poll_sensors_per_dev w2 = poll_sensors_per_dev w1
  ∧ trig_sensors_per_dev w2 = trig_sensors_per_dev w1
  ∧ active_poll_sensors w2 = active_poll_sensors w1
  ∧ poll_set w2 = poll_set w1
  ∧ trace w2 = trace w1 ++ evs
  ∧ sensor_count w2 = sensor_count w1
  ∧ poll_fd w2 = poll_fd w1
  ∧ poll_socket_pair w2 = poll_socket_pair w1
  ∧ last_poll_exit_ts w2 = last_poll_exit_ts w1.
Proof. intros H. rewrite H. cbn. done. Qed.

Lemma layout_rel_enable_count l l' s :
  layout_rel l l' →
  enable_count (default sensor_zero (l' !! s))
  = enable_count (default sensor_zero (l !! s)).
Proof. intros H. by rewrite (layout_rel_sensor l l' s H). Qed.

Lemma ctl_ext c c' :
  c_enable_count c = c_enable_count c' → c_polls c = c_polls c' →
  c_trigs c = c_trigs c' → c_active c = c_active c' →
  c_fds c = c_fds c' → c_pset c = c_pset c' → c = c'.
Proof. destruct c, c'. cbn. by intros -> -> -> -> -> ->. Qed.

Lemma edge_ctl_enable_count si k ec c : c_enable_count (edge_ctl si k ec c) = ec.
Proof. unfold edge_ctl. by destruct (decide _). Qed.

Lemma edge_ctl_fds si k ec c : c_fds (edge_ctl si k ec c) = c_fds c.
Proof. unfold edge_ctl. by destruct (decide _). Qed.

Lemma edge_ctl_pset si k ec c : c_pset (edge_ctl si k ec c) = c_pset c.
Proof. unfold edge_ctl. by destruct (decide _). Qed.

Lemma edge_ctl_counters si k ec ec' c :
  c_polls (edge_ctl si k ec c) = c_polls (edge_ctl si k ec' c)
  ∧ c_trigs (edge_ctl si k ec c) = c_trigs (edge_ctl si k ec' c)
  ∧ c_active (edge_ctl si k ec c) = c_active (edge_ctl si k ec' c).
Proof. unfold edge_ctl. by destruct (decide _). Qed.

(** The counter edge followed by the trigger reconfiguration. *)
Lemma edge_configure w s enabled k si1 :
  (s < length (sensor_info w))%nat →
  let si := sensor_at w s in
  same_identity si si1 →
  ∃ cfg_evs w2,
    (if bool_decide (num_channels si = 0%nat) then ret tt
     else configure_trigger_sensor K s enabled)
      (apply_edge si k (set_sensor_info (<[s := si1]> (sensor_info w)) w)) = (tt, w2)
    ∧ ctl_of w2 s = edge_ctl si k (enable_count si1) (ctl_of w s)
    ∧ trace w2 = trace w ++ cfg_evs
    ∧ (if bool_decide (num_channels si ≠ 0%nat)
       then configure_events si enabled
              (arr_get (adjust_at (trig_sensors_per_dev w) (dev_num si) k) (dev_num si))
              cfg_evs
       else cfg_evs = [])
    ∧ sensor_count w2 = sensor_count w
    ∧ poll_fd w2 = poll_fd w
    ∧ poll_socket_pair w2 = poll_socket_pair w
    ∧ last_poll_exit_ts w2 = last_poll_exit_ts w
    ∧ ident_rel s (sensor_info w) (sensor_info w2)
    ∧ (∃ ch, sensor_at w2 s = set_channel ch si1).
Proof.
  intros Hs si Hid.
  set (w1 := apply_edge si k (set_sensor_info (<[s := si1]> (sensor_info w)) w)).
  assert (Hs1 : sensor_at w1 s = si1).
  { subst w1. unfold apply_edge. destruct (decide _); cbn; by apply sensor_at_insert_eq. }
  assert (Hl1 : sensor_info w1 = <[s := si1]> (sensor_info w)).
  { subst w1. unfold apply_edge. by destruct (decide _). }
  destruct (configure_step s enabled (bool_decide (num_channels si = 0%nat)) w1)
    as (cfg_evs & w2 & Hrun & Hw2 & Hrel & Hcfg).
  destruct (layout_step_fields _ _ _ Hw2)
    as (F1 & F2 & F3 & F4 & F5 & F6 & F7 & F8 & F9 & F10).
  exists cfg_evs, w2. split; [exact Hrun |].
  assert (Hsen : ∃ ch, sensor_at w2 s = set_channel ch si1).
  { eexists. unfold sensor_at. rewrite (layout_rel_sensor _ _ s Hrel).
    fold (sensor_at w1 s). rewrite Hs1. reflexivity. }
  split.
  { apply ctl_ext; cbn [ctl_of c_enable_count c_polls c_trigs c_active c_fds c_pset].
    - rewrite edge_ctl_enable_count. destruct Hsen as [ch ->]. done.
    - rewrite F2. subst w1. unfold apply_edge, edge_ctl. by destruct (decide _).
    - rewrite F3. subst w1. unfold apply_edge, edge_ctl. by destruct (decide _).
    - rewrite F4. subst w1. unfold apply_edge, edge_ctl. by destruct (decide _).
    - rewrite F1, edge_ctl_fds. subst w1. unfold apply_edge. by destruct (decide _).
    - rewrite F5, edge_ctl_pset. subst w1. unfold apply_edge. by destruct (decide _). }
  split.
  { rewrite F6. subst w1. unfold apply_edge. by destruct (decide _). }
  split.
  { rewrite Hs1 in Hcfg. destruct Hid as (Hd & Hn & Hc & Hi).
    destruct (decide (num_channels si = 0%nat)) as [Hnc | Hnc].
    - rewrite bool_decide_eq_true_2 in Hcfg by done.
      rewrite bool_decide_eq_false_2 by (intros ?; done). exact Hcfg.
    - rewrite bool_decide_eq_false_2 in Hcfg by done.
      rewrite bool_decide_eq_true_2 by done.
      unfold configure_events in *. rewrite Hd, Hn, Hc in Hcfg.
      subst w1. unfold apply_edge in Hcfg.
      destruct (decide (num_channels si ≠ 0%nat)); [exact Hcfg | done]. }
  subst w1. unfold apply_edge in *.
  destruct (decide _); cbn in *; repeat (split; [congruence |]).
  all: split; [| exact Hsen].
  all: eapply ident_rel_trans; [| apply ident_rel_layout, Hrel].
  all: by apply ident_rel_insert.
Qed.

Lemma sensor_activate_refines w s enabled :
  (s < length (sensor_info w))%nat →
  let si := sensor_at w s in
  let w' := (sensor_activate K s enabled w).2 in
  ∃ open_r add_ok cfg_evs,
    (sensor_activate K s enabled w).1
      = (activate_ctl si (poll_socket_pair w).2 enabled open_r add_ok (ctl_of w s)).1.1
    ∧ ctl_of w' s
      = (activate_ctl si (poll_socket_pair w).2 enabled open_r add_ok (ctl_of w s)).1.2
    ∧ trace w' = trace w ++ cfg_evs
        ++ (activate_ctl si (poll_socket_pair w).2 enabled open_r add_ok (ctl_of w s)).2
    ∧ (if is_edge enabled (enable_count si) && bool_decide (num_channels si ≠ 0%nat)
       then configure_events si enabled
              (arr_get (adjust_at (trig_sensors_per_dev w) (dev_num si)
                                  (if enabled =? 0 then -1 else 1)) (dev_num si))
              cfg_evs
       else cfg_evs = [])
    ∧ (open_r = -1 ∨ (0 ≤ open_r ∧ open_r ∉ open_fds w))
    ∧ (∃ t, add_ok = k_epoll_ctl_ok K t)
    ∧ activate_frame s w w'.
Proof.
  intros Hs si w'. subst w'.
  unfold sensor_activate. unfold mbind, M_bind, bind, gets. cbv beta iota zeta.
  rewrite adjust_counters_eq by done. fold si.
  unfold activate_ctl, is_edge. cbn [c_enable_count ctl_of]. fold si.
  assert (Hfr0 : ∀ x, activate_frame s w
            (set_sensor_info (<[s := set_enable_count x si]> (sensor_info w)) w)).
  { intros x. apply activate_frame_intro; try done. cbn.
    apply ident_rel_insert. by repeat split. }
  assert (Hat : ∀ x, sensor_at (set_sensor_info (<[s := x]> (sensor_info w)) w) s = x).
  { intros x. by apply sensor_at_insert_eq. }
  destruct (enabled =? 0) eqn:Een.
  - destruct (enable_count si =? 0) eqn:Eec.
    + (* spurious disable *)
      exists (-1), (k_epoll_ctl_ok K 0), []. cbn.
      repeat split; eauto using app_nil_r.
      all: try apply (ident_rel_refl s).
    + replace (enable_count si + -1) with (enable_count si - 1) by lia.
      destruct (wrap_int (enable_count si - 1) >? 0) eqn:Egt.
      * (* the sensor remains in use *)
        exists (-1), (k_epoll_ctl_ok K 0), []. cbn.
        unfold ctl_of. rewrite Hat. cbn.
        repeat split; eauto using app_nil_r; apply Hfr0.
      * (* last user gone *)
        change (1 <=? 0) with false. cbv beta iota. cbn [negb andb].
        match goal with |- context [<[s := ?x]> (sensor_info w)] => set (si1 := x) end.
        destruct (edge_configure w s enabled (-1) si1 Hs)
          as (cfg_evs & w2 & Hrun & Hctl & Htr & Hcfg & G1 & G2 & G3 & G4 & Hid & Hsen);
          [by repeat split |].
        fold si in Hrun, Hctl, Hcfg. rewrite Hrun.
        rewrite manage_device_fd_eq, Een.
        replace (enable_count si1) with (wrap_int (enable_count si - 1)) in Hctl by done.
        rewrite <- Hctl. cbn [ctl_of c_fds c_polls c_trigs c_pset].
        exists (-1), (k_epoll_ctl_ok K 0), cfg_evs.
        destruct (negb _ && _ && _).
        -- cbn [fst snd]. split; [done |]. split.
           { unfold ctl_of, with_fd, sensor_at. cbn. done. }
           split. { cbn. rewrite Htr. by rewrite <- app_assoc. }
           split; [exact Hcfg |]. split; [by left |]. split; [eauto |].
           apply activate_frame_intro; done.
        -- cbn [fst snd]. split; [done |]. split; [done |].
           split. { rewrite Htr. by rewrite app_nil_r. }
           split; [exact Hcfg |]. split; [by left |]. split; [eauto |].
           apply activate_frame_intro; done.
  - destruct (wrap_int (enable_count si + 1) =? 1) eqn:Eone; cbn [negb].
    2:{ (* the sensor was, and remains, in use *)
        exists (-1), (k_epoll_ctl_ok K 0), []. cbn.
        unfold ctl_of. rewrite Hat. cbn.
        repeat split; eauto using app_nil_r; apply Hfr0. }
    change (1 <=? 0) with false. cbv beta iota. cbn [negb andb].
    match goal with |- context [<[s := ?x]> (sensor_info w)] => set (si1 := x) end.
    destruct (edge_configure w s enabled 1 si1 Hs)
      as (cfg_evs & w2 & Hrun & Hctl & Htr & Hcfg & G1 & G2 & G3 & G4 & Hid & Hsen);
      [by repeat split |].
    fold si in Hrun, Hctl, Hcfg. rewrite Hrun.
    rewrite manage_device_fd_eq, Een.
    replace (enable_count si1) with (wrap_int (enable_count si + 1)) in Hctl by done.
    rewrite <- Hctl. cbn [ctl_of c_fds c_polls c_trigs c_pset].
    assert (Hfds : open_fds w2 = open_fds w).
    { unfold open_fds. rewrite G2, G3. f_equal. f_equal. f_equal.
      pose proof (f_equal c_fds Hctl) as E. by rewrite edge_ctl_fds in E. }
    exists (open_result K (length (trace w2)) w2),
           (k_epoll_ctl_ok K (length (trace w2 ++
              [Open (DEV_FILE_PATH (dev_num si)) (open_result K (length (trace w2)) w2)]))),
           cfg_evs.
    assert (Hfresh := open_result_fresh (length (trace w2)) w2). rewrite Hfds in Hfresh.
    destruct (arr_get (device_fd w2) (dev_num si) =? -1) eqn:Efd.
    2:{ cbn [fst snd]. split; [done |]. split; [done |].
        split. { cbn. rewrite Htr, G3. by rewrite <- app_assoc. }
        split; [exact Hcfg |]. split; [exact Hfresh |]. split; [eauto |].
        apply activate_frame_intro; done. }
    cbv zeta.
    destruct (open_result K (length (trace w2)) w2 =? -1) eqn:Eopen.
    + (* the open failed: the counter step is rolled back *)
      apply Z.eqb_eq in Eopen. apply Z.eqb_eq in Eone. rewrite Eopen.
      destruct Hsen as [ch Hsen].
      match goal with |- context [adjust_counters s 0 ?w0] => set (w3 := w0) end.
      assert (Hs3 : sensor_at w3 s = set_channel ch si1).
      { subst w3. unfold sensor_at in *. cbn. exact Hsen. }
      assert (Hl3 : sensor_info w3 = sensor_info w2) by done.
      rewrite adjust_counters_eq by (rewrite Hl3; destruct Hid as [-> _]; done).
      rewrite Hs3. cbn [enable_count set_channel si1 set_enable_count].
      rewrite Eone. change (0 =? 0) with true. change (1 =? 0) with false.
      cbv iota.
      replace (wrap_int (1 + -1) >? 0) with false by reflexivity.
      replace (wrap_int (1 + -1)) with 0 by reflexivity.
      replace (wrap_int (1 - 1)) with 0 by reflexivity.
      cbn [fst snd]. split; [done |]. split.
      { unfold apply_edge, edge_ctl, with_fd.
        cbn [num_channels dev_num set_channel si1 set_enable_count].
        assert (Hlen3 : (s < length (sensor_info w3))%nat)
          by (rewrite Hl3; destruct Hid as [-> _]; done).
        destruct (decide (num_channels si ≠ 0%nat)).
        all: unfold ctl_of, sensor_at; cbn;
          rewrite list_lookup_insert_eq by exact Hlen3; cbn; reflexivity. }
      split.
      { unfold apply_edge. destruct (decide _); cbn; rewrite Htr;
          by rewrite <- !app_assoc. }
      split; [exact Hcfg |]. split; [by left |]. split; [eauto |].
      apply activate_frame_intro.
      1-4: unfold apply_edge; destruct (decide _); cbn; done.
      eapply ident_rel_trans; [exact Hid |].
      unfold apply_edge; destruct (decide _); cbn;
        apply ident_rel_insert; fold (sensor_at w2 s); rewrite Hsen; by repeat split.
    + cbn [trace set_device_fd set_trace].
      set (fd := open_result K (length (trace w2)) w2) in *.
      destruct (decide (num_channels si ≠ 0%nat)) as [Hnc | Hnc].
      * rewrite bool_decide_eq_false_2 by done. cbn [negb].
        destruct (k_epoll_ctl_ok K _) eqn:Eok; cbn [fst snd].
        -- split; [done |]. split; [by unfold ctl_of, with_fd, sensor_at; cbn |].
           split. { cbn. rewrite Htr, G3. by rewrite <- !app_assoc. }
           split; [exact Hcfg |]. split; [exact Hfresh |].
           split; [eexists; symmetry; exact Eok |].
           apply activate_frame_intro; done.
        -- split; [done |]. split; [by unfold ctl_of, with_fd, sensor_at; cbn |].
           split. { cbn. rewrite Htr. by rewrite <- !app_assoc. }
           split; [exact Hcfg |]. split; [exact Hfresh |].
           split; [eexists; symmetry; exact Eok |].
           apply activate_frame_intro; done.
      * rewrite bool_decide_eq_true_2 by (by destruct (num_channels si); [| exfalso; apply Hnc]).
        cbn [negb fst snd].
        split; [done |]. split; [by unfold ctl_of, with_fd, sensor_at; cbn |].
        split. { cbn. rewrite Htr, G3. by rewrite <- !app_assoc. }
        split; [exact Hcfg |]. split; [exact Hfresh |]. split; [eauto |].
        apply activate_frame_intro; done.
Qed.

(** ** Single calls, by position in the refcount *)

Lemma stacked_enable_step w s :
  (s < length (sensor_info w))%nat →
  1 ≤ enable_count (sensor_at w s) < INT_MAX →
  let w' := (sensor_activate K s 1 w).2 in
  (sensor_activate K s 1 w).1 = 0
  ∧ ctl_of w' s = with_enable_count (enable_count (sensor_at w s) + 1) (ctl_of w s)
  ∧ activate_frame s w w'.
Proof.
  intros Hs Hec w'.
  destruct (sensor_activate_refines w s 1 Hs)
    as (open_r & add_ok & cfg & Hr & Hctl & _ & _ & _ & _ & Hfr).
  fold w' in Hctl, Hfr. unfold activate_ctl in Hr, Hctl.
  cbn [ctl_of c_enable_count] in Hr, Hctl.
  change (1 =? 0) with false in Hr, Hctl. cbv iota in Hr, Hctl.
  rewrite wrap_int_small in Hr, Hctl by (unfold INT_MIN, INT_MAX in *; lia).
  destruct (enable_count (sensor_at w s) + 1 =? 1) eqn:E; [lia |].
  cbn in Hr, Hctl. done.
Qed.

Lemma stacked_disable_step w s :
  (s < length (sensor_info w))%nat →
  2 ≤ enable_count (sensor_at w s) ≤ INT_MAX →
  let w' := (sensor_activate K s 0 w).2 in
  (sensor_activate K s 0 w).1 = 0
  ∧ ctl_of w' s = with_enable_count (enable_count (sensor_at w s) - 1) (ctl_of w s)
  ∧ activate_frame s w w'.
Proof.
  intros Hs Hec w'.
  destruct (sensor_activate_refines w s 0 Hs)
    as (open_r & add_ok & cfg & Hr & Hctl & _ & _ & _ & _ & Hfr).
  fold w' in Hctl, Hfr. unfold activate_ctl in Hr, Hctl.
  cbn [ctl_of c_enable_count] in Hr, Hctl.
  change (0 =? 0) with true in Hr, Hctl. cbv iota in Hr, Hctl.
  rewrite wrap_int_small in Hr, Hctl by (unfold INT_MIN, INT_MAX in *; lia).
  destruct (enable_count (sensor_at w s) =? 0) eqn:E0; [lia |].
  destruct (enable_count (sensor_at w s) - 1 >? 0) eqn:E; [| lia].
  cbn in Hr, Hctl. done.
Qed.

Lemma first_enable_step w s :
  (s < length (sensor_info w))%nat →
  enable_count (sensor_at w s) = 0 →
  let w' := (sensor_activate K s 1 w).2 in
  (sensor_activate K s 1 w).1 = 0 →
  enable_count (sensor_at w' s) = 1
  ∧ counters w' = (c_polls (edge_ctl (sensor_at w s) 1 1 (ctl_of w s)),
                   c_trigs (edge_ctl (sensor_at w s) 1 1 (ctl_of w s)),
                   c_active (edge_ctl (sensor_at w s) 1 1 (ctl_of w s)))
  ∧ activate_frame s w w'.
Proof.
  intros Hs Hec w' Hret.
  destruct (sensor_activate_refines w s 1 Hs)
    as (open_r & add_ok & cfg & Hr & Hctl & _ & _ & _ & _ & Hfr).
  fold w' in Hctl, Hfr. rewrite Hret in Hr. unfold activate_ctl in Hr, Hctl.
  cbn [ctl_of c_enable_count] in Hr, Hctl. rewrite Hec in Hr, Hctl.
  change (1 =? 0) with false in Hr, Hctl.
  change (wrap_int (0 + 1)) with 1 in Hr, Hctl.
  change (1 =? 1) with true in Hr, Hctl. cbv iota zeta in Hr, Hctl. cbn [negb] in Hr, Hctl.
  split; [| split; [| exact Hfr]].
  - apply (f_equal c_enable_count) in Hctl. cbn [ctl_of c_enable_count] in Hctl.
    rewrite Hctl.
    repeat match goal with
           | |- context [if ?c then _ else _] => destruct c
           end; cbn; try apply edge_ctl_enable_count; cbn in Hr; try lia.
  - unfold counters.
    pose proof (f_equal c_polls Hctl) as H1. pose proof (f_equal c_trigs Hctl) as H2.
    pose proof (f_equal c_active Hctl) as H3.
    cbn [ctl_of c_polls c_trigs c_active] in H1, H2, H3. rewrite H1, H2, H3.
    repeat match goal with
           | |- context [if ?c then _ else _] => destruct c
           end; cbn; try reflexivity; cbn in Hr; try lia.
Qed.

Lemma last_disable_step w s :
  (s < length (sensor_info w))%nat →
  enable_count (sensor_at w s) = 1 →
  let w' := (sensor_activate K s 0 w).2 in
  (sensor_activate K s 0 w).1 = 0
  ∧ enable_count (sensor_at w' s) = 0
  ∧ counters w' = (c_polls (edge_ctl (sensor_at w s) (-1) 0 (ctl_of w s)),
                   c_trigs (edge_ctl (sensor_at w s) (-1) 0 (ctl_of w s)),
                   c_active (edge_ctl (sensor_at w s) (-1) 0 (ctl_of w s)))
  ∧ activate_frame s w w'.
Proof.
  intros Hs Hec w'.
  destruct (sensor_activate_refines w s 0 Hs)
    as (open_r & add_ok & cfg & Hr & Hctl & _ & _ & _ & _ & Hfr).
  fold w' in Hctl, Hfr. unfold activate_ctl in Hr, Hctl.
  cbn [ctl_of c_enable_count] in Hr, Hctl. rewrite Hec in Hr, Hctl.
  change (0 =? 0) with true in Hr, Hctl. change (1 =? 0) with false in Hr, Hctl.
  change (wrap_int (1 - 1)) with 0 in Hr, Hctl.
  change (0 >? 0) with false in Hr, Hctl. cbv iota zeta in Hr, Hctl.
  split; [| split; [| split; [| exact Hfr]]].
  - rewrite Hr. by destruct (negb _ && _ && _).
  - apply (f_equal c_enable_count) in Hctl. cbn [ctl_of c_enable_count] in Hctl.
    rewrite Hctl. destruct (negb _ && _ && _); cbn; apply edge_ctl_enable_count.
  - unfold counters.
    pose proof (f_equal c_polls Hctl) as H1. pose proof (f_equal c_trigs Hctl) as H2.
    pose proof (f_equal c_active Hctl) as H3.
    cbn [ctl_of c_polls c_trigs c_active] in H1, H2, H3. rewrite H1, H2, H3.
    by destruct (negb _ && _ && _).
Qed.

(** An edge up followed by an edge down restores counters that hold
    [int]s. *)
Lemma adjust_at_round_trip l d :
  Forall is_int l → adjust_at (adjust_at l d 1) d (-1) = l.
Proof.
  intros Hl. unfold adjust_at, arr_get.
  destruct (l !! d) as [x |] eqn:E.
  - rewrite list_lookup_insert_eq by (by eapply lookup_lt_Some). cbn.
    rewrite list_insert_insert_eq.
    assert (Hx : is_int x) by (eapply Forall_lookup_1; eauto).
    replace (wrap_int (wrap_int (x + 1) + -1)) with x; [by apply list_insert_id |].
    unfold is_int, INT_MIN, INT_MAX in Hx. unfold wrap_int.
    destruct (decide (x = 2147483647)) as [-> | Hne]; [reflexivity |].
    rewrite (Z.mod_small (x + 1 + 2 ^ 31)) by lia.
    rewrite Z.mod_small by lia. lia.
  - apply lookup_ge_None in E. rewrite !list_insert_ge; rewrite ?length_insert; done.
Qed.

Lemma wrap_int_round_trip x : is_int x → wrap_int (wrap_int (x + 1) + -1) = x.
Proof.
  intros Hx. unfold is_int, INT_MIN, INT_MAX in Hx. unfold wrap_int.
  destruct (decide (x = 2147483647)) as [-> | Hne]; [reflexivity |].
  rewrite (Z.mod_small (x + 1 + 2 ^ 31)) by lia.
  rewrite Z.mod_small by lia. lia.
Qed.

Lemma activate_frame_trans s w1 w2 w3 :
  activate_frame s w1 w2 → activate_frame s w2 w3 → activate_frame s w1 w3.
Proof.
  intros (A1 & A2 & A3 & A4 & A5 & A6 & A7) (B1 & B2 & B3 & B4 & B5 & B6 & B7).
  do 5 (split; [congruence |]). split.
  - intros s'. eapply same_identity_trans; [apply A6 | apply B6].
  - intros s' Hne. rewrite B7, A7; done.
Qed.

Lemma activate_frame_refl s w : activate_frame s w w.
Proof. apply activate_frame_intro; try done. Qed.

Lemma activate_n_app a b s e w :
  activate_n K (a + b) s e w
  = ((activate_n K a s e w).1 ++ (activate_n K b s e (activate_n K a s e w).2).1,
     (activate_n K b s e (activate_n K a s e w).2).2).
Proof.
  revert w. induction a as [| a IH]; intros w.
  - cbn. by destruct (activate_n K b s e w).
  - cbn [Nat.add activate_n]. unfold mbind, M_bind, bind, ret.
    destruct (sensor_activate K s e w) as [r w1]. rewrite IH.
    destruct (activate_n K a s e w1) as [rs w2]. cbn.
    by destruct (activate_n K b s e w2).
Qed.

Lemma activate_n_one s e w :
  activate_n K 1 s e w = ([(sensor_activate K s e w).1], (sensor_activate K s e w).2).
Proof.
  cbn. unfold mbind, M_bind, bind, ret. by destruct (sensor_activate K s e w).
Qed.

Lemma enable_stack k w s :
  (s < length (sensor_info w))%nat →
  1 ≤ enable_count (sensor_at w s) →
  enable_count (sensor_at w s) + Z.of_nat k ≤ INT_MAX →
  let r := activate_n K k s 1 w in
  Forall (λ x, x = 0) r.1
  ∧ enable_count (sensor_at r.2 s) = enable_count (sensor_at w s) + Z.of_nat k
  ∧ counters r.2 = counters w
  ∧ activate_frame s w r.2.
Proof.
  revert w. induction k as [| k IH]; intros w Hs Hec Hmax r; subst r.
  - cbn. split; [constructor |]. split; [lia |]. split; [done |].
    apply activate_frame_refl.
  - replace (S k) with (1 + k)%nat by lia. rewrite activate_n_app, activate_n_one.
    cbn [fst snd].
    destruct (stacked_enable_step w s Hs) as (Hr & Hctl & Hfr); [lia |].
    set (w1 := (sensor_activate K s 1 w).2) in *.
    assert (Hec1 : enable_count (sensor_at w1 s) = enable_count (sensor_at w s) + 1)
      by apply (f_equal c_enable_count Hctl).
    assert (Hc1 : counters w1 = counters w).
    { unfold counters. pose proof (f_equal c_polls Hctl) as H1.
      pose proof (f_equal c_trigs Hctl) as H2. pose proof (f_equal c_active Hctl) as H3.
      cbn in H1, H2, H3. congruence. }
    destruct (IH w1) as (IH1 & IH2 & IH3 & IH4).
    { destruct Hfr as (_ & _ & _ & _ & -> & _). done. }
    { lia. } { lia. }
    split; [constructor; [exact Hr | exact IH1] |].
    split; [lia |]. split; [congruence |].
    by eapply activate_frame_trans.
Qed.

Lemma disable_stack k w s :
  (s < length (sensor_info w))%nat →
  Z.of_nat k < enable_count (sensor_at w s) ≤ INT_MAX →
  let r := activate_n K k s 0 w in
  Forall (λ x, x = 0) r.1
  ∧ enable_count (sensor_at r.2 s) = enable_count (sensor_at w s) - Z.of_nat k
  ∧ counters r.2 = counters w
  ∧ activate_frame s w r.2.
Proof.
  revert w. induction k as [| k IH]; intros w Hs Hec r; subst r.
  - cbn. split; [constructor |]. split; [lia |]. split; [done |].
    apply activate_frame_refl.
  - replace (S k) with (1 + k)%nat by lia. rewrite activate_n_app, activate_n_one.
    cbn [fst snd].
    destruct (stacked_disable_step w s Hs) as (Hr & Hctl & Hfr); [lia |].
    set (w1 := (sensor_activate K s 0 w).2) in *.
    assert (Hec1 : enable_count (sensor_at w1 s) = enable_count (sensor_at w s) - 1)
      by apply (f_equal c_enable_count Hctl).
    assert (Hc1 : counters w1 = counters w).
    { unfold counters. pose proof (f_equal c_polls Hctl) as H1.
      pose proof (f_equal c_trigs Hctl) as H2. pose proof (f_equal c_active Hctl) as H3.
      cbn in H1, H2, H3. congruence. }
    destruct (IH w1) as (IH1 & IH2 & IH3 & IH4).
    { destruct Hfr as (_ & _ & _ & _ & -> & _). done. }
    { lia. }
    split; [constructor; [exact Hr | exact IH1] |].
    split; [lia |]. split; [congruence |].
    by eapply activate_frame_trans.
Qed.

(** ** C6 *)

Lemma edge_ctl_same_identity si si' k ec c :
  same_identity si si' → edge_ctl si' k ec c = edge_ctl si k ec c.
Proof. intros (Hd & Hn & _). unfold edge_ctl. by rewrite Hd, Hn. Qed.

Lemma edge_round_trip si c :
  Forall is_int (c_polls c) → Forall is_int (c_trigs c) → is_int (c_active c) →
  let c1 := edge_ctl si 1 1 c in
  c_polls (edge_ctl si (-1) 0 c1) = c_polls c
  ∧ c_trigs (edge_ctl si (-1) 0 c1) = c_trigs c
  ∧ c_active (edge_ctl si (-1) 0 c1) = c_active c.
Proof.
  intros Hp Ht Ha. unfold edge_ctl. destruct (decide _); cbn.
  - by rewrite adjust_at_round_trip.
  - by rewrite adjust_at_round_trip, wrap_int_round_trip.
Qed.

(** C6: refcount round trip.  For a sensor whose [enable_count] is 0 and
    any [n] from 1 to INT_MAX, [n] enables followed by [n] disables, all
    returning 0, leave [enable_count] at 0 and the per-device counters and
    [active_poll_sensors] at their starting values; the counters move at
    the first enable (by one, for the mode of the sensor), stay put during
    the other enables and during the first [n - 1] disables, and move back
    at the last disable. *)
Theorem refcount_round_trip (w : world) (s n : nat) :
  (s < length (sensor_info w))%nat →
  int_counters w →
  enable_count (sensor_at w s) = 0 →
  (1 ≤ n)%nat → Z.of_nat n ≤ INT_MAX →
  let up := activate_n K n s 1 w in
  let down := activate_n K n s 0 up.2 in
  Forall (λ r, r = 0) (up.1 ++ down.1) →
  enable_count (sensor_at down.2 s) = 0
  ∧ counters down.2 = counters w
  ∧ counters (activate_n K 1 s 1 w).2
    = (c_polls (edge_ctl (sensor_at w s) 1 1 (ctl_of w s)),
       c_trigs (edge_ctl (sensor_at w s) 1 1 (ctl_of w s)),
       c_active (edge_ctl (sensor_at w s) 1 1 (ctl_of w s)))
  ∧ (∀ k, (1 ≤ k ≤ n)%nat →
       counters (activate_n K k s 1 w).2 = counters (activate_n K 1 s 1 w).2)
  ∧ (∀ k, (k < n)%nat → counters (activate_n K k s 0 up.2).2 = counters up.2).
Proof.
  intros Hs (Hip & Hit & Hia) Hec Hn Hmax up down Hall.
  destruct n as [| m]; [lia |].
  (* the first enable *)
  assert (Hup : up = activate_n K (1 + m) s 1 w) by done.
  rewrite activate_n_app, activate_n_one in Hup. cbn [fst snd] in Hup.
  set (w1 := (sensor_activate K s 1 w).2) in *.
  assert (Hr0 : (sensor_activate K s 1 w).1 = 0).
  { rewrite Hup in Hall. cbn in Hall. by inversion Hall. }
  destruct (first_enable_step w s Hs Hec Hr0) as (Hec1 & Hc1 & Hfr1).
  fold w1 in Hec1, Hc1, Hfr1.
  assert (Hs1 : (s < length (sensor_info w1))%nat).
  { destruct Hfr1 as (_ & _ & _ & _ & -> & _). done. }
  (* the other enables *)
  assert (Hstack : ∀ k, (k ≤ m)%nat →
            enable_count (sensor_at (activate_n K k s 1 w1).2 s) = 1 + Z.of_nat k
            ∧ counters (activate_n K k s 1 w1).2 = counters w1
            ∧ activate_frame s w1 (activate_n K k s 1 w1).2).
  { intros k Hk. destruct (enable_stack k w1 s Hs1) as (_ & E & C & F); [lia | lia |].
    rewrite Hec1 in E. done. }
  destruct (Hstack m) as (Hecn & Hcn & Hfrn); [lia |].
  assert (Hup2 : up.2 = (activate_n K m s 1 w1).2) by (by rewrite Hup).
  rewrite <- Hup2 in Hecn, Hcn, Hfrn.
  assert (Hsn : (s < length (sensor_info up.2))%nat).
  { destruct Hfrn as (_ & _ & _ & _ & -> & _). done. }
  (* the first [m] disables *)
  assert (Hdstack : ∀ k, (k ≤ m)%nat →
            enable_count (sensor_at (activate_n K k s 0 up.2).2 s)
              = 1 + Z.of_nat m - Z.of_nat k
            ∧ counters (activate_n K k s 0 up.2).2 = counters up.2
            ∧ activate_frame s up.2 (activate_n K k s 0 up.2).2).
  { intros k Hk. destruct (disable_stack k up.2 s Hsn) as (_ & E & C & F); [lia |].
    rewrite Hecn in E. done. }
  destruct (Hdstack m) as (Hecd & Hcd & Hfrd); [lia |].
  set (wd := (activate_n K m s 0 up.2).2) in *.
  assert (Hsd : (s < length (sensor_info wd))%nat).
  { destruct Hfrd as (_ & _ & _ & _ & -> & _). done. }
  (* the last disable *)
  assert (Hdown : down = activate_n K (m + 1) s 0 up.2)
    by (subst down; f_equal; lia).
  rewrite activate_n_app, activate_n_one in Hdown. cbn [fst snd] in Hdown. fold wd in Hdown.
  destruct (last_disable_step wd s Hsd) as (_ & Hec0 & Hc0 & _); [lia |].
  assert (Hdown2 : down.2 = (sensor_activate K s 0 wd).2) by (by rewrite Hdown).
  rewrite <- Hdown2 in Hec0, Hc0.
  split; [exact Hec0 |]. split.
  { rewrite Hc0.
    assert (Hid : same_identity (sensor_at w s) (sensor_at wd s)).
    { eapply same_identity_trans; [apply Hfr1 |].
      eapply same_identity_trans; [apply Hfrn | apply Hfrd]. }
    rewrite (edge_ctl_same_identity _ _ _ _ _ Hid).
    assert (Hcd' : counters wd = counters w1) by congruence.
    rewrite Hc1 in Hcd'. unfold counters in Hcd'.
    destruct (edge_round_trip (sensor_at w s) (ctl_of w s) Hip Hit Hia) as (R1 & R2 & R3).
    injection Hcd' as E1 E2 E3.
    unfold counters. unfold edge_ctl in *.
    destruct (decide _); cbn in *; congruence. }
  split. { rewrite activate_n_one. exact Hc1. }
  split.
  - intros k Hk. replace k with (1 + (k - 1))%nat by lia.
    rewrite activate_n_app, !activate_n_one. cbn [fst snd]. fold w1.
    destruct (Hstack (k - 1)%nat) as (_ & C & _); [lia |]. exact C.
  - intros k Hk. destruct (Hdstack k) as (_ & C & _); [lia |]. exact C.
Qed.

(** ** C9 *)

Lemma set_delay_rate ns :
  1 ≤ ns →
  (if wrap_int (Z.quot 1000000000 ns) =? 0 then 1 else wrap_int (Z.quot 1000000000 ns))
  = Z.max 1 (1000000000 / ns).
Proof.
  intros Hns. rewrite Z.quot_div_nonneg by lia.
  assert (0 ≤ 1000000000 / ns ≤ 1000000000).
  { split; [apply Z.div_pos; lia |]. apply Z.div_le_upper_bound; nia. }
  rewrite wrap_int_small by (unfold INT_MIN, INT_MAX; lia).
  destruct (1000000000 / ns =? 0) eqn:E; lia.
Qed.

(** C9: [sensor_set_delay] rejects a zero delay with -EINVAL, touching
    nothing but the log; for every [ns ≥ 1] it returns 0 and stores
    [max 1 (10^9 / ns)] as the sampling rate of the sensor, which is 1 for
    every [ns] above 10^9. *)
Theorem set_delay_rate_floor (w : world) (s : nat) (ns : Z) :
  (s < length (sensor_info w))%nat →
  sensor_set_delay K s 0 w
    = (- EINVAL, set_trace (trace w ++ [Log LOG_ERROR "Rejecting zero delay request"]) w)
  ∧ (1 ≤ ns →
     (sensor_set_delay K s ns w).1 = 0
     ∧ sampling_rate (sensor_at (sensor_set_delay K s ns w).2 s)
       = Z.max 1 (1000000000 / ns)
     ∧ 1 ≤ sampling_rate (sensor_at (sensor_set_delay K s ns w).2 s)
     ∧ (1000000000 < ns →
        sampling_rate (sensor_at (sensor_set_delay K s ns w).2 s) = 1)).
Proof.
  intros Hs. split; [reflexivity |]. intros Hns.
  assert (Hmain : (sensor_set_delay K s ns w).1 = 0
     ∧ sampling_rate (sensor_at (sensor_set_delay K s ns w).2 s)
       = Z.max 1 (1000000000 / ns)).
  { unfold sensor_set_delay.
    unfold mbind, M_bind, bind, gets. cbv beta iota zeta.
    destruct (ns =? 0) eqn:E0; [lia |].
    rewrite set_delay_rate by done.
    set (rate := Z.max 1 (1000000000 / ns)).
    unfold sysfs_read_int, enable_buffer, sysfs_write_int, tick, emit, gets, modify,
      update_sensor, release_poll_loop, mbind, M_bind, bind, ret. cbv beta iota zeta.
    assert (Hat : ∀ w0, sensor_info w0 = sensor_info w →
              sampling_rate (sensor_at
                (set_sensor_info (<[s := set_sampling_rate rate (sensor_at w0 s)]>
                                    (sensor_info w0)) w0) s) = rate).
    { intros w0 Hw0. unfold sensor_at. cbn.
      rewrite list_lookup_insert_eq by (rewrite Hw0; done). reflexivity. }
    destruct (k_sysfs_read_int K _ _) as [cur |]; cbv beta iota zeta.
    2:{ split; [reflexivity |]. cbn [fst snd]. unfold sensor_at at 1. cbn [sensor_info set_trace].
        apply Hat. reflexivity. }
    destruct (rate =? cur); cbv beta iota zeta.
    { split; [reflexivity |]. cbn [fst snd]. unfold sensor_at at 1. cbn [sensor_info set_trace].
      apply Hat. reflexivity. }
    cbn [trig_sensors_per_dev set_trace].
    destruct (arr_get (trig_sensors_per_dev w) (dev_num (sensor_at w s)) =? 0);
      cbv beta iota zeta; cbn [trig_sensors_per_dev set_trace].
    all: try match goal with
         | |- context [if ?c then _ else _] => destruct c
         end; cbv beta iota zeta.
    all: split; [reflexivity |]; cbn [fst snd]; unfold sensor_at at 1;
      cbn [sensor_info set_trace]; apply Hat; reflexivity. }
  destruct Hmain as [H1 H2]. split; [exact H1 |]. split; [exact H2 |].
  rewrite H2. split; [lia |].
  intros Hbig. rewrite Z.div_small by lia. reflexivity.
Qed.

(** ** Delivery of a pending report *)

Lemma set_trace_set_trace x y w : set_trace x (set_trace y w) = set_trace x w.
Proof. by destruct w. Qed.

Lemma set_trace_sensor_info x l w :
  set_trace x (set_sensor_info l w) = set_sensor_info l (set_trace x w).
Proof. by destruct w. Qed.

Lemma acquire_fields_effect s cs e w :
  ∃ evs, (acquire_fields K s cs e w).2 = set_trace (trace w ++ evs) w
         ∧ Forall (λ e, is_wait_event e = false) evs.
Proof.
  revert e w. induction cs as [| c cs IH]; intros e w; cbn [acquire_fields].
  - exists []. split; [| constructor]. destruct w; cbn. by rewrite app_nil_r.
  - repeat progress
      (unfold mbind, M_bind, bind, acquire_immediate_value, tick, emit, gets, modify, ret;
       cbv beta iota zeta).
    match goal with |- context [acquire_fields K s cs ?e0 ?w0] =>
      destruct (IH e0 w0) as (evs & Hevs & Hall) end.
    eexists (_ :: evs). rewrite Hevs. split.
    + cbn [trace set_trace]. rewrite set_trace_set_trace, <- app_assoc. reflexivity.
    + constructor; [reflexivity | exact Hall].
Qed.

Lemma propagate_effect s w :
  ∃ ts evs,
    (propagate_sensor_report K s w).2
    = set_trace (trace w ++ evs)
        (set_sensor_info (<[s := set_last_integration_ts ts (sensor_at w s)]>
                            (sensor_info w)) w)
    ∧ Forall (λ e, is_wait_event e = false) evs.
Proof.
  unfold propagate_sensor_report.
  repeat progress
    (unfold mbind, M_bind, bind, get_timestamp, ALOGE, update_sensor, tick, emit,
       gets, modify, ret; cbv beta iota zeta).
  destruct w as [sensors cnt polls trigs fds pfd pair last act pset tr].
  unfold sensor_at. cbn [trace set_trace sensor_info set_sensor_info sensor_count
    poll_sensors_per_dev trig_sensors_per_dev device_fd poll_fd poll_socket_pair
    last_poll_exit_ts active_poll_sensors poll_set].
  destruct (num_fields_of_type _) as [nf |]; cbv beta iota zeta;
    cbn [trace set_trace sensor_info set_sensor_info sensor_count
    poll_sensors_per_dev trig_sensors_per_dev device_fd poll_fd poll_socket_pair
    last_poll_exit_ts active_poll_sensors poll_set];
    destruct (decide (num_channels (default sensor_zero (sensors !! s)) = 0%nat)).
  - match goal with |- context [acquire_fields K s ?cs ?e0 ?w0] =>
      destruct (acquire_fields_effect s cs e0 w0) as (evs & Hevs & Hall);
      destruct (acquire_fields K s cs e0 w0) as [e1 w1] end.
    cbn [snd] in Hevs |- *. rewrite Hevs.
    eexists _, (_ :: _ :: evs). split.
    + cbn. rewrite <- !app_assoc. reflexivity.
    + repeat constructor. exact Hall.
  - eexists _, [_; _]. split.
    + cbn. rewrite <- !app_assoc. reflexivity.
    + repeat constructor.
  - cbn [acquire_fields seq]. eexists _, [_; _; _]. split.
    + cbn. rewrite <- !app_assoc. reflexivity.
    + repeat constructor.
  - eexists _, [_; _; _]. split.
    + cbn. rewrite <- !app_assoc. reflexivity.
    + repeat constructor.
Qed.

Lemma return_first_spec pre s0 post w :
  Forall (λ s', report_pending (sensor_at w s') = 0) pre →
  report_pending (sensor_at w s0) ≠ 0 →
  return_first_available_sensor_report K (pre ++ s0 :: post) w
  = (Some (propagate_sensor_report K s0 w).1,
     (update_sensor s0 (set_report_pending 0) (propagate_sensor_report K s0 w).2).2).
Proof.
  intros Hpre Hs0. induction Hpre as [| s' pre Hs' Hpre IH].
  - cbn [app return_first_available_sensor_report].
    unfold mbind, M_bind, bind, gets. cbv beta iota zeta.
    destruct (report_pending (sensor_at w s0) =? 0) eqn:E; [lia |].
    destruct (propagate_sensor_report K s0 w) as [e w1]. reflexivity.
  - cbn [app return_first_available_sensor_report].
    unfold mbind at 1. unfold M_bind, bind, gets. cbv beta iota zeta.
    rewrite Hs'. cbn. exact IH.
Qed.

Lemma least_pending w n :
  (∃ s0, (s0 < n)%nat ∧ report_pending (sensor_at w s0) ≠ 0
         ∧ ∀ s', (s' < s0)%nat → report_pending (sensor_at w s') = 0)
  ∨ (∀ s, (s < n)%nat → report_pending (sensor_at w s) = 0).
Proof.
  induction n as [| n IH].
  - right. intros s Hs. lia.
  - destruct IH as [(s0 & H1 & H2 & H3) | Hnone].
    + left. exists s0. split; [lia | done].
    + destruct (decide (report_pending (sensor_at w n) = 0)) as [Hz | Hnz].
      * right. intros s Hs. destruct (decide (s = n)) as [-> | Hne]; [done |].
        apply Hnone. lia.
      * left. exists n. split; [lia |]. split; [done | exact Hnone].
Qed.

(** ** C8 *)

Lemma order_split (A B : event → bool) (l1 l2 : list event) :
  Forall (λ e, B e = false) l1 → Forall (λ e, A e = false) l2 →
  ∀ i j e e', (l1 ++ l2) !! i = Some e → A e = true →
              (l1 ++ l2) !! j = Some e' → B e' = true → (i < j)%nat.
Proof.
  intros H1 H2 i j e e' Hi HA Hj HB.
  assert (i < length l1)%nat.
  { destruct (decide (i < length l1)%nat) as [? | Hge]; [done |].
    rewrite lookup_app_r in Hi by lia.
    rewrite Forall_lookup in H2. specialize (H2 _ _ Hi). congruence. }
  assert (length l1 ≤ j)%nat.
  { destruct (decide (length l1 ≤ j)%nat) as [? | Hlt]; [done |].
    rewrite lookup_app_l in Hj by lia.
    rewrite Forall_lookup in H1. specialize (H1 _ _ Hj). congruence. }
  lia.
Qed.

Lemma activate_ctl_events si fd enabled open_r add_ok c :
  Forall (λ e, is_sysfs_event e = false) (activate_ctl si fd enabled open_r add_ok c).2.
Proof.
  unfold activate_ctl.
  repeat match goal with
         | |- context [if ?c then _ else _] => destruct c
         end; cbn; repeat constructor.
Qed.

Lemma Forall_bool_impl (A B : event → bool) b l :
  (∀ e, A e = true → B e = b) →
  Forall (λ e, A e = true) l → Forall (λ e, B e = b) l.
Proof. intros H HF. eapply Forall_impl; [exact HF | exact H]. Qed.

Lemma Forall_not_sysfs (B : event → bool) l :
  (∀ e, B e = true → is_sysfs_event e = true) →
  Forall (λ e, is_sysfs_event e = false) l → Forall (λ e, B e = false) l.
Proof.
  intros H HF. eapply Forall_impl; [exact HF |]. intros e He. cbn in He.
  destruct (B e) eqn:E; [| done]. apply H in E. congruence.
Qed.


(** C8: in the events of one [sensor_activate] call on a trigger-mode
    sensor, every write of 0 to buffer/enable comes before every channel
    _en write, and every channel _en write and every read of the layout
    refresh comes before every write of 1 to buffer/enable; buffer/enable
    receives 1 exactly when the call toggled the sensor and trigger-mode
    sensors remain on the device after the counter step; and a call that
    toggles the sensor does write buffer/enable = 0 and the _en attribute
    of each of its channels. *)
Theorem trigger_reconfiguration_order (w : world) (s : nat) (enabled : Z) :
  (s < length (sensor_info w))%nat →
  let si := sensor_at w s in
  num_channels si ≠ 0%nat →
  let seg := emitted w (sensor_activate K s enabled w).2 in
  let trigs_left := arr_get (adjust_at (trig_sensors_per_dev w) (dev_num si)
                               (if enabled =? 0 then -1 else 1)) (dev_num si) in
  (∀ i j e e', seg !! i = Some e → is_buffer_enable 0 e = true →
               seg !! j = Some e' → is_channel_enable e' = true → (i < j)%nat)
  ∧ (∀ j k e e', seg !! j = Some e →
               is_channel_enable e || is_layout_read e = true →
               seg !! k = Some e' → is_buffer_enable 1 e' = true → (j < k)%nat)
  ∧ ((∃ e, e ∈ seg ∧ is_buffer_enable 1 e = true)
     ↔ is_edge enabled (enable_count si) = true ∧ trigs_left ≠ 0)
  ∧ (is_edge enabled (enable_count si) = true →
     SysfsWriteInt (ENABLE_PATH (dev_num si)) 0 ∈ seg
     ∧ ∀ c, (c < num_channels si)%nat →
         SysfsWriteInt (CHANNEL_PATH (dev_num si)
                          (en_path (catalog_channel (catalog_index si) c))) enabled
         ∈ seg).
Proof.
  intros Hs si Hnc seg trigs_left.
  destruct (sensor_activate_refines w s enabled Hs)
    as (open_r & add_ok & cfg & _ & _ & Htr & Hcfg & _ & _ & _).
  fold si in Htr, Hcfg.
  set (fd_evs := (activate_ctl si (poll_socket_pair w).2 enabled open_r add_ok
                    (ctl_of w s)).2) in *.
  assert (Hfd : Forall (λ e, is_sysfs_event e = false) fd_evs)
    by apply activate_ctl_events.
  assert (Hseg : seg = cfg ++ fd_evs).
  { subst seg. unfold emitted. rewrite Htr. by rewrite drop_app_length. }
  rewrite bool_decide_eq_true_2, andb_true_r in Hcfg by done. fold trigs_left in Hcfg.
  assert (Hfd0 : Forall (λ e, is_buffer_enable 0 e = false) fd_evs).
  { eapply Forall_not_sysfs; [| exact Hfd]. by intros [[] | | | | | | | | | | | | | | | | |]. }
  assert (Hfd1 : Forall (λ e, is_buffer_enable 1 e = false) fd_evs).
  { eapply Forall_not_sysfs; [| exact Hfd]. by intros [[] | | | | | | | | | | | | | | | | |]. }
  assert (Hfd2 : Forall (λ e, is_channel_enable e || is_layout_read e = false) fd_evs).
  { eapply Forall_not_sysfs; [| exact Hfd].
    by intros [[] | | [] | [] | | | | | | | | | | | | | |]. }
  assert (Hfd3 : Forall (λ e, is_channel_enable e = false) fd_evs).
  { eapply Forall_not_sysfs; [| exact Hfd]. by intros [[] | | | | | | | | | | | | | | | | |]. }
  rewrite Hseg. clear Hseg seg.
  destruct (is_edge enabled (enable_count si)) eqn:Eedge.
  2:{ (* no toggle: nothing is written to sysfs *)
      subst cfg. cbn [app].
      split; [intros i j e e' Hi HA; rewrite Forall_lookup in Hfd0;
              specialize (Hfd0 _ _ Hi); congruence |].
      split; [intros j k e e' Hj HA; rewrite Forall_lookup in Hfd2;
              specialize (Hfd2 _ _ Hj); congruence |].
      split; [| done].
      split; [| by intros [? _]].
      intros (e & Hin & He). rewrite Forall_forall in Hfd1.
      specialize (Hfd1 _ Hin). congruence. }
  destruct Hcfg as (trig_evs & layout_evs & -> & Htrig & Hlay).
  set (ens := map _ (seq 0 (num_channels si))).
  assert (Hens : ∀ (B : event → bool),
            (∀ d f v, B (SysfsWriteInt (CHANNEL_PATH d f) v) = false) →
            Forall (λ e, B e = false) ens).
  { intros B HB. subst ens. apply Forall_forall. intros e Hin.
    apply list_elem_of_fmap in Hin as (c & -> & _). apply HB. }
  assert (Htr' : ∀ (B : event → bool),
            (∀ d v, B (SysfsWriteStr (TRIGGER_PATH d) v) = false) →
            Forall (λ e, B e = false) trig_evs).
  { intros B HB. destruct Htrig as [-> | [name ->]]; repeat constructor. apply HB. }
  assert (Hlay' : ∀ (B : event → bool),
            (∀ e, is_layout_event e = true → B e = false) →
            Forall (λ e, B e = false) layout_evs).
  { intros B HB. eapply Forall_impl; [exact Hlay | exact HB]. }
  set (W0 := SysfsWriteInt (ENABLE_PATH (dev_num si)) 0).
  set (W1 := SysfsWriteInt (ENABLE_PATH (dev_num si)) 1).
  assert (Hno1 : Forall (λ e, is_buffer_enable 1 e = false) (W0 :: trig_evs ++ ens ++ layout_evs)).
  { constructor; [reflexivity |]. apply Forall_app. split; [by apply Htr' |].
    apply Forall_app. split; [by apply Hens |].
    apply Hlay'. by intros [[] | | [] | [] | | | | | | | | | | | | | |]. }
  assert (Hno1a : Forall (λ e, is_buffer_enable 1 e = false) (W0 :: trig_evs ++ ens ++ [])).
  { constructor; [reflexivity |]. apply Forall_app. split; [by apply Htr' |].
    apply Forall_app. split; [by apply Hens | constructor]. }
  split; [| split; [| split]].
  - apply (order_split (is_buffer_enable 0) is_channel_enable [W0]).
    + by repeat constructor.
    + apply Forall_app. split; [| exact Hfd0].
      apply Forall_app. split; [by apply Htr' |].
      apply Forall_app. split; [by apply Hens |].
      destruct (trigs_left =? 0); [constructor |].
      apply Forall_app. split; [| by repeat constructor].
      apply Hlay'. by intros [[] | | [] | [] | | | | | | | | | | | | | |].
  - destruct (trigs_left =? 0) eqn:E0.
    + intros j k e e' _ _ Hk He'. exfalso.
      assert (Hall : Forall (λ e, is_buffer_enable 1 e = false)
                       ((W0 :: trig_evs ++ ens ++ []) ++ fd_evs)).
      { apply Forall_app. split; [exact Hno1a | exact Hfd1]. }
      rewrite Forall_lookup in Hall. specialize (Hall _ _ Hk). congruence.
    + replace ((W0 :: trig_evs ++ ens ++ layout_evs ++ [W1]) ++ fd_evs)
        with ((W0 :: trig_evs ++ ens ++ layout_evs) ++ ([W1] ++ fd_evs))
        by (cbn; by rewrite <- !app_assoc).
      apply (order_split (λ e, is_channel_enable e || is_layout_read e)
               (is_buffer_enable 1)).
      * exact Hno1.
      * apply Forall_app. split; [by repeat constructor | exact Hfd2].
  - split.
    + intros (e & Hin & He). split; [done |]. intros Hz.
      rewrite (proj2 (Z.eqb_eq _ _) Hz) in Hin.
      apply elem_of_app in Hin as [Hin | Hin].
      * rewrite Forall_forall in Hno1a. specialize (Hno1a _ Hin). congruence.
      * rewrite Forall_forall in Hfd1. specialize (Hfd1 _ Hin). congruence.
    + intros [_ Hnz]. exists W1. split; [| reflexivity].
      destruct (trigs_left =? 0) eqn:E0; [lia |].
      apply elem_of_app. left. apply list_elem_of_further.
      apply elem_of_app. right. apply elem_of_app. right.
      apply elem_of_app. right. apply list_elem_of_here.
  - intros _. split.
    + apply elem_of_app. left. apply list_elem_of_here.
    + intros c Hc. apply elem_of_app. left. apply list_elem_of_further.
      apply elem_of_app. right. apply elem_of_app. left.
      subst ens. apply list_elem_of_fmap. exists c. split; [reflexivity |].
      apply elem_of_seq. lia.
Qed.
(** ** C10 *)

Lemma configure_events_kind si enabled t cfg :
  configure_events si enabled t cfg →
  Forall (λ e, is_sysfs_event e || is_layout_event e = true) cfg.
Proof.
  intros (trig_evs & layout_evs & -> & Htrig & Hlay).
  constructor; [reflexivity |].
  apply Forall_app. split.
  { destruct Htrig as [-> | [name ->]]; by repeat constructor. }
  apply Forall_app. split.
  { apply Forall_forall. intros e Hin.
    apply list_elem_of_fmap in Hin as (c & -> & _). reflexivity. }
  destruct (t =? 0); [constructor |].
  apply Forall_app. split; [| by repeat constructor].
  eapply Forall_impl; [exact Hlay |]. intros e He. cbn in He. rewrite He.
  apply orb_true_r.
Qed.

(** C10: if a [sensor_activate] call sees EPOLL_CTL_ADD fail, then it is
    an enable of a trigger-mode sensor that just opened the device (the
    table held -1), it returns -1, and nothing is rolled back: the sensor's
    [enable_count] is 1 (its value before, plus one), the device's
    trigger-mode counter is one up, the new descriptor stays in the device
    table, the interest list is as before, and the call neither closes a
    descriptor nor writes the wakeup byte. *)
Theorem failed_registration_is_not_rolled_back
    (w : world) (s : nat) (enabled fd tag : Z) :
  (s < length (sensor_info w))%nat →
  let si := sensor_at w s in
  let r := (sensor_activate K s enabled w).1 in
  let w' := (sensor_activate K s enabled w).2 in
  EpollCtlAdd fd tag (-1) ∈ emitted w w' →
  r = -1
  ∧ enabled ≠ 0 ∧ num_channels si ≠ 0%nat
  ∧ arr_get (device_fd w) (dev_num si) = -1
  ∧ tag = Z.of_nat (dev_num si) ∧ fd ≠ -1
  ∧ Open (DEV_FILE_PATH (dev_num si)) fd ∈ emitted w w'
  ∧ enable_count (sensor_at w' s) = 1
  ∧ enable_count (sensor_at w' s) = wrap_int (enable_count si + 1)
  ∧ trig_sensors_per_dev w' = adjust_at (trig_sensors_per_dev w) (dev_num si) 1
  ∧ device_fd w' = <[dev_num si := fd]> (device_fd w)
  ∧ poll_set w' = poll_set w
  ∧ (∀ x, WriteByte x ∉ emitted w w')
  ∧ (∀ x, Close x ∉ emitted w w').
Proof.
  intros Hs si r w' Hin.
  destruct (sensor_activate_refines w s enabled Hs)
    as (open_r & add_ok & cfg & Hr & Hctl & Htr & Hcfg & _ & _ & _).
  fold si r w' in Hr, Hctl, Htr, Hcfg.
  assert (Hseg : emitted w w' = cfg
            ++ (activate_ctl si (poll_socket_pair w).2 enabled open_r add_ok (ctl_of w s)).2).
  { unfold emitted. rewrite Htr. by rewrite drop_app_length. }
  rewrite Hseg in Hin |- *. clear Hseg Htr.
  assert (Hkind : Forall (λ e, is_sysfs_event e || is_layout_event e = true) cfg).
  { destruct (_ && _); [by eapply configure_events_kind | subst cfg; constructor]. }
  assert (Hcfg_no : ∀ e, is_sysfs_event e || is_layout_event e = false → e ∉ cfg).
  { intros e He Hine. rewrite Forall_forall in Hkind. specialize (Hkind _ Hine).
    congruence. }
  apply elem_of_app in Hin as [Hin | Hin]; [by apply Hcfg_no in Hin |].
  pose proof (f_equal c_enable_count Hctl) as Hec.
  pose proof (f_equal c_trigs Hctl) as Htrigs.
  pose proof (f_equal c_fds Hctl) as Hfds.
  pose proof (f_equal c_pset Hctl) as Hpset.
  cbn [ctl_of c_enable_count c_trigs c_fds c_pset] in Hec, Htrigs, Hfds, Hpset.
  rewrite Hec, Htrigs, Hfds, Hpset, Hr. clear Hec Htrigs Hfds Hpset Hctl Hr.
  unfold activate_ctl in *. cbn [ctl_of c_enable_count] in *. fold si in Hin |- *.
  repeat match goal with
         | H : context [if ?c then _ else _] |- _ => destruct c eqn:?
         end; cbn [fst snd] in Hin |- *;
    repeat match goal with
           | H : _ ∈ [] |- _ => by apply elem_of_nil in H
           | H : _ ∈ _ :: _ |- _ =>
               apply elem_of_cons in H as [H | H]; [try discriminate H |]
           end.
  all: injection Hin as -> ->.
  all: rewrite edge_ctl_fds in Heqb2; cbn in Heqb2.
  all: apply negb_false_iff in Heqb1.
  all: split; [reflexivity |]; split; [lia |]; split; [exact n |];
    split; [lia |]; split; [reflexivity |]; split; [lia |].
  all: split; [apply elem_of_app; right; apply list_elem_of_here |].
  all: unfold with_fd; cbn [c_enable_count c_trigs c_fds c_pset];
    rewrite ?edge_ctl_enable_count, ?edge_ctl_fds, ?edge_ctl_pset.
  all: split; [lia |]; split; [reflexivity |].
  all: split; [unfold edge_ctl; by destruct (decide _) |].
  all: split; [reflexivity |]; split; [reflexivity |].
  all: split; intros x Hx; apply elem_of_app in Hx as [Hx | Hx];
    try (by apply Hcfg_no in Hx);
    repeat match goal with
           | H : _ ∈ [] |- _ => by apply elem_of_nil in H
           | H : _ ∈ _ :: _ |- _ =>
               apply elem_of_cons in H as [H | H]; [try discriminate H |]
           end.
Qed.

(** ** The poll loop only appends to the trace *)

Lemma trace_grows_ret {A} (a : A) : trace_grows (ret a).
Proof. intros w. exists []. cbn. by rewrite app_nil_r. Qed.

Lemma trace_grows_gets {A} (f : world → A) : trace_grows (gets f).
Proof. intros w. exists []. cbn. by rewrite app_nil_r. Qed.

Lemma trace_grows_modify (f : world → world) :
  (∀ w, trace (f w) = trace w) → trace_grows (modify f).
Proof. intros Hf w. exists []. cbn. by rewrite Hf, app_nil_r. Qed.

Lemma trace_grows_emit e : trace_grows (emit e).
Proof. intros w. by exists [e]. Qed.

Lemma trace_grows_bind {A B} (m : M A) (f : A → M B) :
  trace_grows m → (∀ a, trace_grows (f a)) → trace_grows (bind f m).
Proof.
  intros Hm Hf w. unfold bind.
  destruct (Hm w) as [e1 H1]. destruct (m w) as [a w1]. cbn in H1.
  destruct (Hf a w1) as [e2 H2]. exists (e1 ++ e2).
  by rewrite H2, H1, app_assoc.
Qed.

Lemma trace_grows_update_sensor s f : trace_grows (update_sensor s f).
Proof. by apply trace_grows_modify. Qed.

Ltac grows_tac :=
  repeat first
    [ apply trace_grows_ret
    | apply trace_grows_gets
    | apply trace_grows_emit
    | apply trace_grows_update_sensor
    | (apply trace_grows_modify; intros; reflexivity)
    | match goal with
      | |- ∀ _, trace_grows _ => intro
      | |- trace_grows (match ?x with _ => _ end) => destruct x
      | |- trace_grows (let '(_, _) := ?x in _) => destruct x
      end
    | apply trace_grows_bind ].

Lemma trace_grows_for_each {A} (l : list A) (body : A → M unit) :
  (∀ x, trace_grows (body x)) → trace_grows (for_each l body).
Proof.
  intros Hb. induction l as [| x l IH]; cbn [for_each]; [apply trace_grows_ret |].
  apply trace_grows_bind; [apply Hb | intros _; exact IH].
Qed.

Lemma trace_grows_get_timestamp : trace_grows (get_timestamp K).
Proof. unfold get_timestamp, tick. grows_tac. Qed.

Lemma trace_grows_acquire_fields s cs e : trace_grows (acquire_fields K s cs e).
Proof.
  revert e. induction cs as [| c cs IH]; intros e; cbn [acquire_fields].
  - apply trace_grows_ret.
  - apply trace_grows_bind; [unfold acquire_immediate_value, tick; grows_tac |].
    intros v. apply IH.
Qed.

Lemma trace_grows_propagate s : trace_grows (propagate_sensor_report K s).
Proof.
  unfold propagate_sensor_report, ALOGE.
  apply trace_grows_bind; [apply trace_grows_gets |]. intros si.
  apply trace_grows_bind; [apply trace_grows_get_timestamp |]. intros ts.
  apply trace_grows_bind; [grows_tac |]. intros nf.
  apply trace_grows_bind; [apply trace_grows_get_timestamp |]. intros ts'.
  apply trace_grows_bind; [apply trace_grows_update_sensor |]. intros _.
  destruct (decide _).
  - apply trace_grows_bind; [apply trace_grows_acquire_fields |]. grows_tac.
  - grows_tac.
Qed.

Lemma trace_grows_return_first ss :
  trace_grows (return_first_available_sensor_report K ss).
Proof.
  induction ss as [| s ss IH]; cbn [return_first_available_sensor_report].
  - apply trace_grows_ret.
  - apply trace_grows_bind; [apply trace_grows_gets |]. intros si.
    destruct (_ =? 0); [exact IH |].
    apply trace_grows_bind; [apply trace_grows_propagate |]. grows_tac.
Qed.

Lemma trace_grows_integrate d : trace_grows (integrate_device_report K d).
Proof.
  unfold integrate_device_report, ALOGE, sys_read_report, tick.
  apply trace_grows_bind; [apply trace_grows_gets |]. intros trigs.
  destruct (_ || _ || _); [grows_tac |].
  apply trace_grows_bind; [apply trace_grows_gets |]. intros sz.
  apply trace_grows_bind; [apply trace_grows_gets |]. intros fd.
  apply trace_grows_bind; [grows_tac |]. intros [bytes |]; [| grows_tac].
  apply trace_grows_bind; [| grows_tac].
  apply trace_grows_for_each. intros s. grows_tac.
Qed.

Lemma trace_grows_dispatch evs : trace_grows (dispatch_events K evs).
Proof.
  induction evs as [| e evs IH]; cbn [dispatch_events]; [apply trace_grows_ret |].
  destruct (_ =? EPOLLIN); [| exact IH].
  destruct (_ =? INVALID_DEV_NUM).
  - unfold acknowledge_release. grows_tac.
  - apply trace_grows_bind; [apply trace_grows_integrate | intros _; exact IH].
Qed.

Lemma trace_grows_invalidate : trace_grows invalidate_poll_sensors.
Proof.
  unfold invalidate_poll_sensors.
  apply trace_grows_bind; [apply trace_grows_gets |]. intros aps.
  destruct (_ =? 0); [apply trace_grows_ret |].
  apply trace_grows_bind; [apply trace_grows_gets |]. intros n.
  apply trace_grows_for_each. intros s. grows_tac.
Qed.

Lemma trace_grows_get_poll_time : trace_grows (get_poll_time K).
Proof.
  unfold get_poll_time.
  apply trace_grows_bind; [apply trace_grows_gets |]. intros aps.
  destruct (_ =? 0); [apply trace_grows_ret |].
  apply trace_grows_bind; [apply trace_grows_gets |]. intros lowest.
  destruct (_ =? INT64_MAX); [apply trace_grows_ret |].
  apply trace_grows_bind; [apply trace_grows_get_timestamp |]. grows_tac.
Qed.

Lemma trace_grows_after_wait fuel (k : nat → M (option (Z * sensors_event_t)))
    (nfds : option (list epoll_event)) :
  (∀ f, trace_grows (k f)) →
  trace_grows
    (match nfds with
     | None => k fuel
     | Some evs =>
       again ← dispatch_events K evs;
       if again : bool then k fuel
       else
         invalidate_poll_sensors ;;
         count ← gets sensor_count;
         found ← return_first_available_sensor_report K (seq 0 count);
         match found with
         | Some e => ret (Some (1, e))
         | None => k fuel
         end
     end).
Proof.
  intros Hk. destruct nfds as [evs |]; [| apply Hk].
  apply trace_grows_bind; [apply trace_grows_dispatch |]. intros [|]; [apply Hk |].
  apply trace_grows_bind; [apply trace_grows_invalidate |]. intros _.
  apply trace_grows_bind; [apply trace_grows_gets |]. intros n.
  apply trace_grows_bind; [apply trace_grows_return_first |].
  intros [e |]; [apply trace_grows_ret | apply Hk].
Qed.

Lemma trace_grows_await_event fuel : trace_grows (await_event K fuel).
Proof.
  induction fuel as [| fuel IH]; cbn [await_event]; [apply trace_grows_ret |].
  unfold keep_min_interval, usleep, epoll_wait, tick.
  apply trace_grows_bind.
  { apply trace_grows_bind; [apply trace_grows_get_timestamp |]. grows_tac. }
  intros _.
  apply trace_grows_bind; [apply trace_grows_get_poll_time |]. intros timeout.
  apply trace_grows_bind; [grows_tac |]. intros nfds.
  apply trace_grows_bind; [apply trace_grows_get_timestamp |]. intros ts.
  apply trace_grows_bind; [by apply trace_grows_modify |]. intros _.
  apply (trace_grows_after_wait fuel (λ _, await_event K fuel)). intros _. exact IH.
Qed.

(** ** The wait loop *)

Lemma return_first_none ss w :
  Forall (λ s, report_pending (sensor_at w s) = 0) ss →
  return_first_available_sensor_report K ss w = (None, w).
Proof.
  induction 1 as [| s ss Hs _ IH]; cbn [return_first_available_sensor_report];
    [reflexivity |].
  unfold mbind, M_bind, bind, gets. cbv beta iota zeta. rewrite Hs. exact IH.
Qed.

Lemma keep_min_interval_eq w :
  let now := k_get_timestamp K (length (trace w)) in
  let delta := wrap_int (Z.quot (wrap_int64 (now - last_poll_exit_ts w)) 1000) in
  keep_min_interval K w
  = (tt, set_trace (trace w ++ GetTimestamp now
                      :: (if (delta >? 0) && (delta <? POLL_MIN_INTERVAL)
                          then [Usleep (POLL_MIN_INTERVAL - delta)] else [])) w).
Proof.
  intros now delta. unfold keep_min_interval.
  repeat progress (unfold mbind, M_bind, bind, get_timestamp, usleep, tick, emit,
                     gets, modify, ret; cbv beta iota zeta).
  cbn [last_poll_exit_ts set_trace trace]. fold now. fold delta.
  destruct (_ && _).
  - rewrite set_trace_set_trace. cbn [trace set_trace]. rewrite <- app_assoc. reflexivity.
  - reflexivity.
Qed.

Lemma get_poll_time_effect w :
  ∃ evs, (get_poll_time K w).2 = set_trace (trace w ++ evs) w
         ∧ Forall (λ e, is_wait_event e = false) evs.
Proof.
  unfold get_poll_time.
  repeat progress (unfold mbind, M_bind, bind, get_timestamp, tick, emit,
                     gets, modify, ret; cbv beta iota zeta).
  destruct (_ =? 0).
  { exists []. split; [| constructor]. destruct w; cbn. by rewrite app_nil_r. }
  destruct (_ =? INT64_MAX).
  { exists []. split; [| constructor]. destruct w; cbn. by rewrite app_nil_r. }
  eexists [_]. split; [destruct (_ <=? _); reflexivity | by repeat constructor].
Qed.

Lemma await_event_unfold fuel :
  ∃ tail : option (list epoll_event) → M (option (Z * sensors_event_t)),
    (∀ nfds, trace_grows (tail nfds))
    ∧ ∀ w, await_event K (S fuel) w
           = (let '(_, w1) := keep_min_interval K w in
              let '(timeout, w2) := get_poll_time K w1 in
              let '(nfds, w3) := epoll_wait K timeout w2 in
              tail nfds w3).
Proof.
  eexists (λ nfds,
    ts ← get_timestamp K;
    modify (set_last_poll_exit_ts ts) ;;
    match nfds with
    | None => await_event K fuel
    | Some evs =>
      again ← dispatch_events K evs;
      if again : bool then await_event K fuel
      else
        invalidate_poll_sensors ;;
        count ← gets sensor_count;
        found ← return_first_available_sensor_report K (seq 0 count);
        match found with
        | Some e => ret (Some (1, e))
        | None => await_event K fuel
        end
    end).
  split.
  - intros nfds.
    apply trace_grows_bind; [apply trace_grows_get_timestamp |]. intros ts.
    apply trace_grows_bind; [by apply trace_grows_modify |]. intros _.
    apply (trace_grows_after_wait fuel (λ _, await_event K fuel)). intros _.
    apply trace_grows_await_event.
  - intros w. cbn [await_event]. unfold mbind, M_bind, bind.
    destruct (keep_min_interval K w) as [[] w1].
    destruct (get_poll_time K w1) as [timeout w2].
    destruct (epoll_wait K timeout w2) as [nfds w3]. reflexivity.
Qed.

(** ** Waiter membership *)

Lemma enabled_on_pointwise d l l' :
  length l' = length l →
  (∀ i, dev_num (default sensor_zero (l' !! i)) = dev_num (default sensor_zero (l !! i))
        ∧ enable_count (default sensor_zero (l' !! i))
          = enable_count (default sensor_zero (l !! i))) →
  enabled_on d l' = enabled_on d l.
Proof.
  revert l'. induction l as [| a l IH]; intros [| a' l'] Hlen Hagree; try done.
  cbn [enabled_on]. rewrite (IH l').
  - destruct (Hagree 0%nat) as [H1 H2]. cbn in H1, H2.
    unfold counts_for. by rewrite H1, H2.
  - cbn in Hlen. lia.
  - intros i. apply (Hagree (S i)).
Qed.

Lemma enabled_on_update d l l' s :
  length l' = length l → (s < length l)%nat →
  (∀ i, i ≠ s →
        dev_num (default sensor_zero (l' !! i)) = dev_num (default sensor_zero (l !! i))
        ∧ enable_count (default sensor_zero (l' !! i))
          = enable_count (default sensor_zero (l !! i))) →
  enabled_on d l' - counts_for d (default sensor_zero (l' !! s))
  = enabled_on d l - counts_for d (default sensor_zero (l !! s)).
Proof.
  revert l' s. induction l as [| a l IH]; intros [| a' l'] s Hlen Hs Hagree;
    cbn in Hlen, Hs; try lia.
  destruct s as [| s]; cbn [enabled_on].
  - rewrite (enabled_on_pointwise d l l'); [cbn; lia | lia |].
    intros i. apply (Hagree (S i)). lia.
  - destruct (Hagree 0%nat) as [H1 H2]; [lia |]. cbn in H1, H2.
    assert (counts_for d a' = counts_for d a) as -> by (unfold counts_for; by rewrite H1, H2).
    change ((a' :: l') !! S s) with (l' !! s). change ((a :: l) !! S s) with (l !! s).
    specialize (IH l' s ltac:(lia) ltac:(lia)).
    assert (IH' := IH ltac:(intros i Hi; apply (Hagree (S i)); lia)).
    lia.
Qed.

Lemma enabled_on_bounds d l : 0 ≤ enabled_on d l ≤ Z.of_nat (length l).
Proof.
  induction l as [| a l IH]; cbn [enabled_on length]; [lia |].
  unfold counts_for. destruct (decide _); lia.
Qed.

Lemma counts_for_le d l s :
  (s < length l)%nat → counts_for d (default sensor_zero (l !! s)) ≤ enabled_on d l.
Proof.
  revert s. induction l as [| a l IH]; intros s Hs; cbn in Hs; [lia |].
  destruct s as [| s]; cbn [enabled_on].
  - pose proof (enabled_on_bounds d l). cbn. lia.
  - specialize (IH s ltac:(lia)).
    assert (0 ≤ counts_for d a) by (unfold counts_for; destruct (decide _); lia).
    change ((a :: l) !! S s) with (l !! s). lia.
Qed.

Lemma enabled_on_lt_length d l s :
  (s < length l)%nat → counts_for d (default sensor_zero (l !! s)) = 0 →
  enabled_on d l < Z.of_nat (length l).
Proof.
  revert s. induction l as [| a l IH]; intros s Hs Hz; cbn in Hs; [lia |].
  destruct s as [| s]; cbn [enabled_on length] in *.
  - pose proof (enabled_on_bounds d l). cbn in Hz. lia.
  - change ((a :: l) !! S s) with (l !! s) in Hz. specialize (IH s ltac:(lia) Hz).
    assert (counts_for d a ≤ 1) by (unfold counts_for; destruct (decide _); lia).
    lia.
Qed.

Lemma arr_get_insert_eq l d x : (d < length l)%nat → arr_get (<[d := x]> l) d = x.
Proof. intros H. unfold arr_get. by rewrite list_lookup_insert_eq. Qed.

Lemma arr_get_insert_ne l d d' x : d ≠ d' → arr_get (<[d := x]> l) d' = arr_get l d'.
Proof. intros H. unfold arr_get. by rewrite list_lookup_insert_ne. Qed.

Lemma arr_get_adjust_at_eq l d k :
  (d < length l)%nat → arr_get (adjust_at l d k) d = wrap_int (arr_get l d + k).
Proof. intros H. unfold adjust_at. by apply arr_get_insert_eq. Qed.

Lemma arr_get_adjust_at_ne l d d' k : d ≠ d' → arr_get (adjust_at l d k) d' = arr_get l d'.
Proof. intros H. unfold adjust_at. by apply arr_get_insert_ne. Qed.

Lemma length_adjust_at l d k : length (adjust_at l d k) = length l.
Proof. unfold adjust_at. apply length_insert. Qed.

Lemma arr_get_elem l d : (d < length l)%nat → arr_get l d ∈ l.
Proof.
  intros H. unfold arr_get. destruct (lookup_lt_is_Some_2 l d H) as [x Hx].
  rewrite Hx. by eapply list_elem_of_lookup_2.
Qed.

Lemma elem_of_fst_filter (l : list (Z * Z)) x y :
  x ∈ l.*1 → x ≠ y → x ∈ (filter (λ e, e.1 ≠ y) l).*1.
Proof.
  intros Hin Hne. apply list_elem_of_fmap in Hin as ([a b] & -> & Hin).
  apply list_elem_of_fmap. exists (a, b). split; [done |].
  apply list_elem_of_filter. done.
Qed.

Lemma not_elem_of_fst_filter (l : list (Z * Z)) y : y ∉ (filter (λ e, e.1 ≠ y) l).*1.
Proof.
  intros Hin. apply list_elem_of_fmap in Hin as ([a b] & -> & Hin).
  apply list_elem_of_filter in Hin as [Hne _]. by apply Hne.
Qed.

(** What a call does to the view of the other devices. *)
Lemma activate_ctl_elsewhere si fd_w enabled open_r add_ok c :
  let c' := (activate_ctl si fd_w enabled open_r add_ok c).1.2 in
  length (c_polls c') = length (c_polls c)
  ∧ length (c_trigs c') = length (c_trigs c)
  ∧ length (c_fds c') = length (c_fds c)
  ∧ (∀ d, d ≠ dev_num si →
       arr_get (c_polls c') d = arr_get (c_polls c) d
       ∧ arr_get (c_trigs c') d = arr_get (c_trigs c) d
       ∧ arr_get (c_fds c') d = arr_get (c_fds c) d)
  ∧ (∀ x, x ∈ (c_pset c).*1 → x ≠ arr_get (c_fds c) (dev_num si) → x ∈ (c_pset c').*1)
  ∧ (arr_get (c_fds c') (dev_num si) = arr_get (c_fds c) (dev_num si)
     ∨ arr_get (c_fds c') (dev_num si) = -1
     ∨ arr_get (c_fds c') (dev_num si) = open_r).
Proof.
  intros c'. subst c'. unfold activate_ctl, edge_ctl, with_fd, with_enable_count.
  repeat match goal with
         | |- context [if ?b then _ else _] => destruct b
         end;
    cbn [fst snd c_polls c_trigs c_fds c_pset c_enable_count c_active];
    rewrite ?length_adjust_at, ?length_insert.
  all: split; [reflexivity |]; split; [reflexivity |]; split; [reflexivity |].
  all: split;
    [intros d Hd; rewrite ?arr_get_adjust_at_ne, ?arr_get_insert_ne by done; done |].
  all: split;
    [intros x Hin Hne;
     try (apply elem_of_fst_filter; [apply elem_of_fst_filter |]; done);
     try (rewrite fmap_app; apply elem_of_app; by left); done |].
  all: destruct (decide (dev_num si < length (c_fds c))%nat);
    [rewrite ?arr_get_insert_eq by done | rewrite ?list_insert_ge by lia]; auto.
Qed.

Ltac bool_to_prop :=
  repeat match goal with
         | H : (_ =? _) = true |- _ => apply Z.eqb_eq in H
         | H : (_ =? _) = false |- _ => apply Z.eqb_neq in H
         | H : (_ >? _) = true |- _ => rewrite Z.gtb_gt in H
         | H : (_ >? _) = false |- _ => rewrite Z.gtb_ltb, Z.ltb_ge in H
         | H : negb _ = true |- _ => apply negb_true_iff in H
         | H : negb _ = false |- _ => apply negb_false_iff in H
         | H : _ && _ = true |- _ => apply andb_true_iff in H as [? ?]
         end.

Lemma activate_ctl_enable_count si fd_w enabled open_r add_ok c k :
  0 ≤ c_enable_count c ≤ k → k < INT_MAX →
  0 ≤ c_enable_count (activate_ctl si fd_w enabled open_r add_ok c).1.2 ≤ k + 1.
Proof.
  intros Hec Hk. unfold activate_ctl, with_fd, with_enable_count.
  unfold INT_MAX in Hk.
  assert (Hup : wrap_int (c_enable_count c + 1) = c_enable_count c + 1)
    by (apply wrap_int_small; unfold INT_MIN, INT_MAX; lia).
  assert (Hdn : c_enable_count c ≠ 0 →
                wrap_int (c_enable_count c - 1) = c_enable_count c - 1)
    by (intros; apply wrap_int_small; unfold INT_MIN, INT_MAX; lia).
  repeat match goal with
         | |- context [if ?b then _ else _] => destruct b eqn:?
         end;
    cbn [fst snd c_enable_count]; rewrite ?edge_ctl_enable_count; bool_to_prop;
    rewrite ?Hdn in * by done; rewrite ?Hup in *; try lia.
  all: replace (c_enable_count c + 1) with 1 by lia; change (wrap_int (1 - 1)) with 0; lia.
Qed.

(** What a call on a trigger-mode sensor does to the view of its own
    device, when that device has no enabled poll-mode sensor and the
    registration succeeds. *)
Lemma activate_ctl_here si fd_w enabled open_r c k :
  num_channels si ≠ 0%nat →
  let d := dev_num si in
  (d < length (c_trigs c))%nat → (d < length (c_polls c))%nat →
  (d < length (c_fds c))%nat →
  0 ≤ c_enable_count c ≤ k → k < INT_MAX →
  let T := arr_get (c_trigs c) d in
  0 ≤ T ≤ INT_MAX → (0 < c_enable_count c → 1 ≤ T) →
  (c_enable_count c = 0 → T < INT_MAX) →
  arr_get (c_polls c) d = 0 →
  (arr_get (c_fds c) d ≠ -1 ↔ 0 < T) →
  (arr_get (c_fds c) d ≠ -1 → arr_get (c_fds c) d ∈ (c_pset c).*1) →
  (open_r = -1 ∨ 0 ≤ open_r) →
  let c' := (activate_ctl si fd_w enabled open_r true c).1.2 in
  arr_get (c_trigs c') d
    = T + (if 0 <? c_enable_count c' then 1 else 0)
        - (if 0 <? c_enable_count c then 1 else 0)
  ∧ arr_get (c_polls c') d = 0
  ∧ (arr_get (c_fds c') d ≠ -1 ↔ 0 < arr_get (c_trigs c') d)
  ∧ (arr_get (c_fds c') d ≠ -1 → arr_get (c_fds c') d ∈ (c_pset c').*1).
Proof.
  intros Hnc d Hlt Hlp Hlf Hec Hk T HT0 HT1 HTmax Hp HF Hreg Hopen c'. subst c'.
  unfold INT_MAX in Hk, HTmax, HT0.
  assert (Hup : wrap_int (c_enable_count c + 1) = c_enable_count c + 1)
    by (apply wrap_int_small; unfold INT_MIN, INT_MAX; lia).
  assert (Hdn : c_enable_count c ≠ 0 →
                wrap_int (c_enable_count c - 1) = c_enable_count c - 1)
    by (intros; apply wrap_int_small; unfold INT_MIN, INT_MAX; lia).
  unfold activate_ctl, edge_ctl, with_fd, with_enable_count. fold d.
  destruct (decide (num_channels si ≠ 0%nat)) as [_ | ?]; [| done].
  cbn [c_fds c_polls c_trigs c_pset c_enable_count c_active].
  rewrite !arr_get_adjust_at_eq by (rewrite ?length_adjust_at; done). fold T.
  destruct (enabled =? 0) eqn:Een.
  - destruct (c_enable_count c =? 0) eqn:E0; bool_to_prop.
    { cbn [fst snd]. rewrite E0. cbn. repeat split; try tauto; lia. }
    rewrite Hdn by done.
    destruct (c_enable_count c - 1 >? 0) eqn:E1; bool_to_prop.
    { cbn [fst snd c_trigs c_polls c_fds c_pset c_enable_count].
      destruct (0 <? c_enable_count c - 1) eqn:?; [| lia].
      destruct (0 <? c_enable_count c) eqn:?; [| lia].
      repeat split; try tauto; lia. }
    assert (Hone : c_enable_count c = 1) by lia.
    specialize (HT1 ltac:(lia)).
    assert (HT : wrap_int (T + -1) = T - 1)
      by (apply wrap_int_small; unfold INT_MIN, INT_MAX; lia).
    rewrite HT, Hp, Hone. change (1 - 1) with 0. change (0 =? 0) with true.
    rewrite andb_true_r.
    destruct (negb (arr_get (c_fds c) d =? -1) && (T - 1 =? 0)) eqn:Ecl;
      cbn [fst snd c_trigs c_polls c_fds c_pset c_enable_count].
    + bool_to_prop.
      rewrite arr_get_insert_eq, arr_get_adjust_at_eq by done. fold T. rewrite HT.
      cbn. repeat split; try lia; try done.
    + rewrite arr_get_adjust_at_eq by done. fold T. rewrite HT. cbn.
      apply andb_false_iff in Ecl as [Ecl | Ecl]; bool_to_prop.
      * exfalso. apply HF; [lia | done].
      * repeat split; try tauto; try lia.
  - rewrite Hup.
    destruct (c_enable_count c + 1 =? 1) eqn:E1; cbn [negb]; bool_to_prop.
    2:{ cbn [fst snd c_trigs c_polls c_fds c_pset c_enable_count].
        destruct (0 <? c_enable_count c + 1) eqn:?; [| lia].
        destruct (0 <? c_enable_count c) eqn:?; [| lia].
        repeat split; try tauto; lia. }
    assert (Hzero : c_enable_count c = 0) by lia.
    specialize (HTmax Hzero).
    assert (HT : wrap_int (T + 1) = T + 1)
      by (apply wrap_int_small; unfold INT_MIN, INT_MAX; lia).
    rewrite Hzero. change (0 + 1) with 1. change (0 <? 0) with false.
    destruct (arr_get (c_fds c) d =? -1) eqn:Efd; bool_to_prop.
    2:{ cbn [fst snd c_trigs c_polls c_fds c_pset c_enable_count].
        rewrite arr_get_adjust_at_eq by done. fold T. rewrite HT. cbn.
        repeat split; try tauto; lia. }
    assert (T = 0) by (destruct (decide (T = 0)); [done |]; exfalso; apply HF; [lia | done]).
    destruct (open_r =? -1) eqn:Eop; bool_to_prop;
      cbn [fst snd c_trigs c_polls c_fds c_pset c_enable_count].
    + rewrite arr_get_insert_eq by done.
      rewrite !arr_get_adjust_at_eq by (rewrite ?length_adjust_at; done). fold T.
      rewrite HT. change (wrap_int (1 - 1)) with 0.
      replace (T + 1 + -1) with T by lia.
      rewrite (wrap_int_small T) by (unfold INT_MIN, INT_MAX; lia).
      cbn. repeat split; try lia; try done.
    + rewrite arr_get_insert_eq by done.
      rewrite arr_get_adjust_at_eq by done. fold T. rewrite HT. cbn.
      repeat split; try lia; try done.
      intros _. rewrite fmap_app. apply elem_of_app. right. cbn. apply list_elem_of_here.
Qed.

Lemma counts_for_here d si :
  dev_num si = d → counts_for d si = if 0 <? enable_count si then 1 else 0.
Proof.
  intros Hd. unfold counts_for.
  destruct (decide _) as [[_ H] | H]; destruct (0 <? enable_count si) eqn:E;
    try reflexivity; try lia.
Qed.

Lemma counts_for_else d si : dev_num si ≠ d → counts_for d si = 0.
Proof. intros Hd. unfold counts_for. destruct (decide _) as [[? _] | ?]; done. Qed.

Lemma waiter_inv_step sensors d k w s enabled :
  trigger_only sensors d → devices_in_range sensors → (d < MAX_DEVICES)%nat →
  (∀ t, k_epoll_ctl_ok K t = true) →
  0 ≤ k < INT_MAX → Z.of_nat (length sensors) ≤ INT_MAX →
  (s < length sensors)%nat →
  waiter_inv sensors d k w →
  waiter_inv sensors d (k + 1) (sensor_activate K s enabled w).2.
Proof.
  intros Htrig Hrange Hd Hok Hk Hlen Hs
    (I1 & I2 & I3 & I4 & I5 & I6 & I7 & I8 & I9 & I10 & I11).
  assert (Hs' : (s < length (sensor_info w))%nat) by lia.
  destruct (sensor_activate_refines w s enabled Hs')
    as (open_r & add_ok & cfg & _ & Hctl & _ & _ & Hfresh & [t ->] & Hfr).
  rewrite Hok in Hctl.
  set (w' := (sensor_activate K s enabled w).2) in *.
  set (si := sensor_at w s) in *.
  set (c := ctl_of w s) in *.
  set (c' := (activate_ctl si (poll_socket_pair w).2 enabled open_r true c).1.2) in *.
  destruct Hfr as (_ & _ & _ & _ & F5 & F6 & F7).
  pose proof (f_equal c_enable_count Hctl) as Eec.
  pose proof (f_equal c_polls Hctl) as Epolls.
  pose proof (f_equal c_trigs Hctl) as Etrigs.
  pose proof (f_equal c_fds Hctl) as Efds.
  pose proof (f_equal c_pset Hctl) as Epset.
  cbn [ctl_of c_enable_count c_polls c_trigs c_fds c_pset] in Eec, Epolls, Etrigs, Efds, Epset.
  destruct (activate_ctl_elsewhere si (poll_socket_pair w).2 enabled open_r true c)
    as (L1 & L2 & L3 & Lother & Lpset & Lfd).
  fold c' in L1, L2, L3, Lother, Lpset, Lfd.
  pose proof (activate_ctl_enable_count si (poll_socket_pair w).2 enabled open_r true c k
                (I3 s) ltac:(lia)) as Hec'.
  fold c' in Hec'.
  (* the sensor of the call *)
  destruct (lookup_lt_is_Some_2 sensors s Hs) as [si0 Hsi0].
  assert (Hid0 : same_identity si0 si).
  { specialize (I2 s). by rewrite Hsi0 in I2. }
  assert (Hds : (dev_num si < MAX_DEVICES)%nat).
  { destruct Hid0 as (-> & _). unfold devices_in_range in Hrange.
    rewrite Forall_lookup in Hrange. by apply (Hrange s). }
  (* how the count of enabled sensors of [d] moves *)
  assert (Hcount : enabled_on d (sensor_info w') - counts_for d (sensor_at w' s)
                   = enabled_on d (sensor_info w) - counts_for d si).
  { apply enabled_on_update; [exact F5 | exact Hs' |].
    intros i Hi. split; [apply (F6 i) | by apply F7]. }
  assert (Hdev' : dev_num (sensor_at w' s) = dev_num si) by apply (F6 s).
  split; [lia |]. split.
  { intros s'. eapply same_identity_trans; [apply I2 | apply F6]. }
  split.
  { intros s'. destruct (decide (s' = s)) as [-> | Hne].
    - rewrite Eec. exact Hec'.
    - rewrite F7 by done. specialize (I3 s'). lia. }
  rewrite Epolls, Etrigs, Efds, Epset.
  rewrite L1, L2, L3.
  destruct (decide (dev_num si = d)) as [Hhere | Helse].
  - (* a sensor of the device itself *)
    assert (Hnc : num_channels si ≠ 0%nat).
    { destruct Hid0 as (Hd0 & -> & _). eapply Htrig; [exact Hsi0 | congruence]. }
    pose proof (enabled_on_bounds d (sensor_info w)) as Hb.
    destruct (activate_ctl_here si (poll_socket_pair w).2 enabled open_r c k Hnc)
      as (H1 & H2 & H3 & H4); rewrite ?Hhere; subst c; cbn [ctl_of c_trigs c_polls c_fds c_pset c_enable_count];
      try lia; try done.
    { intros Hpos. rewrite I4.
      pose proof (counts_for_le d (sensor_info w) s Hs') as Hle.
      fold (sensor_at w s) in Hle. fold si in Hle.
      rewrite (counts_for_here d si Hhere) in Hle. fold si in Hpos.
      destruct (0 <? enable_count si) eqn:E; lia. }
    { intros Hz. rewrite I4.
      pose proof (enabled_on_lt_length d (sensor_info w) s Hs') as Hlt.
      fold (sensor_at w s) in Hlt. fold si in Hlt.
      rewrite (counts_for_here d si Hhere) in Hlt. fold si in Hz. rewrite Hz in Hlt.
      specialize (Hlt eq_refl). lia. }
    fold c' in H1, H2, H3, H4. fold si in H1. rewrite ?Hhere in H1, H2, H3, H4.
    cbn [ctl_of c_trigs c_polls c_fds c_pset c_enable_count] in H1.
    split.
    { rewrite H1, I4.
      rewrite (counts_for_here d (sensor_at w' s)) in Hcount by congruence.
      rewrite (counts_for_here d si Hhere) in Hcount. rewrite Eec in Hcount.
      cbn [ctl_of c_enable_count] in H1 |- *. fold si. lia. }
    split; [exact H2 |]. do 3 (split; [done |]).
    split; [exact H3 |]. split; [exact H4 |].
    intros d' Hne Hd' Hopen'.
    destruct (Lother d') as (_ & _ & Ed'); [congruence |].
    rewrite Ed' in Hopen' |- *. rewrite Hhere in Lfd.
    destruct Lfd as [-> | [-> | ->]].
    + by apply I11.
    + done.
    + destruct Hfresh as [-> | [_ Hnew]]; [done |].
      intros Heq. apply Hnew. rewrite <- Heq. unfold open_fds.
      do 3 apply list_elem_of_further. apply arr_get_elem. lia.
  - (* a sensor of another device *)
    destruct (Lother d) as (Ep & Et & Ef); [congruence |].
    subst c. cbn [ctl_of c_trigs c_polls c_fds c_pset c_enable_count] in *.
    rewrite Ep, Et, Ef.
    split.
    { rewrite I4. rewrite (counts_for_else d (sensor_at w' s)) in Hcount by congruence.
      rewrite (counts_for_else d si Helse) in Hcount. lia. }
    split; [exact I5 |]. do 3 (split; [done |]).
    split; [exact I9 |]. split.
    { intros Hopen. apply Lpset; [by apply I10 |].
      intros Heq. apply (I11 (dev_num si)); try done. by rewrite <- Heq. }
    intros d' Hne Hd' Hopen'.
    destruct (decide (d' = dev_num si)) as [-> | Hne'].
    + destruct Lfd as [E | [E | E]]; rewrite E in Hopen' |- *.
      * by apply I11.
      * done.
      * destruct Hfresh as [-> | [_ Hnew]]; [done |].
        intros Heq. apply Hnew. rewrite Heq. unfold open_fds.
        do 3 apply list_elem_of_further. apply arr_get_elem. lia.
    + destruct (Lother d') as (_ & _ & Ed'); [done |].
      rewrite Ed' in Hopen' |- *. by apply I11.
Qed.

Lemma allocate_control_data_fields w :
  let w0 := (allocate_control_data K w).2 in
  sensor_info w0 = sensor_info w
  ∧ trig_sensors_per_dev w0 = trig_sensors_per_dev w
  ∧ poll_sensors_per_dev w0 = poll_sensors_per_dev w
  ∧ device_fd w0 = replicate MAX_DEVICES (-1).
Proof.
  destruct w. unfold allocate_control_data, epoll_ctl_add, sys_close, ALOGE, emit, tick.
  repeat progress (unfold mbind, M_bind, bind, mret, M_ret, ret, gets, modify;
                   cbv beta iota zeta).
  cbn [fst snd trace set_trace set_device_fd set_poll_fd].
  destruct (_ =? -1); cbv beta; cbn [fst snd trace set_trace set_device_fd set_poll_fd];
    [done |].
  destruct (k_socketpair K _); cbv beta iota;
    cbn [fst snd trace set_trace set_device_fd set_poll_fd set_poll_socket_pair set_poll_set];
    [| done].
  destruct (k_epoll_ctl_ok K _); done.
Qed.

Lemma enabled_on_none d l : Forall (λ si, enable_count si = 0) l → enabled_on d l = 0.
Proof.
  induction 1 as [| si l Hsi _ IH]; [done |]. cbn [enabled_on]. rewrite IH.
  unfold counts_for. destruct (decide _) as [[_ ?] | _]; lia.
Qed.

Lemma arr_get_replicate n (x : Z) d : (d < n)%nat → arr_get (replicate n x) d = x.
Proof. intros Hd. unfold arr_get. by rewrite lookup_replicate_2. Qed.

Lemma waiter_inv_init sensors count d :
  Forall (λ si, enable_count si = 0) sensors → (d < MAX_DEVICES)%nat →
  waiter_inv sensors d 0 (allocate_control_data K (process_start sensors count)).2.
Proof.
  intros Hoff Hd.
  destruct (allocate_control_data_fields (process_start sensors count))
    as (E1 & E2 & E3 & E4).
  cbn [process_start sensor_info trig_sensors_per_dev poll_sensors_per_dev] in E1, E2, E3.
  unfold waiter_inv, sensor_at. rewrite E1, E2, E3, E4.
  rewrite !length_replicate, !arr_get_replicate by done.
  split; [done |]. split; [intros s; apply same_identity_refl |]. split.
  { intros s. destruct (sensors !! s) as [si |] eqn:E; unfold default; cbn [from_option id].
    - rewrite Forall_lookup in Hoff. rewrite (Hoff s si E). lia.
    - cbn. lia. }
  rewrite enabled_on_none by done.
  repeat split; try done; try lia.
Qed.

Lemma waiter_inv_activate_all sensors d calls : ∀ k w,
  trigger_only sensors d → devices_in_range sensors → (d < MAX_DEVICES)%nat →
  (∀ t, k_epoll_ctl_ok K t = true) →
  0 ≤ k → k + Z.of_nat (length calls) ≤ INT_MAX →
  Z.of_nat (length sensors) ≤ INT_MAX →
  Forall (λ c, (c.1 < length sensors)%nat) calls →
  waiter_inv sensors d k w →
  waiter_inv sensors d (k + Z.of_nat (length calls)) (activate_all K calls w).2.
Proof.
  induction calls as [| [s enabled] calls IH]; intros k w Htrig Hrange Hd Hok Hk Hmax Hlen Hcalls Hinv.
  - cbn. by rewrite Z.add_0_r.
  - cbn [activate_all length]. unfold mbind, M_bind, bind. cbv beta iota zeta.
    destruct (sensor_activate K s enabled w) as [r w1] eqn:E1.
    pose proof (IH (k + 1) w1) as IH'.
    destruct (activate_all K calls w1) as [rs w2] eqn:E2.
    cbn [snd fst mret M_ret ret] in *.
    replace (k + Z.of_nat (S (length calls))) with (k + 1 + Z.of_nat (length calls)) by lia.
    inversion Hcalls as [| ? ? Hs Hrest]; subst.
    cbn [length] in Hmax.
    apply IH'; try done; try lia.
    replace w1 with (sensor_activate K s enabled w).2 by (by rewrite E1).
    apply waiter_inv_step; try done. lia.
Qed.

(** On a device all of whose sensors are trigger-mode, and as long as
    registrations with the waiter succeed, after any sequence of
    [sensor_activate] calls from start-up the device's descriptor is open
    and in the waiter's interest list if and only if the device's trigger
    count is positive; that count is the number of enabled sensors of the
    device. *)
Theorem waiter_membership_trigger_only (sensors : list sensor_info_t) (count : nat)
    (d : nat) (calls : list (nat * Z)) :
  trigger_only sensors d → devices_in_range sensors → (d < MAX_DEVICES)%nat →
  (∀ t, k_epoll_ctl_ok K t = true) →
  Forall (λ si, enable_count si = 0) sensors →
  Forall (λ c, (c.1 < length sensors)%nat) calls →
  Z.of_nat (length calls) ≤ INT_MAX → Z.of_nat (length sensors) ≤ INT_MAX →
  let w0 := (allocate_control_data K (process_start sensors count)).2 in
  let w := (activate_all K calls w0).2 in
  (registered w d ↔ 0 < arr_get (trig_sensors_per_dev w) d)
  ∧ arr_get (trig_sensors_per_dev w) d = enabled_on d (sensor_info w)
  ∧ arr_get (poll_sensors_per_dev w) d = 0.
Proof.
  intros Htrig Hrange Hd Hok Hoff Hcalls Hmax Hlen w0 w.
  pose proof (waiter_inv_init sensors count d Hoff Hd) as H0.
  pose proof (waiter_inv_activate_all sensors d calls 0 _ Htrig Hrange Hd Hok
                ltac:(lia) ltac:(lia) Hlen Hcalls H0) as Hinv.
  fold w0 w in Hinv.
  destruct Hinv as (_ & _ & _ & I4 & I5 & _ & _ & _ & I9 & I10 & _).
  split; [| by split].
  unfold registered. split.
  - intros [Hopen _]. by apply I9.
  - intros Hpos. split; [by apply I9 |]. apply I10. by apply I9.
Qed.

(** ** C7 *)

(** C7: disabling a sensor whose [enable_count] is 0 returns -1 (the
    invalid-state error) and leaves the whole world as it was: no counter,
    no descriptor, no interest-list entry changes, and nothing is appended
    to the trace, so no sysfs access and no wakeup byte. *)
Theorem spurious_disable_no_effect (w : world) (s : nat) :
  enable_count (sensor_at w s) = 0 →
  sensor_activate K s 0 w = (-1, w).
Proof.
  intros Hec.
  unfold sensor_activate, adjust_counters. unfold_monad. simpl.
  rewrite Hec. reflexivity.
Qed.

End Properties.

(** * The code on concrete inputs *)

Section Examples.

Import Demo.
#[local] Existing Instance Demo.platform.

(** ** C2 *)

(** C2 (on a failing input): with every _en attribute reading 0,
    [refresh_sensor_report_maps] still records the three accelerometer
    channels in the index tables and gives them sizes 2, 2, 2 at offsets
    0, 2, 4, so that a 6-byte report is expected; and when the attributes
    cannot be read, the channels keep the sizes of the previous refresh
    instead of dropping to 0. *)
Theorem disabled_channels_stay_in_layout :
  let en_reads_0 := kernel_with 0 scan_index true in
  let w0 := booted [accel] in
  let t := (read_sensors en_reads_0 0 [0%nat] tables_zero w0).1 in
  let w1 := (refresh_sensor_report_maps en_reads_0 0 w0).2 in
  let w2 := (refresh_sensor_report_maps unreadable 0 w1).2 in
  SysfsReadInt (CHANNEL_PATH 0 "in_accel_x_en") (Some 0) ∈ trace w1
  ∧ active_channels t = 3
  ∧ take 3 (channel_size_from_index t) = [2; 2; 2]
  ∧ map size (channel (sensor_at w1 0)) = [2; 2; 2; 0]
  ∧ map offset (channel (sensor_at w1 0)) = [0; 2; 4; 0]
  ∧ expected_report_size w1 0 = 6
  ∧ SysfsReadInt (CHANNEL_PATH 0 "in_accel_x_en") None ∈ trace w2
  ∧ map size (channel (sensor_at w2 0)) = [2; 2; 2; 0]
  ∧ expected_report_size w2 0 = 6.
Proof.
  vm_compute. repeat split; try reflexivity.
  - do 3 apply list_elem_of_further. apply list_elem_of_here.
  - do 12 apply list_elem_of_further. apply list_elem_of_here.
Qed.

(** ** C3 *)

(** C3 (on a failing input): a channel whose scan index reads 12, which is
    MAX_SENSORS here and well below MAX_SENSORS * MAX_CHANNELS = 48, is
    skipped with the "Index out of bounds!" error and left out of the
    tables, whereas with index 11 it is recorded. *)
Theorem index_bound_is_max_sensors :
  let w0 := booted [temp] in
  let skipped := read_sensors (temp_index_at 12) 0 [0%nat] tables_zero w0 in
  let recorded := read_sensors (temp_index_at 11) 0 [0%nat] tables_zero w0 in
  Z.of_nat MAX_SENSORS ≤ 12 < Z.of_nat (MAX_SENSORS * MAX_CHANNELS)
  ∧ SysfsReadInt (CHANNEL_PATH 0 "in_temp_index") (Some 12) ∈ trace skipped.2
  ∧ Log LOG_ERROR "Index out of bounds!" ∈ trace skipped.2
  ∧ skipped.1 = tables_zero
  ∧ size (channel_at (sensor_at (refresh_sensor_report_maps (temp_index_at 12) 0 w0).2 0) 0)
    = 0
  ∧ channel_size_from_index recorded.1 !! 11%nat = Some 2
  ∧ active_channels recorded.1 = 1.
Proof.
  vm_compute. repeat split; try reflexivity; try discriminate.
  - do 5 apply list_elem_of_further. apply list_elem_of_here.
  - do 6 apply list_elem_of_further. apply list_elem_of_here.
Qed.

(** ** C1 *)

(** C1 (on a failing input): with the trigger-mode accelerometer and the
    poll-mode light sensor on device 0, every call returning 0, (a)
    enabling both and then disabling the accelerometer leaves the trigger
    count at 0 while the descriptor stays open and in the interest list,
    and (b) enabling the light sensor first and then the accelerometer
    leaves the trigger count at 1 and the buffer switched on, with the
    descriptor open but never added to the interest list, which holds the
    wakeup socket only: the accelerometer's reports can never wake the
    poll loop. *)
Theorem waiter_membership_fails_with_poll_sensors :
  let w0 := booted [accel; light] in
  let a := activate_all healthy [(0%nat, 1); (1%nat, 1); (0%nat, 0)] w0 in
  let b := activate_all healthy [(1%nat, 1); (0%nat, 1)] w0 in
  (a.1 = [0; 0; 0]
   ∧ arr_get (trig_sensors_per_dev a.2) 0 = 0
   ∧ arr_get (poll_sensors_per_dev a.2) 0 = 1
   ∧ poll_set a.2 = [(4, INVALID_DEV_NUM); (28, 0)]
   ∧ registered a.2 0)
  ∧ (b.1 = [0; 0]
     ∧ arr_get (trig_sensors_per_dev b.2) 0 = 1
     ∧ arr_get (device_fd b.2) 0 = 13
     ∧ SysfsWriteInt (ENABLE_PATH 0) 1 ∈ emitted w0 b.2
     ∧ poll_set b.2 = [(4, INVALID_DEV_NUM)]
     ∧ ¬ registered b.2 0).
Proof.
  vm_compute. repeat split; try reflexivity; try discriminate.
  - apply list_elem_of_further, list_elem_of_here.
  - do 16 apply list_elem_of_further. apply list_elem_of_here.
  - intros [_ H]. inversion H as [| ? ? ? H']. inversion H'.
Qed.

(** Accelerometer and temperature sensor, both trigger-mode, enabled and
    disabled in turn. *)
Lemma waiter_membership_trigger_only_witness :
  let calls := [(0%nat, 1); (1%nat, 1); (0%nat, 0); (1%nat, 0); (1%nat, 1)] in
  let w := (activate_all healthy calls (booted [accel; temp])).2 in
  (registered w 0 ↔ 0 < arr_get (trig_sensors_per_dev w) 0)
  ∧ arr_get (trig_sensors_per_dev w) 0 = enabled_on 0 (sensor_info w)
  ∧ arr_get (poll_sensors_per_dev w) 0 = 0.
Proof.
  intros calls w.
  apply (waiter_membership_trigger_only healthy [accel; temp] 2 0 calls).
  - intros [| [| s]] si Hsi _; vm_compute in Hsi; inversion Hsi; vm_compute; lia.
  - repeat constructor; vm_compute; lia.
  - vm_compute; lia.
  - intros t; reflexivity.
  - repeat constructor.
  - repeat constructor; vm_compute; lia.
  - vm_compute; discriminate.
  - vm_compute; discriminate.
Defined.

(** ** C4 *)

(** C4 (on a failing input): the accelerometer is enabled and its device
    always has a report ready, so that every wait returns at once.  Two
    successive calls both return 1, with events stamped 600 ns apart; the
    second call reads the clock 400 ns after the first left its wait,
    which makes [delta] 0, so it does not sleep and waits again at once:
    the two waits end 600 ns apart, and there is no [usleep] in either
    call. *)
Theorem min_interval_skipped_below_one_microsecond :
  let w0 := (sensor_activate flooding 0 1 (booted [accel])).2 in
  let p1 := sensor_poll flooding 1 1 w0 in
  let p2 := sensor_poll flooding 1 1 p1.2 in
  let ready := Some [{| events := EPOLLIN; data_u32 := 0 |}] in
  let stamped := λ r : Z * sensors_event_t, (r.1, timestamp r.2) in
  stamped <$> p1.1 = Some (1, 1000002500)
  ∧ stamped <$> p2.1 = Some (1, 1000003100)
  ∧ emitted w0 p1.2
    = [GetTimestamp 1000002100; EpollWait (-1) ready; GetTimestamp 1000002300;
       ReadReport 28 6 (Some [1; 2; 3; 4; 5; 6]);
       GetTimestamp 1000002500; GetTimestamp 1000002600]
  ∧ last_poll_exit_ts p1.2 = 1000002300
  ∧ emitted p1.2 p2.2
    = [GetTimestamp 1000002700; EpollWait (-1) ready; GetTimestamp 1000002900;
       ReadReport 28 6 (Some [1; 2; 3; 4; 5; 6]);
       GetTimestamp 1000003100; GetTimestamp 1000003200]
  ∧ last_poll_exit_ts p2.2 = 1000002900
  ∧ wrap_int (Z.quot (wrap_int64 (1000002700 - 1000002300)) 1000) = 0
  ∧ 1000002900 - 1000002300 < 1000 * POLL_MIN_INTERVAL.
Proof.
  vm_compute. repeat split.
Qed.

(** ** C6 *)

(** C6 at work: two enables and two disables of the accelerometer. *)
Lemma refcount_round_trip_witness :
  let w := booted [accel; light] in
  let up := activate_n healthy 2 0 1 w in
  let down := activate_n healthy 2 0 0 up.2 in
  enable_count (sensor_at down.2 0) = 0 ∧ counters down.2 = counters w.
Proof.
  intros w up down.
  destruct (refcount_round_trip healthy w 0 2) as (H1 & H2 & _).
  - vm_compute; lia.
  - repeat split; repeat constructor; vm_compute; discriminate.
  - reflexivity.
  - lia.
  - vm_compute; discriminate.
  - vm_compute. repeat constructor.
  - split; [exact H1 | exact H2].
Defined.

(** ** C7 *)

Lemma spurious_disable_no_effect_witness :
  sensor_activate healthy 0 0 (booted [accel]) = (-1, booted [accel]).
Proof. apply (spurious_disable_no_effect healthy (booted [accel]) 0). reflexivity. Defined.

(** ** C9 *)

(** C9 at work: a period of two seconds asks for half a hertz, which is
    raised to 1 Hz. *)
Lemma set_delay_rate_floor_witness :
  let w := booted [accel] in
  (sensor_set_delay healthy 0 2000000000 w).1 = 0
  ∧ sampling_rate (sensor_at (sensor_set_delay healthy 0 2000000000 w).2 0) = 1.
Proof.
  intros w.
  destruct (set_delay_rate_floor healthy w 0 2000000000) as [_ H].
  - vm_compute; lia.
  - destruct H as (H1 & _ & _ & H4); [lia |].
    split; [exact H1 | apply H4; lia].
Defined.

(** ** C8 *)

(** C8 at work: the first enable of the accelerometer. *)
Lemma trigger_reconfiguration_order_witness :
  let w := booted [accel] in
  let seg := emitted w (sensor_activate healthy 0 1 w).2 in
  (∃ e, e ∈ seg ∧ is_buffer_enable 1 e = true)
  ∧ SysfsWriteInt (ENABLE_PATH 0) 0 ∈ seg
  ∧ ∀ i j e e', seg !! i = Some e → is_buffer_enable 0 e = true →
                seg !! j = Some e' → is_channel_enable e' = true → (i < j)%nat.
Proof.
  intros w seg.
  destruct (trigger_reconfiguration_order healthy w 0 1) as (H1 & _ & H3 & H4).
  - vm_compute; lia.
  - vm_compute; discriminate.
  - split; [| split].
    + apply H3. split; vm_compute; [reflexivity | discriminate].
    + apply H4. reflexivity.
    + exact H1.
Defined.

(** ** C10 *)

(** C10 at work: the kernel refuses the registration of descriptor 28 of
    device 0. *)
Lemma failed_registration_is_not_rolled_back_witness :
  let refusing := kernel_with 1 scan_index false in
  let w := booted [accel] in
  let w' := (sensor_activate refusing 0 1 w).2 in
  (sensor_activate refusing 0 1 w).1 = -1
  ∧ enable_count (sensor_at w' 0) = 1
  ∧ device_fd w' = <[0%nat := 28]> (device_fd w)
  ∧ poll_set w' = poll_set w
  ∧ (∀ x, WriteByte x ∉ emitted w w')
  ∧ (∀ x, Close x ∉ emitted w w').
Proof.
  intros refusing w w'.
  destruct (failed_registration_is_not_rolled_back refusing w 0 1 28 0)
    as (H1 & _ & _ & _ & _ & _ & _ & H8 & _ & _ & H11 & H12 & H13 & H14).
  - vm_compute; lia.
  - vm_compute. do 16 apply list_elem_of_further. apply list_elem_of_here.
  - repeat split; assumption.
Defined.

End Examples.

Section Extended.

Context {P : Platform}.
Variable K : kernel.

(** * Further properties of control.c *)

(** ** Report demultiplexer *)

Lemma set_sensor_info_id w : set_sensor_info (sensor_info w) w = w.
Proof. by destruct w. Qed.

Lemma set_sensor_info_twice l1 l2 w :
  set_sensor_info l2 (set_sensor_info l1 w) = set_sensor_info l2 w.
Proof. by destruct w. Qed.

Lemma insert_sensor_at_id w s : <[s := sensor_at w s]> (sensor_info w) = sensor_info w.
Proof.
  unfold sensor_at. destruct (sensor_info w !! s) as [si |] eqn:E.
  - by apply list_insert_id.
  - apply list_insert_ge. by apply lookup_ge_None.
Qed.

(** A loop whose body rewrites sensor slot [s] by [g s] and nothing else. *)
Lemma for_each_pointwise (g : nat → sensor_info_t → sensor_info_t)
    (body : nat → M unit) (ss : list nat) (w : world) :
  (∀ s w0, body s w0
           = (tt, set_sensor_info (<[s := g s (sensor_at w0 s)]> (sensor_info w0)) w0)) →
  NoDup ss →
  ∃ l', for_each ss body w = (tt, set_sensor_info l' w)
        ∧ length l' = length (sensor_info w)
        ∧ ∀ s, default sensor_zero (l' !! s)
               = if decide (s ∈ ss ∧ (s < length (sensor_info w))%nat)
                 then g s (sensor_at w s) else sensor_at w s.
Proof.
  intros Hbody. revert w. induction ss as [| a ss IH]; intros w Hnd.
  - exists (sensor_info w). cbn. rewrite set_sensor_info_id. split; [done |].
    split; [done |]. intros s. destruct (decide _) as [[H _] | _]; [| done].
    by apply elem_of_nil in H.
  - apply NoDup_cons in Hnd as [Ha Hnd].
    cbn [for_each]. unfold mbind, M_bind, bind. rewrite Hbody.
    set (w1 := set_sensor_info _ w).
    destruct (IH w1 Hnd) as (l' & Hrun & Hlen & Hl').
    exists l'. rewrite Hrun. subst w1. rewrite set_sensor_info_twice.
    split; [done |]. cbn [sensor_info set_sensor_info] in Hlen, Hl'.
    rewrite length_insert in Hlen, Hl'.
    split; [done |]. intros s. rewrite Hl'. unfold sensor_at. cbn [sensor_info set_sensor_info].
    destruct (decide (s = a)) as [-> | Hne].
    + destruct (decide (a ∈ ss ∧ _)) as [[H _] | _]; [done |].
      destruct (decide (a ∈ a :: ss ∧ _)) as [[_ Hlt] | Hn].
      * by rewrite list_lookup_insert_eq.
      * rewrite list_insert_ge; [done |].
        assert (a ∈ a :: ss) by apply list_elem_of_here.
        destruct (decide (a < length (sensor_info w))%nat); [by exfalso; apply Hn | lia].
    + rewrite list_lookup_insert_ne by done.
      destruct (decide (s ∈ ss ∧ _)) as [[H1 H2] | Hn];
        destruct (decide (s ∈ a :: ss ∧ _)) as [[H3 H4] | Hn'];
        try done.
      * exfalso. apply Hn'. split; [by apply list_elem_of_further | done].
      * exfalso. apply Hn. apply elem_of_cons in H3 as [-> | H3]; done.
Qed.

(** The device report as [integrate_device_report] holds it: what was
    read, in a zeroed buffer. *)
Lemma integrate_device_report_run w d :
  let dev := Z.to_nat d in
  let fd := arr_get (device_fd w) dev in
  let n := expected_report_size w dev in
  let r := take (Z.to_nat n) <$> k_read_report K (length (trace w)) n in
  integrate_device_report K d w =
    if (d <? 0) || (d >=? Z.of_nat MAX_DEVICES)
       || (arr_get (trig_sensors_per_dev w) dev =? 0)
    then (-1, set_trace (trace w
                ++ [Log LOG_ERROR "Event reported on unexpected iio device"]) w)
    else match r with
         | None =>
           (-1, set_trace (trace w ++ [ReadReport fd n None;
                  Log LOG_ERROR "Could not read report from iio device"]) w)
         | Some bytes =>
           let w1 := set_trace (trace w ++ [ReadReport fd n (Some bytes)]) w in
           (0, (for_each (seq 0 MAX_SENSORS) (λ s,
                  si ← gets (λ w, sensor_at w s);
                  if decide (dev_num si = dev) then
                    update_sensor s (λ si, set_report_buffer
                      (copy_channels si
                         (take (MAX_SENSOR_REPORT_SIZE * MAX_SENSORS)
                            (bytes ++ replicate (MAX_SENSOR_REPORT_SIZE * MAX_SENSORS) 0))
                         (seq 0 (num_channels si)) 0 (report_buffer si)) si) ;;
                    (if enable_count si =? 0 then ret tt
                     else update_sensor s (set_report_pending 1))
                  else ret tt) w1).2)
         end.
Proof.
  intros dev fd n r. unfold integrate_device_report.
  unfold mbind at 1, M_bind at 1, bind at 1, gets at 1. cbv beta iota zeta.
  fold dev. destruct (_ || _ || _); [reflexivity |].
  subst r n fd.
  cbv beta iota zeta delta [mbind M_bind bind gets modify mret M_ret ret
                              sys_read_report ALOGE emit tick].
  destruct (k_read_report K _ _) as [bytes |]; cbn [fmap option_fmap option_map];
    [| by rewrite set_trace_set_trace; cbn [trace set_trace]; rewrite <- app_assoc].
  cbn [trace set_trace].
  match goal with
  | |- (let '(_, _) := ?x in _) = _ => by destruct x
  end.
Qed.

Lemma integrate_loop w1 dev buf :
  let g := λ si : sensor_info_t,
    if decide (dev_num si = dev) then
      let si1 := set_report_buffer
                   (copy_channels si buf (seq 0 (num_channels si)) 0 (report_buffer si)) si in
      if enable_count si =? 0 then si1 else set_report_pending 1 si1
    else si in
  ∃ l', for_each (seq 0 MAX_SENSORS) (λ s,
          si ← gets (λ w, sensor_at w s);
          if decide (dev_num si = dev) then
            update_sensor s (λ si, set_report_buffer
              (copy_channels si buf (seq 0 (num_channels si)) 0 (report_buffer si)) si) ;;
            (if enable_count si =? 0 then ret tt
             else update_sensor s (set_report_pending 1))
          else ret tt) w1 = (tt, set_sensor_info l' w1)
        ∧ length l' = length (sensor_info w1)
        ∧ ∀ s, default sensor_zero (l' !! s)
               = if decide ((s < MAX_SENSORS)%nat ∧ (s < length (sensor_info w1))%nat)
                 then g (sensor_at w1 s) else sensor_at w1 s.
Proof.
  intros g.
  destruct (for_each_pointwise (λ _, g)
              (λ s, si ← gets (λ w, sensor_at w s);
                 if decide (dev_num si = dev) then
                   update_sensor s (λ si, set_report_buffer
                     (copy_channels si buf (seq 0 (num_channels si)) 0 (report_buffer si)) si) ;;
                   (if enable_count si =? 0 then ret tt
                    else update_sensor s (set_report_pending 1))
                 else ret tt)
              (seq 0 MAX_SENSORS) w1) as (l' & Hrun & Hlen & Hl').
  - intros s w0. subst g.
    cbv beta iota zeta delta [mbind M_bind bind gets modify mret M_ret ret update_sensor].
    destruct (decide (dev_num (sensor_at w0 s) = dev)) as [Hd | Hd].
    + destruct (enable_count (sensor_at w0 s) =? 0) eqn:E.
      * reflexivity.
      * rewrite set_sensor_info_twice. cbn [sensor_info set_sensor_info].
        rewrite list_insert_insert_eq. f_equal. f_equal. f_equal.
        unfold sensor_at at 1. cbn [sensor_info set_sensor_info].
        destruct (decide (s < length (sensor_info w0))%nat) as [Hlt | Hge].
        -- by rewrite list_lookup_insert_eq.
        --
           exfalso. unfold sensor_at in E.
           rewrite (proj2 (lookup_ge_None _ _)) in E by lia. discriminate.
    + by rewrite insert_sensor_at_id, set_sensor_info_id.
  - apply NoDup_seq.
  - exists l'. split; [exact Hrun |]. split; [exact Hlen |].
    intros s. rewrite Hl'.
    destruct (decide (s ∈ seq 0 MAX_SENSORS ∧ _)) as [[H1 H2] | Hn];
      destruct (decide ((s < MAX_SENSORS)%nat ∧ _)) as [[H3 H4] | Hn']; try done.
    + exfalso. apply Hn'. apply elem_of_seq in H1. split; [lia | done].
    + exfalso. apply Hn. split; [apply elem_of_seq; lia | done].
Qed.

(** A report is read only for a device in range that has trigger-mode
    sensors enabled; every failure returns -1 and changes nothing but the
    trace. *)
Theorem integrate_device_report_failure (w : world) (d : Z) :
  let r := integrate_device_report K d w in
  (r.1 = 0 ∨ r.1 = -1)
  ∧ (r.1 = -1 → ∃ evs, r.2 = set_trace (trace w ++ evs) w)
  ∧ ((∃ fd n x, ReadReport fd n x ∈ emitted w r.2) →
     0 ≤ d < Z.of_nat MAX_DEVICES
     ∧ arr_get (trig_sensors_per_dev w) (Z.to_nat d) ≠ 0).
Proof.
  intros r. subst r. rewrite integrate_device_report_run.
  destruct (_ || _ || _) eqn:G.
  - cbn [fst snd]. split; [by right |]. split; [by eexists |].
    intros (fd & n & x & Hin). exfalso. unfold emitted in Hin. cbn [trace set_trace] in Hin.
    rewrite drop_app_length in Hin.
    apply list_elem_of_singleton in Hin. discriminate.
  - apply orb_false_iff in G as [G G3]. apply orb_false_iff in G as [G1 G2].
    assert (Hd : 0 ≤ d < Z.of_nat MAX_DEVICES ∧ arr_get (trig_sensors_per_dev w) (Z.to_nat d) ≠ 0)
      by lia.
    destruct (take _ <$> _) as [bytes |].
    + cbn [fst snd]. split; [by left |]. split; [done |]. done.
    + cbn [fst snd]. split; [by right |]. split; [by eexists |]. done.
Qed.

(** A successful report reaches exactly the slots below MAX_SENSORS that
    are bound to the device: each gets its channels copied out of the
    zero-padded report, and is flagged pending when it is enabled.  Every
    other slot, and everything else in the state, stays as it was. *)
Theorem integrate_device_report_success (w : world) (d : Z) :
  let r := integrate_device_report K d w in
  let w' := r.2 in
  let dev := Z.to_nat d in
  r.1 = 0 →
  ∃ bytes,
    let buf := take (MAX_SENSOR_REPORT_SIZE * MAX_SENSORS)
                 (bytes ++ replicate (MAX_SENSOR_REPORT_SIZE * MAX_SENSORS) 0) in
    w' = set_trace (trace w ++ [ReadReport (arr_get (device_fd w) dev)
                                  (expected_report_size w dev) (Some bytes)])
           (set_sensor_info (sensor_info w') w)
    ∧ (length bytes ≤ Z.to_nat (expected_report_size w dev))%nat
    ∧ length (sensor_info w') = length (sensor_info w)
    ∧ ∀ s,
        let si := sensor_at w s in
        let si' := sensor_at w' s in
        if decide ((s < MAX_SENSORS)%nat ∧ (s < length (sensor_info w))%nat
                   ∧ dev_num si = dev)
        then
          si' = set_report_pending (report_pending si')
                  (set_report_buffer (report_buffer si') si)
          ∧ report_buffer si'
            = copy_channels si buf (seq 0 (num_channels si)) 0 (report_buffer si)
          ∧ report_pending si' = (if enable_count si =? 0 then report_pending si else 1)
        else si' = si.
Proof.
  intros r w' dev. subst r w'. rewrite integrate_device_report_run. fold dev.
  destruct (_ || _ || _) eqn:G; [discriminate |].
  destruct (take _ <$> k_read_report K _ _) as [bytes |] eqn:Hr; [| discriminate].
  intros _. exists bytes. cbn [fst snd]. cbv zeta.
  set (buf := take _ (bytes ++ _)).
  set (w1 := set_trace _ w).
  destruct (integrate_loop w1 dev buf) as (l' & Hrun & Hlen & Hl').
  rewrite Hrun. cbn [snd].
  assert (Hat : ∀ s, sensor_at w1 s = sensor_at w s) by reflexivity.
  assert (Hat' : ∀ s, sensor_at (set_sensor_info l' w1) s = default sensor_zero (l' !! s))
    by reflexivity.
  assert (Hlen1 : length (sensor_info w1) = length (sensor_info w)) by reflexivity.
  rewrite Hlen1 in Hlen, Hl'.
  split; [subst w1; by destruct w |]. split.
  { destruct (k_read_report K _ _) as [x |]; [| discriminate].
    cbn in Hr. injection Hr as <-. rewrite length_take. lia. }
  split; [exact Hlen |].
  intros s. rewrite Hat', Hl', Hat. clear Hat Hat' Hl' Hrun.
  destruct (decide ((s < MAX_SENSORS)%nat ∧ (s < length (sensor_info w))%nat))
    as [[H1 H2] | Hn].
  - destruct (decide (dev_num (sensor_at w s) = dev)) as [Hd | Hd].
    + rewrite decide_True by done.
      destruct (enable_count (sensor_at w s) =? 0); by destruct (sensor_at w s).
    + rewrite decide_False; [done | tauto].
  - rewrite decide_False; [done | tauto].
Qed.

Lemma memcpy_at_inside (dst src : list Z) (o : nat) :
  (o + length src ≤ length dst)%nat →
  memcpy_at dst (Z.of_nat o) src = take o dst ++ src ++ drop (o + length src) dst.
Proof. intros _. unfold memcpy_at. by rewrite Nat2Z.id. Qed.

Lemma copy_channels_from (si : sensor_info_t) (buf : list Z) (cs : list nat) :
  let n := λ c, Z.to_nat (size (channel_at si c)) in
  let slice := λ c, take (n c) (drop (Z.to_nat (offset (channel_at si c))) buf) in
  Forall (λ c, 0 ≤ size (channel_at si c)
               ∧ (Z.to_nat (offset (channel_at si c)) + n c ≤ length buf)%nat) cs →
  ∀ (o : nat) (target : list Z),
    (o + sum_list_with n cs ≤ length target)%nat →
    Z.of_nat (o + sum_list_with n cs) ≤ INT_MAX →
    copy_channels si buf cs (Z.of_nat o) target
    = take o target ++ concat (slice <$> cs) ++ drop (o + sum_list_with n cs) target.
Proof.
  intros n slice. induction 1 as [| c cs [Hsz Hin] _ IH]; intros o target Hfit Hmax.
  - cbn. rewrite Nat.add_0_r. by rewrite take_drop.
  - cbn [copy_channels sum_list_with fmap list_fmap concat] in *.
    fold (n c) in *. fold (slice c).
    assert (Hlen : length (slice c) = n c).
    { subst slice. cbv beta. rewrite length_take, length_drop. lia. }
    replace (wrap_int (Z.of_nat o + size (channel_at si c))) with (Z.of_nat (o + n c)).
    2:{ rewrite wrap_int_small; [subst n; cbv beta; lia |].
        unfold INT_MIN, INT_MAX in *. subst n. cbv beta in *. lia. }
    rewrite memcpy_at_inside by lia.
    rewrite IH.
    2:{ rewrite !length_app, length_take, length_drop. lia. }
    2:{ lia. }
    rewrite Hlen.
    assert (Ht : length (take o target) = o) by (rewrite length_take; lia).
    set (T1 := take o target ++ slice c ++ drop (o + n c) target).
    assert (E1 : take (o + n c) T1 = take o target ++ slice c).
    { subst T1. rewrite app_assoc. rewrite take_app_length'; [done |].
      rewrite length_app. lia. }
    assert (E2 : drop (o + n c + sum_list_with n cs) T1
                 = drop (o + (n c + sum_list_with n cs)) target).
    { subst T1. rewrite app_assoc.
      rewrite drop_app_ge by (rewrite length_app; lia).
      rewrite length_app, Ht, Hlen, drop_drop. f_equal. lia. }
    rewrite E1, E2. by rewrite <- !app_assoc.
Qed.

(** The copy loop of [integrate_device_report] packs the channels of a
    sensor: when every channel lies inside the device report and the
    sensor's report buffer is large enough, the buffer receives the
    channels' slices of the device report one after the other, in channel
    order, and keeps what lies behind them. *)
Theorem copy_channels_packs_slices (si : sensor_info_t) (buf target : list Z)
    (cs : list nat) :
  let n := λ c, Z.to_nat (size (channel_at si c)) in
  let slice := λ c, take (n c) (drop (Z.to_nat (offset (channel_at si c))) buf) in
  Forall (λ c, 0 ≤ size (channel_at si c)
               ∧ (Z.to_nat (offset (channel_at si c)) + n c ≤ length buf)%nat) cs →
  (sum_list_with n cs ≤ length target)%nat →
  Z.of_nat (sum_list_with n cs) ≤ INT_MAX →
  copy_channels si buf cs 0 target
  = concat (slice <$> cs) ++ drop (sum_list_with n cs) target
  ∧ length (copy_channels si buf cs 0 target) = length target.
Proof.
  intros n slice Hin Hfit Hmax.
  pose proof (copy_channels_from si buf cs Hin 0 target Hfit Hmax) as H.
  change (Z.of_nat 0) with 0 in H. rewrite take_0 in H. cbn [app Nat.add] in H.
  fold n slice in H.
  split; [exact H |].
  rewrite H.
  change (length (concat (slice <$> cs) ++ drop (sum_list_with n cs) target)
          = length target).
  rewrite length_app, length_drop.
  assert (Hc : length (concat (slice <$> cs)) = sum_list_with n cs);
    [| rewrite Hc; lia].
  clear H Hfit Hmax. induction Hin as [| c cs [Hsz Hc] _ IH]; [done |].
  cbn [fmap list_fmap concat sum_list_with]. rewrite length_app, IH. f_equal.
  subst slice. cbv beta. rewrite length_take, length_drop. lia.
Qed.

(** ** Start-up *)

(** [allocate_control_data] marks every device descriptor as closed
    whatever happens next.  It fails with -1 when the epoll instance or the
    socket pair cannot be created, closing the epoll descriptor in the
    second case; otherwise it returns the epoll descriptor, and it does so
    whether or not the wakeup socket could be added to the interest
    list. *)
Theorem allocate_control_data_outcomes (w : world) :
  let r := allocate_control_data K w in
  let w' := r.2 in
  let epfd := k_epoll_create K (length (trace w)) in
  device_fd w' = replicate MAX_DEVICES (-1)
  ∧ poll_fd w' = epfd
  ∧ sensor_info w' = sensor_info w ∧ counters w' = counters w
  ∧ ((epfd = -1 ∧ r.1 = -1
      ∧ emitted w w' = [EpollCreate (-1);
                         Log LOG_ERROR "Can't create epoll instance for iio sensors!"]
      ∧ poll_set w' = poll_set w)
     ∨ (epfd ≠ -1 ∧ r.1 = -1
        ∧ emitted w w' = [EpollCreate epfd; Socketpair None;
                           Log LOG_ERROR "Can't create socket pair for iio sensors!";
                           Close epfd])
     ∨ (∃ a b ok,
          epfd ≠ -1 ∧ r.1 = epfd
          ∧ poll_socket_pair w' = (a, b)
          ∧ emitted w w' = [EpollCreate epfd; Socketpair (Some (a, b));
                             EpollCtlAdd a INVALID_DEV_NUM (if ok : bool then 0 else -1)]
          ∧ poll_set w' = poll_set w ++ (if ok then [(a, INVALID_DEV_NUM)] else []))).
Proof.
  intros r w' epfd. subst r w' epfd.
  destruct w as [sinfo scount polls trigs fds pfd pair last aps pset tr].
  cbv beta iota zeta delta [allocate_control_data epoll_ctl_add sys_close ALOGE emit tick
                              mbind M_bind bind mret M_ret ret gets modify emitted counters].
  cbn [fst snd trace set_trace set_device_fd set_poll_fd device_fd poll_fd sensor_info
       poll_sensors_per_dev trig_sensors_per_dev active_poll_sensors poll_set].
  destruct (k_epoll_create K (length tr) =? -1) eqn:E1.
  - apply Z.eqb_eq in E1. rewrite E1.
    cbn [fst snd trace set_trace set_device_fd set_poll_fd device_fd poll_fd sensor_info
         poll_sensors_per_dev trig_sensors_per_dev active_poll_sensors poll_set].
    repeat (split; [reflexivity |]). left.
    repeat (split; [reflexivity |]).
    split; [| reflexivity].
    rewrite <- app_assoc. by rewrite drop_app_length.
  - apply Z.eqb_neq in E1.
    cbv beta.
    cbn [fst snd trace set_trace set_device_fd set_poll_fd device_fd poll_fd sensor_info
         poll_sensors_per_dev trig_sensors_per_dev active_poll_sensors poll_set].
    destruct (k_socketpair K _) as [[a b] |] eqn:E2.
    + cbv beta iota.
      cbn [fst snd trace set_trace set_device_fd set_poll_fd set_poll_socket_pair
           set_poll_set device_fd poll_fd poll_socket_pair sensor_info
           poll_sensors_per_dev trig_sensors_per_dev active_poll_sensors poll_set].
      destruct (k_epoll_ctl_ok K _) eqn:E3;
        cbn [fst snd trace set_trace set_device_fd set_poll_fd set_poll_socket_pair
             set_poll_set device_fd poll_fd poll_socket_pair sensor_info
             poll_sensors_per_dev trig_sensors_per_dev active_poll_sensors poll_set].
      * repeat (split; [reflexivity |]). right. right. exists a, b, true.
        repeat (split; [done |]).
        split; [| done]. rewrite <- !app_assoc. by rewrite drop_app_length.
      * repeat (split; [reflexivity |]). right. right. exists a, b, false.
        repeat (split; [done |]).
        split; [| by rewrite app_nil_r]. rewrite <- !app_assoc. by rewrite drop_app_length.
    + cbv beta iota.
      cbn [fst snd trace set_trace set_device_fd set_poll_fd set_poll_socket_pair
           set_poll_set device_fd poll_fd poll_socket_pair sensor_info
           poll_sensors_per_dev trig_sensors_per_dev active_poll_sensors poll_set].
      repeat (split; [reflexivity |]). right. left.
      repeat (split; [done |]).
      rewrite <- !app_assoc. by rewrite drop_app_length.
Qed.

(** ** Dispatch of the events of a wait *)

(** [sensor_poll] honours an event only when its flags are exactly EPOLLIN,
    and the wakeup event ends the batch: one byte is read from the socket
    pair, and the events that follow it in the same batch are dropped. *)
Theorem dispatch_events_wakeup_ends_batch (w : world) (pre post : list epoll_event)
    (wake : epoll_event) :
  (∀ evs, Forall (λ e, events e ≠ EPOLLIN) evs → dispatch_events K evs w = (false, w))
  ∧ (events wake = EPOLLIN → data_u32 wake = INVALID_DEV_NUM →
     Forall (λ e, events e = EPOLLIN → data_u32 e ≠ INVALID_DEV_NUM) pre →
     let w1 := (dispatch_events K pre w).2 in
     (dispatch_events K pre w).1 = false
     ∧ dispatch_events K (pre ++ wake :: post) w
       = (true, set_trace (trace w1 ++ [ReadByte (poll_socket_pair w1).1]) w1)).
Proof.
  split.
  - intros evs H. induction H as [| e evs He _ IH]; [reflexivity |].
    cbn [dispatch_events]. apply Z.eqb_neq in He. by rewrite He.
  - intros Hev Hdata Hpre. revert w.
    induction Hpre as [| e pre He _ IH]; intros w.
    + cbn [app dispatch_events]. apply Z.eqb_eq in Hev, Hdata. rewrite Hev, Hdata.
      split; reflexivity.
    + cbn [app dispatch_events].
      destruct (events e =? EPOLLIN) eqn:E1; [| apply IH].
      apply Z.eqb_eq in E1. specialize (He E1). apply Z.eqb_neq in He. rewrite He.
      unfold mbind, M_bind, bind.
      destruct (integrate_device_report K _ w) as [r w0]. apply IH.
Qed.

(** ** What [sensor_poll] returns *)

Lemma return_first_some ss w e w' :
  return_first_available_sensor_report K ss w = (Some e, w') →
  ∃ pre s0 post,
    ss = pre ++ s0 :: post
    ∧ Forall (λ s', report_pending (sensor_at w s') = 0) pre
    ∧ report_pending (sensor_at w s0) ≠ 0
    ∧ e = (propagate_sensor_report K s0 w).1
    ∧ w' = (update_sensor s0 (set_report_pending 0) (propagate_sensor_report K s0 w).2).2.
Proof.
  induction ss as [| s ss IH]; [discriminate |].
  cbn [return_first_available_sensor_report].
  unfold mbind at 1, M_bind at 1, bind at 1, gets at 1. cbv beta iota zeta.
  destruct (report_pending (sensor_at w s) =? 0) eqn:E.
  - intros H. destruct (IH H) as (pre & s0 & post & -> & Hpre & Hs0 & He & Hw).
    exists (s :: pre), s0, post. split; [done |]. split; [| done].
    constructor; [by apply Z.eqb_eq | done].
  - intros H. exists [], s, ss. split; [done |]. split; [constructor |].
    split; [by apply Z.eqb_neq |].
    revert H. unfold mbind, M_bind, bind, mret, M_ret, ret.
    destruct (propagate_sensor_report K s w) as [e0 w0]. cbn [fst snd].
    destruct (update_sensor s (set_report_pending 0) w0) as [u w1]. cbn [snd].
    by intros [= -> ->].
Qed.

Lemma scan_some w e w' :
  return_first_available_sensor_report K (seq 0 (sensor_count w)) w = (Some e, w') →
  ∃ s0, (s0 < sensor_count w)%nat ∧ (s0 < length (sensor_info w))%nat
    ∧ report_pending (sensor_at w s0) ≠ 0
    ∧ (∀ s', (s' < s0)%nat → report_pending (sensor_at w s') = 0)
    ∧ e = (propagate_sensor_report K s0 w).1
    ∧ w' = (update_sensor s0 (set_report_pending 0) (propagate_sensor_report K s0 w).2).2.
Proof.
  intros H. destruct (return_first_some _ _ _ _ H) as (pre & s0 & post & Hss & Hpre & Hs0 & He & Hw).
  assert (Hpre' : pre = seq 0 s0 ∧ (s0 < sensor_count w)%nat).
  { assert (Hl : length (seq 0 (sensor_count w)) = length (pre ++ s0 :: post)) by by rewrite Hss.
    rewrite length_seq, length_app in Hl. cbn [length] in Hl.
    assert (Hk : seq 0 (sensor_count w) !! length pre = Some s0).
    { rewrite Hss. by rewrite list_lookup_middle. }
    apply lookup_seq in Hk as [Hk Hk']. cbn in Hk. subst s0.
    split; [| lia].
    apply (f_equal (take (length pre))) in Hss.
    rewrite take_app_length in Hss. rewrite <- Hss at 1.
    rewrite take_seq. f_equal. lia. }
  destruct Hpre' as [-> Hlt].
  exists s0. split; [done |]. split.
  { destruct (decide (s0 < length (sensor_info w))%nat) as [| Hge]; [done |].
    exfalso. apply Hs0. unfold sensor_at. by rewrite (proj2 (lookup_ge_None _ _)) by lia. }
  split; [done |]. split; [| done].
  intros s' Hs'. rewrite Forall_forall in Hpre. apply Hpre. apply elem_of_seq. lia.
Qed.

(** What a returning call of the loop at [await_event] hands back; [I] is
    any property of the state that the steps of the loop keep. *)
Lemma await_event_returns (I : world → Prop) :
  (∀ w, I w → I (keep_min_interval K w).2) →
  (∀ w, I w → I (get_poll_time K w).2) →
  (∀ t w, I w → I (epoll_wait K t w).2) →
  (∀ w, I w → I (get_timestamp K w).2) →
  (∀ ts w, I w → I (modify (set_last_poll_exit_ts ts) w).2) →
  (∀ evs w, I w → I (dispatch_events K evs w).2) →
  (∀ w, I w → I (invalidate_poll_sensors w).2) →
  (∀ ss w, I w → I (return_first_available_sensor_report K ss w).2) →
  ∀ fuel w n e w',
  I w →
  await_event K fuel w = (Some (n, e), w') →
  n = 1
  ∧ ∃ w0 s0,
      I w0
      ∧ (s0 < sensor_count w0)%nat ∧ (s0 < length (sensor_info w0))%nat
      ∧ report_pending (sensor_at w0 s0) ≠ 0
      ∧ (∀ s', (s' < s0)%nat → report_pending (sensor_at w0 s') = 0)
      ∧ e = (propagate_sensor_report K s0 w0).1
      ∧ w' = (update_sensor s0 (set_report_pending 0) (propagate_sensor_report K s0 w0).2).2.
Proof.
  intros K1 K2 K3 K4 K5 K6 K7 K8.
  induction fuel as [| fuel IH]; intros w n e w' Hinv H; [discriminate |].
  cbn [await_event] in H.
  cbv beta iota zeta delta [mbind M_bind bind gets mret M_ret ret] in H.
  pose proof (K1 w Hinv) as H1.
  destruct (keep_min_interval K w) as [u1 w1]. cbn [snd] in H1.
  pose proof (K2 w1 H1) as H2.
  destruct (get_poll_time K w1) as [timeout w2]. cbn [snd] in H2.
  pose proof (K3 timeout w2 H2) as H3.
  destruct (epoll_wait K timeout w2) as [nfds w3]. cbn [snd] in H3.
  pose proof (K4 w3 H3) as H4.
  destruct (get_timestamp K w3) as [ts w4]. cbn [snd] in H4.
  pose proof (K5 ts w4 H4) as H5.
  destruct (modify (set_last_poll_exit_ts ts) w4) as [u2 w5]. cbn [snd] in H5.
  destruct nfds as [evs |]; [| by eapply IH].
  pose proof (K6 evs w5 H5) as H6.
  destruct (dispatch_events K evs w5) as [[|] w6]; cbn [snd] in H6; [by eapply IH |].
  pose proof (K7 w6 H6) as H7.
  destruct (invalidate_poll_sensors w6) as [u3 w7]. cbn [snd] in H7.
  pose proof (K8 (seq 0 (sensor_count w7)) w7 H7) as H8.
  destruct (return_first_available_sensor_report K (seq 0 (sensor_count w7)) w7)
    as [[e0 |] w8] eqn:Hscan; cbn [snd] in H8; [| by eapply IH].
  injection H as <- <- <-. split; [done |].
  destruct (scan_some _ _ _ Hscan) as (s0 & G1 & G2 & G3 & G4 & G5 & G6).
  by exists w7, s0.
Qed.

Lemma sensor_poll_returns (I : world → Prop) :
  (∀ w, I w → I (keep_min_interval K w).2) →
  (∀ w, I w → I (get_poll_time K w).2) →
  (∀ t w, I w → I (epoll_wait K t w).2) →
  (∀ w, I w → I (get_timestamp K w).2) →
  (∀ ts w, I w → I (modify (set_last_poll_exit_ts ts) w).2) →
  (∀ evs w, I w → I (dispatch_events K evs w).2) →
  (∀ w, I w → I (invalidate_poll_sensors w).2) →
  (∀ ss w, I w → I (return_first_available_sensor_report K ss w).2) →
  ∀ fuel count w n e,
  I w →
  (sensor_poll K fuel count w).1 = Some (n, e) →
  n = 1
  ∧ ∃ w0 s0,
      I w0
      ∧ (s0 < sensor_count w0)%nat ∧ (s0 < length (sensor_info w0))%nat
      ∧ report_pending (sensor_at w0 s0) ≠ 0
      ∧ (∀ s', (s' < s0)%nat → report_pending (sensor_at w0 s') = 0)
      ∧ e = (propagate_sensor_report K s0 w0).1
      ∧ (sensor_poll K fuel count w).2
        = (update_sensor s0 (set_report_pending 0) (propagate_sensor_report K s0 w0).2).2.
Proof.
  intros K1 K2 K3 K4 K5 K6 K7 K8 fuel count w n e Hinv.
  unfold sensor_poll.
  cbv beta iota zeta delta [mbind M_bind bind gets mret M_ret ret].
  pose proof (K8 (seq 0 (sensor_count w)) w Hinv) as H8.
  destruct (return_first_available_sensor_report K (seq 0 (sensor_count w)) w)
    as [[e0 |] w1] eqn:Hscan; cbn [snd] in H8.
  - cbn [fst snd]. intros [= <- <-]. split; [done |].
    destruct (scan_some _ _ _ Hscan) as (s0 & G1 & G2 & G3 & G4 & G5 & G6).
    by exists w, s0.
  - destruct (await_event K fuel w1) as [r w2] eqn:Hloop. cbn [fst snd].
    intros ->. by eapply (await_event_returns I).
Qed.

Lemma pending_cleared s0 w1 :
  (s0 < length (sensor_info w1))%nat →
  report_pending (sensor_at (update_sensor s0 (set_report_pending 0) w1).2 s0) = 0.
Proof.
  intros H. unfold update_sensor, modify, sensor_at. cbn [snd sensor_info set_sensor_info].
  by rewrite list_lookup_insert_eq.
Qed.

Lemma propagate_length s w :
  length (sensor_info (propagate_sensor_report K s w).2) = length (sensor_info w).
Proof.
  destruct (propagate_effect K s w) as (ts & evs & -> & _).
  cbn [sensor_info set_trace set_sensor_info]. apply length_insert.
Qed.

(** [sensor_poll] never returns an error or an empty batch: whenever it
    returns, it returns 1 together with the event shaped for the
    lowest-numbered sensor that had a report pending when the table was
    scanned, and that sensor's flag is cleared in the state it leaves. *)
Theorem sensor_poll_returns_lowest_pending (w : world) (fuel : nat) (count n : Z)
    (e : sensors_event_t) :
  (sensor_poll K fuel count w).1 = Some (n, e) →
  let w' := (sensor_poll K fuel count w).2 in
  n = 1
  ∧ ∃ w0 s0,
      (s0 < sensor_count w0)%nat
      ∧ report_pending (sensor_at w0 s0) ≠ 0
      ∧ (∀ s', (s' < s0)%nat → report_pending (sensor_at w0 s') = 0)
      ∧ e = (propagate_sensor_report K s0 w0).1
      ∧ w' = (update_sensor s0 (set_report_pending 0) (propagate_sensor_report K s0 w0).2).2
      ∧ report_pending (sensor_at w' s0) = 0.
Proof.
  intros H w'.
  destruct (sensor_poll_returns (λ _, True)) with (fuel := fuel) (count := count)
    (w := w) (n := n) (e := e)
    as (Hn & w0 & s0 & _ & H1 & H2 & H3 & H4 & H5 & H6); try done.
  split; [exact Hn |]. exists w0, s0. repeat (split; [done |]).
  subst w'. rewrite H6. apply pending_cleared. by rewrite propagate_length.
Qed.

(** ** The timeout of the wait *)

Lemma lowest_fold (w : world) (ss : list nat) (acc : Z) :
  let scheduled := λ s,
    negb (enable_count (sensor_at w s) =? 0) && negb (sampling_rate (sensor_at w s) =? 0)
    && bool_decide (num_channels (sensor_at w s) = 0%nat) in
  let target := λ s,
    wrap_int64 (last_integration_ts (sensor_at w s)
                + Z.quot 1000000000 (sampling_rate (sensor_at w s))) in
  let r := foldl (λ lowest s,
                    let si := sensor_at w s in
                    if negb (enable_count si =? 0) && negb (sampling_rate si =? 0)
                       && bool_decide (num_channels si = 0%nat)
                    then
                      let target_ts := wrap_int64 (last_integration_ts si
                                                   + Z.quot 1000000000 (sampling_rate si)) in
                      if target_ts <? lowest then target_ts else lowest
                    else lowest) acc ss in
  r ≤ acc
  ∧ (r = acc ∨ ∃ s, s ∈ ss ∧ scheduled s = true ∧ r = target s)
  ∧ ∀ s, s ∈ ss → scheduled s = true → r ≤ target s.
Proof.
  intros scheduled target. revert acc.
  induction ss as [| a ss IH]; intros acc; cbn [foldl].
  - split; [lia |]. split; [by left |]. intros s Hs. by apply elem_of_nil in Hs.
  - cbv zeta. fold (scheduled a). fold (target a).
    destruct (scheduled a) eqn:Ea.
    + destruct (target a <? acc) eqn:Et.
      * apply Z.ltb_lt in Et. destruct (IH (target a)) as (I1 & I2 & I3).
        cbv zeta in I1, I2, I3. split; [lia |]. split.
        -- right. destruct I2 as [-> | (s & Hs & Hq & ->)].
           ++ exists a. split; [apply list_elem_of_here | done].
           ++ exists s. split; [by apply list_elem_of_further | done].
        -- intros s Hs Hq. apply elem_of_cons in Hs as [-> | Hs]; [lia | by apply I3].
      * apply Z.ltb_ge in Et. destruct (IH acc) as (I1 & I2 & I3).
        cbv zeta in I1, I2, I3. split; [lia |]. split.
        -- destruct I2 as [-> | (s & Hs & Hq & ->)]; [by left |].
           right. exists s. split; [by apply list_elem_of_further | done].
        -- intros s Hs Hq. apply elem_of_cons in Hs as [-> | Hs]; [lia | by apply I3].
    + destruct (IH acc) as (I1 & I2 & I3). cbv zeta in I1, I2, I3.
      split; [lia |]. split.
      * destruct I2 as [-> | (s & Hs & Hq & ->)]; [by left |].
        right. exists s. split; [by apply list_elem_of_further | done].
      * intros s Hs Hq. apply elem_of_cons in Hs as [-> | Hs]; [congruence | by apply I3].
Qed.

(** [get_poll_time] asks for an unbounded wait (-1), without reading the
    clock, when no poll-mode sensor is active or none of the enabled
    poll-mode sensors has a rate.  Otherwise, when every such sensor has a
    positive rate and was last sampled in the past, the timeout is the time
    left until the earliest of them is due, in whole milliseconds, between
    0 and 1000. *)
Theorem get_poll_time_timeout (w : world) :
  let scheduled := λ s,
    negb (enable_count (sensor_at w s) =? 0) && negb (sampling_rate (sensor_at w s) =? 0)
    && bool_decide (num_channels (sensor_at w s) = 0%nat) in
  let target := λ s,
    last_integration_ts (sensor_at w s) + 1000000000 / sampling_rate (sensor_at w s) in
  let now := k_get_timestamp K (length (trace w)) in
  ((active_poll_sensors w = 0
    ∨ ∀ s, (s < sensor_count w)%nat → scheduled s = false) →
   get_poll_time K w = (-1, w))
  ∧ (active_poll_sensors w ≠ 0 →
     (∃ s, (s < sensor_count w)%nat ∧ scheduled s = true) →
     (∀ s, (s < sensor_count w)%nat → scheduled s = true →
           1 ≤ sampling_rate (sensor_at w s)
           ∧ 0 ≤ last_integration_ts (sensor_at w s) ≤ now) →
     now + 1000000000 < INT64_MAX →
     ∃ s0, (s0 < sensor_count w)%nat ∧ scheduled s0 = true
       ∧ (∀ s, (s < sensor_count w)%nat → scheduled s = true → target s0 ≤ target s)
       ∧ get_poll_time K w
         = (Z.max 0 ((target s0 - now) / 1000000),
            set_trace (trace w ++ [GetTimestamp now]) w)
       ∧ 0 ≤ (get_poll_time K w).1 ≤ 1000).
Proof.
  intros scheduled target now.
  pose proof (lowest_fold w (seq 0 (sensor_count w)) INT64_MAX) as Hfold.
  cbv zeta in Hfold. fold (lowest_target_ts w) in Hfold. fold scheduled in Hfold.
  destruct Hfold as (F1 & F2 & F3).
  split.
  - intros [Hz | Hnone]; unfold get_poll_time;
      cbv beta iota zeta delta [mbind M_bind bind gets mret M_ret ret].
    + by rewrite Hz.
    + destruct (active_poll_sensors w =? 0); [done |].
      destruct F2 as [-> | (s & Hs & Hq & _)]; [done |].
      apply elem_of_seq in Hs. rewrite Hnone in Hq by lia. discriminate.
  - intros Hact (s1 & Hs1 & Hq1) Hok Hnow.
    assert (Htarget : ∀ s, (s < sensor_count w)%nat → scheduled s = true →
              wrap_int64 (last_integration_ts (sensor_at w s)
                          + Z.quot 1000000000 (sampling_rate (sensor_at w s)))
              = target s ∧ 0 ≤ target s ≤ now + 1000000000).
    { intros s Hs Hq. destruct (Hok s Hs Hq) as [Hr Hl]. subst target. cbv beta.
      rewrite Z.quot_div_nonneg by lia.
      assert (0 ≤ 1000000000 / sampling_rate (sensor_at w s) ≤ 1000000000).
      { split; [apply Z.div_pos; lia |]. apply Z.div_le_upper_bound; nia. }
      unfold wrap_int64, INT64_MAX in *. rewrite Z.mod_small by lia. lia. }
    destruct F2 as [Hmax | (s0 & Hs0 & Hq0 & Hlow)].
    { exfalso. specialize (F3 s1). rewrite Hmax in F3.
      destruct (Htarget s1 Hs1 Hq1) as [E B]. rewrite E in F3.
      specialize (F3 ltac:(apply elem_of_seq; lia) Hq1). lia. }
    apply elem_of_seq in Hs0. destruct (Htarget s0 ltac:(lia) Hq0) as [E0 B0].
    rewrite E0 in Hlow.
    exists s0. split; [lia |]. split; [done |]. split.
    { intros s Hs Hq. destruct (Htarget s Hs Hq) as [E B].
      specialize (F3 s ltac:(apply elem_of_seq; lia) Hq). rewrite E in F3. lia. }
    assert (Hrun : get_poll_time K w
         = (Z.max 0 ((target s0 - now) / 1000000),
            set_trace (trace w ++ [GetTimestamp now]) w)).
    { unfold get_poll_time, get_timestamp, emit, tick.
      cbv beta iota zeta delta [mbind M_bind bind gets modify mret M_ret ret].
      apply Z.eqb_neq in Hact. rewrite Hact. rewrite Hlow.
      replace (target s0 =? INT64_MAX) with false by (symmetry; apply Z.eqb_neq; lia).
      fold now.
      destruct (target s0 <=? now) eqn:Hdue.
      - apply Z.leb_le in Hdue. f_equal.
        rewrite Z.max_l; [done |].
        apply Z.div_le_upper_bound; lia.
      - apply Z.leb_gt in Hdue. f_equal.
        unfold wrap_int64. rewrite (Z.mod_small (_ + 2 ^ 63)) by (unfold INT64_MAX in *; lia).
        replace (target s0 - now + 2 ^ 63 - 2 ^ 63) with (target s0 - now) by lia.
        rewrite Z.quot_div_nonneg by lia.
        assert (0 ≤ (target s0 - now) / 1000000 ≤ 1000).
        { split; [apply Z.div_pos; lia |]. apply Z.div_le_upper_bound; lia. }
        rewrite wrap_int_small by (unfold INT_MIN, INT_MAX; lia). lia. }
    split; [exact Hrun |]. rewrite Hrun. cbn [fst].
    assert ((target s0 - now) / 1000000 ≤ 1000) by (apply Z.div_le_upper_bound; lia).
    lia.
Qed.

(** ** Failure to open the device *)

(** If a [sensor_activate] call sees [open] fail, it is an enable that
    found no open descriptor for the device.  It returns -1 and undoes the
    counting: the sensor's [enable_count] is 0, the per-device
    counters and the number of active poll-mode sensors are as before, no
    descriptor is registered or closed and the poll loop is not woken.  But
    what was written to sysfs before the [open] stays: for a trigger-mode
    sensor the trigger, the channel enables and the buffer enable are not
    reverted, and nothing is written after the failure. *)
Theorem failed_open_is_rolled_back (w : world) (s : nat) (enabled : Z) (p : path) :
  (s < length (sensor_info w))%nat →
  int_counters w →
  let si := sensor_at w s in
  let d := dev_num si in
  let r := (sensor_activate K s enabled w).1 in
  let w' := (sensor_activate K s enabled w).2 in
  Open p (-1) ∈ emitted w w' →
  r = -1 ∧ enabled ≠ 0 ∧ p = DEV_FILE_PATH d
  ∧ arr_get (device_fd w) d = -1
  ∧ enable_count (sensor_at w' s) = 0
  ∧ counters w' = counters w
  ∧ device_fd w' = <[d := -1]> (device_fd w)
  ∧ poll_set w' = poll_set w
  ∧ ∃ cfg,
      emitted w w' = cfg ++ [Open (DEV_FILE_PATH d) (-1); Log LOG_ERROR "Could not open fd"]
      ∧ (if bool_decide (num_channels si ≠ 0%nat)
         then configure_events si enabled
                (arr_get (adjust_at (trig_sensors_per_dev w) d 1) d) cfg
         else cfg = []).
Proof.
  intros Hs (Hpolls & Htrigs & Hact) si d r w' Hin.
  destruct (sensor_activate_refines K w s enabled Hs)
    as (open_r & add_ok & cfg & Hr & Hctl & Htr & Hcfg & _ & _ & _).
  fold si r w' in Hr, Hctl, Htr, Hcfg.
  assert (Hseg : emitted w w' = cfg
            ++ (activate_ctl si (poll_socket_pair w).2 enabled open_r add_ok (ctl_of w s)).2).
  { unfold emitted. rewrite Htr. by rewrite drop_app_length. }
  rewrite Hseg in Hin |- *. clear Hseg Htr.
  assert (Hkind : Forall (λ e, is_sysfs_event e || is_layout_event e = true) cfg).
  { destruct (_ && _); [by eapply configure_events_kind | subst cfg; constructor]. }
  assert (Hcfg_no : ∀ e, is_sysfs_event e || is_layout_event e = false → e ∉ cfg).
  { intros e He Hine. rewrite Forall_forall in Hkind. specialize (Hkind _ Hine).
    congruence. }
  apply elem_of_app in Hin as [Hin | Hin]; [by apply Hcfg_no in Hin |].
  pose proof (f_equal c_enable_count Hctl) as Hec.
  pose proof (f_equal c_trigs Hctl) as Etrigs.
  pose proof (f_equal c_polls Hctl) as Epolls.
  pose proof (f_equal c_active Hctl) as Eact.
  pose proof (f_equal c_fds Hctl) as Hfds.
  pose proof (f_equal c_pset Hctl) as Hpset.
  cbn [ctl_of c_enable_count c_trigs c_polls c_active c_fds c_pset]
    in Hec, Etrigs, Epolls, Eact, Hfds, Hpset.
  unfold counters. rewrite Hec, Etrigs, Epolls, Eact, Hfds, Hpset, Hr.
  clear Hec Etrigs Epolls Eact Hfds Hpset Hctl Hr.
  pose proof (edge_round_trip si (ctl_of w s) Hpolls Htrigs Hact) as Hround.
  unfold is_edge in Hcfg.
  unfold activate_ctl in *. cbn [ctl_of c_enable_count] in *. fold si d in Hin, Hcfg |- *.
  repeat match goal with
         | H : context [if ?c then _ else _] |- _ =>
             lazymatch c with
             | bool_decide _ => fail
             | _ && bool_decide _ => fail
             | _ => destruct c eqn:?
             end
         end; cbn [fst snd] in Hin |- *;
    repeat match goal with
           | H : _ ∈ [] |- _ => by apply elem_of_nil in H
           | H : _ ∈ _ :: _ |- _ =>
               apply elem_of_cons in H as [H | H]; [try discriminate H |]
           end.
  all: inversion Hin; subst; clear Hin.
  all: try match goal with H : (-1 =? -1) = false |- _ => discriminate H end.
  apply negb_false_iff, Z.eqb_eq in Heqb0.
  rewrite Heqb0 in *. change (wrap_int (1 - 1)) with 0.
  rewrite edge_ctl_fds in Heqb1. cbn [ctl_of c_fds] in Heqb1. apply Z.eqb_eq in Heqb1.
  destruct Hround as (R1 & R2 & R3).
  unfold with_fd. cbn [c_enable_count c_polls c_trigs c_active c_fds c_pset].
  rewrite R1, R2, R3, !edge_ctl_enable_count, !edge_ctl_fds, !edge_ctl_pset.
  cbn [ctl_of c_polls c_trigs c_active c_fds c_pset].
  split; [reflexivity |]. split; [lia |]. split; [reflexivity |].
  split; [exact Heqb1 |]. repeat (split; [reflexivity |]).
  exists cfg. split; [reflexivity |].
  change (1 =? 1) with true in Hcfg. cbn [andb] in Hcfg. exact Hcfg.
Qed.

(** ** Rate changes *)

Lemma set_trace_step w a b :
  set_trace (trace (set_trace (trace w ++ a) w) ++ b) (set_trace (trace w ++ a) w)
  = set_trace (trace w ++ a ++ b) w.
Proof.
  destruct w as [sinfo scount polls trigs fds pfd pair last aps pset tr].
  unfold set_trace. cbn [trace]. by rewrite app_assoc.
Qed.

Lemma set_rate_and_wake w evs s rate :
  let w1 := set_trace (trace w ++ evs) w in
  let w2 := set_sensor_info (<[s := set_sampling_rate rate (sensor_at w1 s)]>
                               (sensor_info w1)) w1 in
  set_trace (trace w2 ++ [WriteByte (poll_socket_pair w2).2]) w2
  = set_trace (trace w ++ evs ++ [WriteByte (poll_socket_pair w).2])
      (set_sensor_info (<[s := set_sampling_rate rate (sensor_at w s)]> (sensor_info w)) w).
Proof.
  destruct w as [sinfo scount polls trigs fds pfd pair last aps pset tr].
  unfold set_trace, set_sensor_info, sensor_at.
  cbn [trace sensor_info poll_socket_pair sensor_count poll_sensors_per_dev
       trig_sensors_per_dev device_fd poll_fd last_poll_exit_ts active_poll_sensors
       poll_set].
  by rewrite app_assoc.
Qed.

Lemma sensor_set_delay_run (w : world) (s : nat) (ns : Z) :
  ns ≠ 0 →
  let si := sensor_at w s in
  let d := dev_num si in
  let attr := SENSOR_SAMPLING_PATH d (tag (sensor_catalog (catalog_index si))) in
  let rate := if wrap_int (Z.quot 1000000000 ns) =? 0 then 1
              else wrap_int (Z.quot 1000000000 ns) in
  let cur := k_sysfs_read_int K (length (trace w)) attr in
  let writes :=
    match cur with
    | None => []
    | Some c =>
      if rate =? c then []
      else if arr_get (trig_sensors_per_dev w) d =? 0 then [SysfsWriteInt attr rate]
      else [SysfsWriteInt (ENABLE_PATH d) 0; SysfsWriteInt attr rate;
            SysfsWriteInt (ENABLE_PATH d) 1]
    end in
  sensor_set_delay K s ns w
  = (0, set_trace (trace w ++ SysfsReadInt attr cur :: writes
                     ++ [WriteByte (poll_socket_pair w).2])
          (set_sensor_info (<[s := set_sampling_rate rate si]> (sensor_info w)) w)).
Proof.
  intros Hns si d attr rate cur writes.
  unfold sensor_set_delay. apply Z.eqb_neq in Hns.
  cbv beta iota zeta delta [mbind M_bind bind gets mret M_ret ret]. rewrite Hns.
  fold si. fold d. fold attr. fold rate.
  unfold sysfs_read_int, enable_buffer, sysfs_write_int, release_poll_loop, update_sensor,
    emit, tick.
  cbv beta iota zeta delta [mbind M_bind bind gets modify mret M_ret ret].
  fold cur. subst writes.
  assert (Htrig : ∀ x w0, trig_sensors_per_dev (set_trace x w0) = trig_sensors_per_dev w0)
    by reflexivity.
  destruct cur as [c |].
  - destruct (rate =? c).
    + apply f_equal. apply (set_rate_and_wake w [SysfsReadInt attr (Some c)]).
    + rewrite Htrig. destruct (arr_get (trig_sensors_per_dev w) d =? 0) eqn:E.
      * cbv beta iota zeta. rewrite !Htrig, E. cbv beta iota zeta.
        rewrite set_trace_step. apply f_equal.
        apply (set_rate_and_wake w [SysfsReadInt attr (Some c); SysfsWriteInt attr rate]).
      * cbv beta iota zeta. rewrite !Htrig, E. cbv beta iota zeta.
        rewrite !set_trace_step. apply f_equal.
        apply (set_rate_and_wake w [SysfsReadInt attr (Some c);
                                    SysfsWriteInt (ENABLE_PATH d) 0;
                                    SysfsWriteInt attr rate;
                                    SysfsWriteInt (ENABLE_PATH d) 1]).
  - apply f_equal. apply (set_rate_and_wake w [SysfsReadInt attr None]).
Qed.

(** A non-zero delay always succeeds.  The rate attribute is read once; it
    is rewritten only when it could be read and differs from the requested
    rate, and then the buffer is switched off before and on after the
    write exactly when the device has trigger-mode sensors enabled.  The
    requested rate is stored in the sensor whether or not sysfs was
    written, nothing else in the state changes, and the last thing the
    call does is to wake the poll loop. *)
Theorem sensor_set_delay_protocol (w : world) (s : nat) (ns : Z) :
  ns ≠ 0 →
  let si := sensor_at w s in
  let d := dev_num si in
  let attr := SENSOR_SAMPLING_PATH d (tag (sensor_catalog (catalog_index si))) in
  let rate := if wrap_int (Z.quot 1000000000 ns) =? 0 then 1
              else wrap_int (Z.quot 1000000000 ns) in
  let cur := k_sysfs_read_int K (length (trace w)) attr in
  let w' := (sensor_set_delay K s ns w).2 in
  (sensor_set_delay K s ns w).1 = 0
  ∧ emitted w w'
    = SysfsReadInt attr cur
      :: match cur with
         | None => []
         | Some c =>
           if rate =? c then []
           else if arr_get (trig_sensors_per_dev w) d =? 0 then [SysfsWriteInt attr rate]
           else [SysfsWriteInt (ENABLE_PATH d) 0; SysfsWriteInt attr rate;
                 SysfsWriteInt (ENABLE_PATH d) 1]
         end
      ++ [WriteByte (poll_socket_pair w).2]
  ∧ sensor_info w' = <[s := set_sampling_rate rate si]> (sensor_info w)
  ∧ w' = set_trace (trace w') (set_sensor_info (sensor_info w') w).
Proof.
  intros Hns si d attr rate cur w'. subst w'.
  rewrite (sensor_set_delay_run w s ns Hns). cbv zeta. cbn [fst snd].
  fold si. fold d. fold attr. fold rate. fold cur.
  split; [reflexivity |]. split.
  { unfold emitted. cbn [trace set_trace]. by rewrite drop_app_length. }
  split; [reflexivity |].
  reflexivity.
Qed.

(** ** Shaping an event *)

Lemma transform_fields_spec (si : sensor_info_t) (s : nat) (L : nat) :
  ∀ (n a : nat) (cur : Z) (e : sensors_event_t),
    length (data e) = L → (a + n ≤ L)%nat →
    let e' := transform_fields si s (seq a n) cur e in
    version e' = version e ∧ sensor e' = sensor e ∧ ev_type e' = ev_type e
    ∧ timestamp e' = timestamp e
    ∧ length (data e') = L
    ∧ (∀ c, (a ≤ c < a + n)%nat →
         data e' !! c
         = Some (transform (ops si) s c
                   (drop (Z.to_nat (cur + foldr (λ j acc, size (channel_at si j) + acc) 0
                                            (seq a (c - a))))
                      (report_buffer si))))
    ∧ (∀ c, ¬ (a ≤ c < a + n)%nat → data e' !! c = data e !! c).
Proof.
  induction n as [| n IH]; intros a cur e HL Hfit; cbn [seq transform_fields].
  - repeat (split; [done |]). split; [intros c Hc; lia | done].
  - set (v := transform (ops si) s a (drop (Z.to_nat cur) (report_buffer si))).
    set (e1 := set_data (<[a := v]> (data e)) e).
    assert (HL1 : length (data e1) = L) by (subst e1; cbn [data set_data]; by rewrite length_insert).
    destruct (IH (S a) (cur + size (channel_at si a)) e1 HL1 ltac:(lia))
      as (I1 & I2 & I3 & I4 & I5 & I6 & I7).
    cbv zeta in I1, I2, I3, I4, I5, I6, I7 |- *.
    split; [by rewrite I1 |]. split; [by rewrite I2 |]. split; [by rewrite I3 |].
    split; [by rewrite I4 |]. split; [exact I5 |]. split.
    + intros c Hc. destruct (decide (c = a)) as [-> | Hne].
      * rewrite I7 by lia. subst e1. cbn [data set_data].
        rewrite list_lookup_insert_eq by lia. rewrite Nat.sub_diag. cbn [seq foldr].
        by rewrite Z.add_0_r.
      * rewrite I6 by lia. f_equal. f_equal. f_equal. f_equal.
        replace (c - a)%nat with (S (c - S a)) by lia. cbn [seq foldr]. lia.
    + intros c Hc. rewrite I7 by lia. subst e1. cbn [data set_data].
      apply list_lookup_insert_ne. lia.
Qed.

Lemma num_fields_le x n : num_fields_of_type x = Some n → (n ≤ 4)%nat.
Proof.
  unfold num_fields_of_type.
  repeat match goal with |- context [if ?c then _ else _] => destruct c end;
    intros [= <-]; lia.
Qed.

(** The event of a trigger-mode sensor of a known type: the header names
    the sensor and its type and carries the first clock reading, field [c]
    below the number of fields of the type is the sensor's [transform] of
    the report buffer from the end of the channels before [c] on, the other
    ones of the 16 fields are zero, and [finalize] gets the last word.  The
    second clock reading becomes the sensor's [last_integration_ts];
    nothing else changes and nothing but the clock is consulted. *)
Theorem propagate_shapes_trigger_event (w : world) (s n : nat) :
  let si := sensor_at w s in
  let t1 := k_get_timestamp K (length (trace w)) in
  let t2 := k_get_timestamp K (S (length (trace w))) in
  num_channels si ≠ 0%nat →
  num_fields_of_type (type (sensor_catalog (catalog_index si))) = Some n →
  ∃ e0,
    propagate_sensor_report K s w
    = (finalize (ops si) s e0,
       set_trace (trace w ++ [GetTimestamp t1; GetTimestamp t2])
         (set_sensor_info (<[s := set_last_integration_ts t2 si]> (sensor_info w)) w))
    ∧ version e0 = sizeof_sensors_event_t ∧ sensor e0 = Z.of_nat s
    ∧ ev_type e0 = type (sensor_catalog (catalog_index si)) ∧ timestamp e0 = t1
    ∧ length (data e0) = 16%nat
    ∧ (∀ c, (c < n)%nat →
         data e0 !! c
         = Some (transform (ops si) s c
                   (drop (Z.to_nat (foldr (λ j acc, size (channel_at si j) + acc) 0 (seq 0 c)))
                      (report_buffer si))))
    ∧ (∀ c, (n ≤ c < 16)%nat → data e0 !! c = Some float_zero).
Proof.
  intros si t1 t2 Hnc Hn.
  assert (Hs : (s < length (sensor_info w))%nat).
  { destruct (decide (s < length (sensor_info w))%nat) as [| Hge]; [done |].
    exfalso. apply Hnc. subst si. unfold sensor_at.
    by rewrite (proj2 (lookup_ge_None _ _)) by lia. }
  pose proof (num_fields_le _ _ Hn) as Hle.
  set (hdr := {| version := sizeof_sensors_event_t; sensor := Z.of_nat s;
                 ev_type := type (sensor_catalog (catalog_index si)); timestamp := t1;
                 data := replicate 16 float_zero |}).
  set (si2 := set_last_integration_ts t2 si).
  exists (transform_fields si2 s (seq 0 n) 0 hdr).
  destruct (transform_fields_spec si2 s 16 n 0 0 hdr) as (I1 & I2 & I3 & I4 & I5 & I6 & I7);
    [exact (length_replicate 16 float_zero) | lia |].
  cbv zeta in I1, I2, I3, I4, I5, I6, I7.
  split.
  - unfold propagate_sensor_report. fold si.
    cbv beta iota zeta delta [mbind M_bind bind gets modify mret M_ret ret get_timestamp
                                ALOGE update_sensor tick emit].
    fold si. rewrite Hn. cbv beta iota zeta.
    rewrite decide_False by done.
    cbn [trace set_trace]. rewrite length_app. cbn [length]. rewrite Nat.add_1_r.
    fold t1 t2. fold hdr.
    assert (Hat : ∀ x y, sensor_at (set_trace x (set_trace y w)) s = si) by reflexivity.
    rewrite Hat. fold si2.
    assert (Hat2 : ∀ x y l, sensor_at (set_sensor_info (<[s := si2]> l)
                                         (set_trace x (set_trace y w))) s
                            = default sensor_zero (<[s := si2]> l !! s)) by reflexivity.
    rewrite Hat2. rewrite list_lookup_insert_eq by done. cbn [default from_option id].
    f_equal.
    change (sensor_info (set_trace ?x ?y)) with (sensor_info y).
    rewrite set_trace_set_trace, <- app_assoc. cbn [app].
    by rewrite set_trace_sensor_info.
  - split; [exact I1 |]. split; [exact I2 |]. split; [exact I3 |]. split; [exact I4 |].
    split; [exact I5 |]. split.
    + intros c Hc. rewrite I6 by lia. rewrite Nat.sub_0_r. by rewrite Z.add_0_l.
    + intros c Hc. rewrite I7 by lia. subst hdr. cbn [data].
      apply lookup_replicate_2. lia.
Qed.

Lemma acquire_fields_spec (s : nat) (L : nat) :
  ∀ (n a : nat) (e : sensors_event_t) (w : world),
    length (data e) = L → (a + n ≤ L)%nat →
    let v := λ c, k_acquire_immediate_value K (length (trace w) + (c - a)) s c in
    let r := acquire_fields K s (seq a n) e w in
    r.2 = set_trace (trace w ++ ((λ c, AcquireImmediateValue s c (v c)) <$> seq a n)) w
    ∧ version r.1 = version e ∧ sensor r.1 = sensor e ∧ ev_type r.1 = ev_type e
    ∧ timestamp r.1 = timestamp e
    ∧ length (data r.1) = L
    ∧ (∀ c, (a ≤ c < a + n)%nat → data r.1 !! c = Some (v c))
    ∧ (∀ c, ¬ (a ≤ c < a + n)%nat → data r.1 !! c = data e !! c).
Proof.
  induction n as [| n IH]; intros a e w HL Hfit; cbn [seq acquire_fields].
  - cbv zeta. cbn [fst snd mret M_ret ret fmap list_fmap].
    split.
    { destruct w as [sinfo scount polls trigs fds pfd pair last aps pset tr].
      unfold set_trace. cbn [trace]. by rewrite app_nil_r. }
    repeat (split; [done |]). split; [intros c Hc; lia | done].
  - cbv beta iota zeta delta [mbind M_bind bind gets modify mret M_ret ret
                                acquire_immediate_value tick emit].
    set (v0 := k_acquire_immediate_value K (length (trace w)) s a).
    set (e1 := set_data (<[a := v0]> (data e)) e).
    set (w1 := set_trace (trace w ++ [AcquireImmediateValue s a v0]) w).
    assert (HL1 : length (data e1) = L)
      by (subst e1; cbn [data set_data]; by rewrite length_insert).
    destruct (IH (S a) e1 w1 HL1 ltac:(lia)) as (I0 & I1 & I2 & I3 & I4 & I5 & I6 & I7).
    cbv zeta in I0, I1, I2, I3, I4, I5, I6, I7.
    assert (Hlen : length (trace w1) = S (length (trace w))).
    { subst w1. cbn [trace set_trace]. rewrite length_app. cbn [length]. lia. }
    split.
    { rewrite I0. subst w1. rewrite set_trace_set_trace. cbn [trace set_trace].
      rewrite <- app_assoc. cbn [app fmap list_fmap]. f_equal. f_equal. f_equal.
      - subst v0. do 2 f_equal. lia.
      - apply list_fmap_ext. intros i c Hc. apply lookup_seq in Hc as [-> Hi].
        f_equal. f_equal. rewrite length_app. cbn [length]. lia. }
    split; [by rewrite I1 |]. split; [by rewrite I2 |]. split; [by rewrite I3 |].
    split; [by rewrite I4 |]. split; [exact I5 |]. split.
    + intros c Hc. destruct (decide (c = a)) as [-> | Hne].
      * rewrite I7 by lia. subst e1. cbn [data set_data].
        rewrite list_lookup_insert_eq by lia. subst v0. do 2 f_equal. lia.
      * rewrite I6 by lia. rewrite Hlen. do 2 f_equal. lia.
    + intros c Hc. rewrite I7 by lia. subst e1. cbn [data set_data].
      apply list_lookup_insert_ne. lia.
Qed.

(** The event of a poll-mode sensor of a known type: after the two clock
    readings each field below the number of fields of the type is sampled
    once through [acquire_immediate_value], in field order; the other ones
    of the 16 fields are zero.  Nothing in the state changes but the
    sensor's [last_integration_ts]. *)
Theorem propagate_samples_poll_sensor (w : world) (s n : nat) :
  let si := sensor_at w s in
  let t1 := k_get_timestamp K (length (trace w)) in
  let t2 := k_get_timestamp K (S (length (trace w))) in
  let v := λ c, k_acquire_immediate_value K (length (trace w) + 2 + c) s c in
  num_channels si = 0%nat →
  num_fields_of_type (type (sensor_catalog (catalog_index si))) = Some n →
  ∃ e0,
    propagate_sensor_report K s w
    = (finalize (ops si) s e0,
       set_trace (trace w ++ [GetTimestamp t1; GetTimestamp t2]
                    ++ ((λ c, AcquireImmediateValue s c (v c)) <$> seq 0 n))
         (set_sensor_info (<[s := set_last_integration_ts t2 si]> (sensor_info w)) w))
    ∧ version e0 = sizeof_sensors_event_t ∧ sensor e0 = Z.of_nat s
    ∧ ev_type e0 = type (sensor_catalog (catalog_index si)) ∧ timestamp e0 = t1
    ∧ length (data e0) = 16%nat
    ∧ (∀ c, (c < n)%nat → data e0 !! c = Some (v c))
    ∧ (∀ c, (n ≤ c < 16)%nat → data e0 !! c = Some float_zero).
Proof.
  intros si t1 t2 v Hnc Hn.
  pose proof (num_fields_le _ _ Hn) as Hle.
  set (hdr := {| version := sizeof_sensors_event_t; sensor := Z.of_nat s;
                 ev_type := type (sensor_catalog (catalog_index si)); timestamp := t1;
                 data := replicate 16 float_zero |}).
  set (w2 := set_sensor_info (<[s := set_last_integration_ts t2 si]> (sensor_info w))
               (set_trace (trace w ++ [GetTimestamp t1; GetTimestamp t2]) w)).
  destruct (acquire_fields_spec s 16 n 0 hdr w2)
    as (I0 & I1 & I2 & I3 & I4 & I5 & I6 & I7);
    [exact (length_replicate 16 float_zero) | lia |].
  cbv zeta in I0, I1, I2, I3, I4, I5, I6, I7.
  assert (Hlen : length (trace w2) = (length (trace w) + 2)%nat).
  { subst w2. cbn [trace set_trace set_sensor_info]. rewrite length_app. by cbn [length]. }
  exists (acquire_fields K s (seq 0 n) hdr w2).1.
  split.
  - unfold propagate_sensor_report. fold si.
    cbv beta iota zeta delta [mbind M_bind bind gets modify mret M_ret ret get_timestamp
                                ALOGE update_sensor tick emit].
    fold si. rewrite Hn. cbv beta iota zeta.
    rewrite decide_True by done.
    cbn [trace set_trace]. rewrite length_app. cbn [length]. rewrite Nat.add_1_r.
    fold t1 t2. fold hdr.
    assert (Hat : ∀ x y, sensor_at (set_trace x (set_trace y w)) s = si) by reflexivity.
    rewrite Hat.
    rewrite set_trace_set_trace, <- app_assoc. cbn [app].
    match goal with
    | |- context [acquire_fields K s (seq 0 n) hdr ?x] => change x with w2
    end.
    destruct (acquire_fields K s (seq 0 n) hdr w2) as [e1 w3]. cbn [fst snd] in *.
    f_equal. rewrite I0. subst w2. rewrite set_trace_sensor_info, set_trace_set_trace.
    cbn [trace set_trace set_sensor_info]. rewrite <- app_assoc. cbn [app].
    rewrite (set_trace_sensor_info (trace w ++ _)).
    do 5 f_equal. apply list_fmap_ext. intros i c Hc. apply lookup_seq in Hc as [-> Hi].
    f_equal. subst v. cbv beta. f_equal. rewrite length_app. cbn [length]. lia.
  - split; [exact I1 |]. split; [exact I2 |]. split; [exact I3 |]. split; [exact I4 |].
    split; [exact I5 |]. split.
    + intros c Hc. rewrite I6 by lia. subst v. cbv beta. do 2 f_equal. lia.
    + intros c Hc. rewrite I7 by lia. subst hdr. cbn [data].
      apply lookup_replicate_2. lia.
Qed.

(** The event [propagate_sensor_report] hands back, whatever the type and
    the mode of the sensor. *)
Lemma propagate_event_shape (w : world) (s : nat) :
  let si := sensor_at w s in
  let ty := type (sensor_catalog (catalog_index si)) in
  let n := default 0%nat (num_fields_of_type ty) in
  ∃ e0,
    (propagate_sensor_report K s w).1 = finalize (ops si) s e0
    ∧ version e0 = sizeof_sensors_event_t ∧ sensor e0 = Z.of_nat s
    ∧ ev_type e0 = ty
    ∧ timestamp e0 = k_get_timestamp K (length (trace w))
    ∧ length (data e0) = 16%nat
    ∧ (∀ c, (c < n)%nat →
         data e0 !! c
         = Some (if decide (num_channels si = 0%nat)
                 then k_acquire_immediate_value K (length (trace w) + 2 + c) s c
                 else transform (ops si) s c
                        (drop (Z.to_nat (foldr (λ j acc, size (channel_at si j) + acc) 0
                                           (seq 0 c)))
                           (report_buffer si))))
    ∧ (∀ c, (n ≤ c < 16)%nat → data e0 !! c = Some float_zero).
Proof.
  intros si ty n.
  set (hdr := {| version := sizeof_sensors_event_t; sensor := Z.of_nat s;
                 ev_type := ty; timestamp := k_get_timestamp K (length (trace w));
                 data := replicate 16 float_zero |}).
  assert (Hle : (n ≤ 4)%nat).
  { subst n. destruct (num_fields_of_type ty) as [m |] eqn:Hn; cbn; [| lia].
    by eapply num_fields_le. }
  assert (Hzero : ∀ c, (c < 16)%nat → data hdr !! c = Some float_zero).
  { intros c Hc. subst hdr. cbn [data]. apply lookup_replicate_2. lia. }
  assert (HL : length (data hdr) = 16%nat) by exact (length_replicate 16 float_zero).
  unfold propagate_sensor_report. fold si. fold ty.
  cbv beta iota zeta delta [mbind M_bind bind gets modify mret M_ret ret get_timestamp
                              ALOGE update_sensor tick emit].
  fold si. fold ty. fold hdr.
  destruct (decide (num_channels si = 0%nat)) as [Hpoll | Htrig].
  - (* poll mode: the fields are sampled *)
    subst n. destruct (num_fields_of_type ty) as [m |] eqn:Hn;
      cbv beta iota zeta; cbn [default from_option id] in *.
    + match goal with
      | |- context [acquire_fields K s (seq 0 m) hdr ?x] =>
          destruct (acquire_fields_spec s 16 m 0 hdr x HL ltac:(lia))
            as (_ & I1 & I2 & I3 & I4 & I5 & I6 & I7);
          assert (Hlen : length (trace x) = (length (trace w) + 2)%nat)
            by (cbn [trace set_trace set_sensor_info]; rewrite !length_app;
                cbn [length]; lia);
          rewrite Hlen in I6;
          destruct (acquire_fields K s (seq 0 m) hdr x) as [e1 w3]
      end.
      cbv zeta in I1, I2, I3, I4, I5, I6, I7. cbn [fst snd] in *.
      exists e1. split; [reflexivity |]. split; [exact I1 |]. split; [exact I2 |].
      split; [exact I3 |]. split; [exact I4 |]. split; [exact I5 |]. split.
      * intros c Hc. rewrite I6 by lia. do 2 f_equal. lia.
      * intros c Hc. rewrite I7 by lia. apply Hzero. lia.
    + cbn [seq acquire_fields mret M_ret ret fst].
      exists hdr. split; [reflexivity |]. do 4 (split; [reflexivity |]).
      split; [exact HL |]. split; [intros c Hc; lia |].
      intros c Hc. apply Hzero. lia.
  - (* trigger mode: the fields are converted from the report buffer *)
    assert (Hs : (s < length (sensor_info w))%nat).
    { destruct (decide (s < length (sensor_info w))%nat) as [| Hge]; [done |].
      exfalso. apply Htrig. subst si. unfold sensor_at.
      by rewrite (proj2 (lookup_ge_None _ _)) by lia. }
    subst n. destruct (num_fields_of_type ty) as [m |] eqn:Hn;
      cbv beta iota zeta; cbn [default from_option id fst] in *.
    + match goal with
      | |- context [transform_fields ?x s (seq 0 m) 0 hdr] =>
          assert (Hx : ∃ t2, x = set_last_integration_ts t2 si);
          [ | destruct Hx as [t2 ->] ]
      end.
      { eexists. unfold sensor_at. cbn [sensor_info set_sensor_info set_trace].
        rewrite list_lookup_insert_eq by done. reflexivity. }
      set (si2 := set_last_integration_ts t2 si).
      destruct (transform_fields_spec si2 s 16 m 0 0 hdr HL ltac:(lia))
        as (I1 & I2 & I3 & I4 & I5 & I6 & I7).
      cbv zeta in I1, I2, I3, I4, I5, I6, I7.
      exists (transform_fields si2 s (seq 0 m) 0 hdr).
      split; [reflexivity |]. split; [exact I1 |]. split; [exact I2 |].
      split; [exact I3 |]. split; [exact I4 |]. split; [exact I5 |]. split.
      * intros c Hc. rewrite I6 by lia. rewrite Nat.sub_0_r. by rewrite Z.add_0_l.
      * intros c Hc. rewrite I7 by lia. apply Hzero. lia.
    + cbn [seq transform_fields].
      exists hdr. split; [reflexivity |]. do 4 (split; [reflexivity |]).
      split; [exact HL |]. split; [intros c Hc; lia |].
      intros c Hc. apply Hzero. lia.
Qed.


(** ** C5 *)

(** C5: when some sensor below [sensor_count] has [report_pending] set on
    entry, [sensor_poll] returns 1 with the lowest such sensor shaped into
    the event: the event is what the sensor's [finalize] makes of an event
    that carries the size of the structure as version, the sensor's handle
    and type, the clock as read on entry, and in each field below the
    number of fields of the type the value sampled for the field (poll
    mode) or the sensor's [transform] of its report buffer at the field's
    offset (trigger mode), the other fields being zero.  That sensor's flag
    is cleared; besides it only the sensor's [last_integration_ts] and the
    trace change, and neither [epoll_wait] nor [usleep] is called.  This
    holds whatever the fuel: the wait loop is not entered. *)
Theorem pending_report_is_returned (w : world) (fuel : nat) (count : Z) :
  (∃ s, (s < sensor_count w)%nat ∧ report_pending (sensor_at w s) ≠ 0) →
  ∃ s0 e0,
    (s0 < sensor_count w)%nat ∧ report_pending (sensor_at w s0) ≠ 0
    ∧ (∀ s', (s' < s0)%nat → report_pending (sensor_at w s') = 0)
    ∧ let si := sensor_at w s0 in
      let ty := type (sensor_catalog (catalog_index si)) in
      let n := default 0%nat (num_fields_of_type ty) in
      let shaped := propagate_sensor_report K s0 w in
      let w' := (sensor_poll K fuel count w).2 in
      (sensor_poll K fuel count w).1 = Some (1, finalize (ops si) s0 e0)
      ∧ version e0 = sizeof_sensors_event_t ∧ sensor e0 = Z.of_nat s0
      ∧ ev_type e0 = ty
      ∧ timestamp e0 = k_get_timestamp K (length (trace w))
      ∧ length (data e0) = 16%nat
      ∧ (∀ c, (c < n)%nat →
           data e0 !! c
           = Some (if decide (num_channels si = 0%nat)
                   then k_acquire_immediate_value K (length (trace w) + 2 + c) s0 c
                   else transform (ops si) s0 c
                          (drop (Z.to_nat (foldr (λ j acc, size (channel_at si j) + acc) 0
                                             (seq 0 c)))
                             (report_buffer si))))
      ∧ (∀ c, (n ≤ c < 16)%nat → data e0 !! c = Some float_zero)
      ∧ w' = (update_sensor s0 (set_report_pending 0) shaped.2).2
      ∧ (∃ ts, w' = set_trace (trace w')
                      (set_sensor_info
                         (<[s0 := set_report_pending 0 (set_last_integration_ts ts si)]>
                            (sensor_info w)) w))
      ∧ report_pending (sensor_at w' s0) = 0
      ∧ ∃ evs, trace w' = trace w ++ evs
               ∧ Forall (λ e, is_wait_event e = false) evs.
Proof.
  intros (s & Hs & Hp).
  destruct (least_pending w (sensor_count w)) as [(s0 & H1 & H2 & H3) | Hnone];
    [| exfalso; apply Hp; by apply Hnone].
  destruct (propagate_event_shape w s0) as (e0 & He & S1 & S2 & S3 & S4 & S5 & S6 & S7).
  cbv zeta in He, S3, S6, S7.
  exists s0, e0. split; [exact H1 |]. split; [exact H2 |]. split; [exact H3 |].
  intros si ty n shaped w'.
  assert (Hrun : sensor_poll K fuel count w
                 = (Some (1, shaped.1),
                    (update_sensor s0 (set_report_pending 0) shaped.2).2)).
  { unfold sensor_poll. unfold mbind, M_bind, bind, gets. cbv beta iota zeta.
    replace (seq 0 (sensor_count w))
      with (seq 0 s0 ++ s0 :: seq (S s0) (sensor_count w - S s0)).
    2:{ change (s0 :: seq (S s0) (sensor_count w - S s0))
          with (seq s0 (S (sensor_count w - S s0))).
        rewrite <- seq_app. f_equal. lia. }
    rewrite return_first_spec; [reflexivity | | exact H2].
    apply Forall_forall. intros s' Hin. apply H3.
    apply elem_of_seq in Hin. lia. }
  subst w'. rewrite Hrun. cbn [fst snd].
  split; [subst shaped; by rewrite He |].
  split; [exact S1 |]. split; [exact S2 |]. split; [exact S3 |]. split; [exact S4 |].
  split; [exact S5 |]. split; [exact S6 |]. split; [exact S7 |].
  split; [reflexivity |].
  destruct (propagate_effect K s0 w) as (ts & evs & Hw1 & Hevs). fold shaped si in Hw1.
  assert (Hlen : (s0 < length (sensor_info w))%nat).
  { destruct (decide (s0 < length (sensor_info w))%nat) as [? | Hge]; [done |].
    exfalso. apply H2. unfold sensor_at.
    rewrite (proj2 (lookup_ge_None _ _)) by lia. reflexivity. }
  rewrite Hw1. unfold update_sensor, modify. cbn [snd].
  set (si1 := set_last_integration_ts ts si).
  assert (Hat : sensor_at (set_trace (trace w ++ evs)
                             (set_sensor_info (<[s0 := si1]> (sensor_info w)) w)) s0
                = si1).
  { unfold sensor_at. cbn [sensor_info set_sensor_info set_trace].
    by rewrite list_lookup_insert_eq. }
  rewrite Hat. cbn [sensor_info set_sensor_info set_trace].
  rewrite list_insert_insert_eq.
  split; [exists ts; by destruct w |].
  split.
  - unfold sensor_at. cbn [sensor_info set_sensor_info].
    by rewrite list_lookup_insert_eq.
  - exists evs. split; [reflexivity | exact Hevs].
Qed.

(** ** The layout planner *)

(** [refresh_sensor_report_maps] is a planner only: it reads
    scan_elements attributes and logs, writes nothing to sysfs, and changes
    nothing in the state but the channel descriptions of the sensors. *)
Theorem refresh_only_plans (w : world) (dev : nat) :
  let w' := (refresh_sensor_report_maps K dev w).2 in
  ∃ evs,
    w' = set_trace (trace w ++ evs) (set_sensor_info (sensor_info w') w)
    ∧ Forall (λ e, is_layout_event e = true) evs
    ∧ length (sensor_info w') = length (sensor_info w)
    ∧ ∀ s, sensor_at w' s = set_channel (channel (sensor_at w' s)) (sensor_at w s).
Proof.
  intros w'. destruct (layout_only_refresh K dev w) as (evs & Hstep & Hrel & Hevs).
  fold w' in Hstep, Hrel. exists evs. split; [exact Hstep |]. split; [exact Hevs |].
  split; [symmetry; by eapply Forall2_length |].
  intros s. by apply layout_rel_sensor.
Qed.

Lemma update_sensor_at (s1 : nat) (g : sensor_info_t → sensor_info_t) (w : world)
    (s : nat) :
  let w' := (update_sensor s1 g w).2 in
  length (sensor_info w') = length (sensor_info w)
  ∧ sensor_at w' s
    = if decide (s = s1 ∧ (s1 < length (sensor_info w))%nat)
      then g (sensor_at w s1) else sensor_at w s.
Proof.
  unfold update_sensor, modify. cbn [snd].
  split; [cbn [sensor_info set_sensor_info]; apply length_insert |].
  change (sensor_at (set_sensor_info ?l w) s) with (default sensor_zero (l !! s)).
  destruct (decide (s = s1)) as [-> | Hs].
  - destruct (decide (s1 < length (sensor_info w))%nat) as [Hlt | Hge].
    + rewrite decide_True by done. by rewrite list_lookup_insert_eq.
    + rewrite decide_False by tauto. by rewrite list_insert_ge by lia.
  - rewrite decide_False by tauto. by rewrite list_lookup_insert_ne.
Qed.

Lemma update_channel_at (s1 c1 : nat) (f : channel_info_t → channel_info_t) (w : world)
    (s c : nat) :
  let w' := (update_channel s1 c1 f w).2 in
  length (sensor_info w') = length (sensor_info w)
  ∧ length (channel (sensor_at w' s)) = length (channel (sensor_at w s))
  ∧ channel_at (sensor_at w' s) c
    = if decide (s = s1 ∧ c = c1 ∧ (s1 < length (sensor_info w))%nat
                 ∧ (c1 < length (channel (sensor_at w s1)))%nat)
      then f (channel_at (sensor_at w s1) c1)
      else channel_at (sensor_at w s) c.
Proof.
  unfold update_channel.
  destruct (update_sensor_at s1
              (λ si, set_channel (<[c1 := f (channel_at si c1)]> (channel si)) si) w s)
    as [Hlen Hat].
  cbv zeta in Hlen, Hat |- *. split; [exact Hlen |]. rewrite Hat.
  destruct (decide (s = s1 ∧ (s1 < length (sensor_info w))%nat)) as [[-> Hlt] | Hn].
  - cbn [channel set_channel]. rewrite length_insert. split; [done |].
    unfold channel_at at 1. cbn [channel set_channel].
    destruct (decide (c = c1)) as [-> | Hc].
    + destruct (decide (c1 < length (channel (sensor_at w s1)))%nat) as [Hlt' | Hge'].
      * rewrite decide_True by done. by rewrite list_lookup_insert_eq.
      * rewrite decide_False by tauto. by rewrite list_insert_ge by lia.
    + rewrite decide_False by tauto. by rewrite list_lookup_insert_ne.
  - split; [done |]. rewrite decide_False by tauto. done.
Qed.

Lemma assign_one (s c : nat) (off sz : Z) (w : world) (s' c' : nat) :
  let w1 := (update_channel s c (set_size sz) (update_channel s c (set_offset off) w).2).2 in
  length (sensor_info w1) = length (sensor_info w)
  ∧ length (channel (sensor_at w1 s')) = length (channel (sensor_at w s'))
  ∧ channel_at (sensor_at w1 s') c'
    = if decide (s' = s ∧ c' = c ∧ (s < length (sensor_info w))%nat
                 ∧ (c < length (channel (sensor_at w s)))%nat)
      then set_size sz (set_offset off (channel_at (sensor_at w s) c))
      else channel_at (sensor_at w s') c'.
Proof.
  cbv zeta.
  set (w0 := (update_channel s c (set_offset off) w).2).
  destruct (update_channel_at s c (set_offset off) w s' c') as (A1 & A2 & A3).
  destruct (update_channel_at s c (set_offset off) w s c) as (_ & A2' & A3').
  destruct (update_channel_at s c (set_size sz) w0 s' c') as (B1 & B2 & B3).
  cbv zeta in A1, A2, A3, A2', A3', B1, B2, B3. fold w0 in A1, A2, A3, A2', A3'.
  split; [congruence |]. split; [congruence |].
  rewrite B3, A1, A2', A3', A3.
  destruct (decide (s' = s ∧ c' = c ∧ _ ∧ _)) as [(-> & -> & H1 & H2) | Hn].
  - by rewrite decide_True by done.
  - done.
Qed.

Lemma assign_offsets_frame (t : index_tables) (idxs : list nat) : ∀ (off : Z) (w : world),
  let w' := (assign_offsets t idxs off w).2 in
  length (sensor_info w') = length (sensor_info w)
  ∧ (∀ s, length (channel (sensor_at w' s)) = length (channel (sensor_at w s)))
  ∧ ∀ s c,
      (∀ i, i ∈ idxs → arr_get (channel_size_from_index t) i ≠ 0 →
            (default 0%nat (sensor_handle_from_index t !! i),
             default 0%nat (channel_number_from_index t !! i)) ≠ (s, c)) →
      channel_at (sensor_at w' s) c = channel_at (sensor_at w s) c.
Proof.
  induction idxs as [| i idxs IH]; intros off w; cbn [assign_offsets].
  - done.
  - cbv zeta. destruct (arr_get (channel_size_from_index t) i =? 0) eqn:E.
    + destruct (IH off w) as (I1 & I2 & I3). cbv zeta in I1, I2, I3.
      split; [done |]. split; [done |]. intros s c H. apply I3.
      intros j Hj. apply H. by apply list_elem_of_further.
    + apply Z.eqb_neq in E.
      cbv beta iota zeta delta [mbind M_bind bind].
      set (s0 := default 0%nat (sensor_handle_from_index t !! i)).
      set (c0 := default 0%nat (channel_number_from_index t !! i)).
      set (sz := arr_get (channel_size_from_index t) i) in *.
      destruct (update_channel s0 c0 (set_offset off) w) as [u1 w0] eqn:E1.
      destruct (update_channel s0 c0 (set_size sz) w0) as [u2 w1] eqn:E2.
      assert (Hw1 : w1 = (update_channel s0 c0 (set_size sz)
                            (update_channel s0 c0 (set_offset off) w).2).2)
        by (by rewrite E1; cbn [snd]; rewrite E2).
      destruct (IH (wrap_int (off + sz)) w1) as (I1 & I2 & I3). cbv zeta in I1, I2, I3.
      split.
      { rewrite I1, Hw1. apply (assign_one s0 c0 off sz w 0 0). }
      split.
      { intros s. rewrite I2, Hw1. apply (assign_one s0 c0 off sz w s 0). }
      intros s c H. rewrite I3.
      2:{ intros j Hj. apply H. by apply list_elem_of_further. }
      rewrite Hw1. destruct (assign_one s0 c0 off sz w s c) as (_ & _ & ->).
      rewrite decide_False; [done |].
      intros (-> & -> & _). by apply (H i (list_elem_of_here _ _) E).
Qed.

(** The second loop of the planner hands out offsets as running sums: an
    index with a non-zero size whose channel exists, and is not claimed
    again by a later index, ends up with that size and with the sum of the
    non-zero sizes of the indices before it as its offset. *)
Theorem assign_offsets_running_sum (t : index_tables) (idxs : list nat) (off : Z)
    (w : world) (k i : nat) :
  let handle := λ j, default 0%nat (sensor_handle_from_index t !! j) in
  let number := λ j, default 0%nat (channel_number_from_index t !! j) in
  let sz := λ j, arr_get (channel_size_from_index t) j in
  let w' := (assign_offsets t idxs off w).2 in
  idxs !! k = Some i → sz i ≠ 0 →
  (handle i < length (sensor_info w))%nat →
  (number i < length (channel (sensor_at w (handle i))))%nat →
  (∀ k' j, (k < k')%nat → idxs !! k' = Some j → sz j ≠ 0 →
           (handle j, number j) ≠ (handle i, number i)) →
  offset (channel_at (sensor_at w' (handle i)) (number i))
  = foldl (λ acc j, if sz j =? 0 then acc else wrap_int (acc + sz j)) off (take k idxs)
  ∧ size (channel_at (sensor_at w' (handle i)) (number i)) = sz i.
Proof.
  intros handle number sz w'. subst w'. revert off w k.
  induction idxs as [| a idxs IH]; intros off w k Hk Hsz Hs Hc Hlater; [done |].
  destruct k as [| k].
  - cbn in Hk. injection Hk as ->. cbn [take foldl assign_offsets]. cbv zeta.
    fold (sz i). apply Z.eqb_neq in Hsz. rewrite Hsz. apply Z.eqb_neq in Hsz.
    cbv beta iota zeta delta [mbind M_bind bind].
    fold (handle i) (number i).
    destruct (update_channel (handle i) (number i) (set_offset off) w) as [u1 w0] eqn:E1.
    destruct (update_channel (handle i) (number i) (set_size (sz i)) w0) as [u2 w1] eqn:E2.
    assert (Hw1 : w1 = (update_channel (handle i) (number i) (set_size (sz i))
                          (update_channel (handle i) (number i) (set_offset off) w).2).2)
      by (by rewrite E1; cbn [snd]; rewrite E2).
    destruct (assign_offsets_frame t idxs (wrap_int (off + sz i)) w1) as (_ & _ & F).
    cbv zeta in F. rewrite F.
    2:{ intros j Hj Hszj. apply list_elem_of_lookup in Hj as [k' Hk'].
        apply (Hlater (S k') j); [lia | done | done]. }
    rewrite Hw1.
    destruct (assign_one (handle i) (number i) off (sz i) w (handle i) (number i))
      as (_ & _ & ->).
    by rewrite decide_True by done.
  - cbn in Hk. cbn [take foldl assign_offsets]. cbv zeta. fold (sz a).
    destruct (sz a =? 0) eqn:E.
    + apply (IH _ w k Hk Hsz Hs Hc).
      intros k' j Hk' Hj. apply (Hlater (S k') j); [lia | done].
    + cbv beta iota zeta delta [mbind M_bind bind].
      fold (handle a) (number a).
      destruct (update_channel (handle a) (number a) (set_offset off) w) as [u1 w0] eqn:E1.
      destruct (update_channel (handle a) (number a) (set_size (sz a)) w0) as [u2 w1] eqn:E2.
      assert (Hw1 : w1 = (update_channel (handle a) (number a) (set_size (sz a))
                            (update_channel (handle a) (number a) (set_offset off) w).2).2)
        by (by rewrite E1; cbn [snd]; rewrite E2).
      destruct (assign_one (handle a) (number a) off (sz a) w (handle i) 0)
        as (L1 & L2 & _). rewrite <- Hw1 in L1, L2.
      apply (IH _ w1 k Hk Hsz).
      * by rewrite L1.
      * by rewrite L2.
      * intros k' j Hk' Hj. apply (Hlater (S k') j); [lia | done].
Qed.

(** ** Pending reports belong to enabled sensors *)

Lemma no_stale_same_slots w w' :
  (∀ s, report_pending (sensor_at w' s) = report_pending (sensor_at w s)
        ∧ enable_count (sensor_at w' s) = enable_count (sensor_at w s)) →
  no_stale_report w → no_stale_report w'.
Proof.
  intros H Hinv s Hp. destruct (H s) as [E1 E2]. rewrite E1 in Hp. rewrite E2.
  by apply Hinv.
Qed.

Lemma no_stale_layout w w' :
  layout_rel (sensor_info w) (sensor_info w') → no_stale_report w → no_stale_report w'.
Proof.
  intros Hrel. apply no_stale_same_slots. intros s. unfold sensor_at.
  rewrite (layout_rel_sensor _ _ s Hrel). done.
Qed.

Lemma no_stale_adjust w s enabled :
  (s < length (sensor_info w))%nat →
  (enabled ≠ 0 → 0 ≤ enable_count (sensor_at w s) ≤ INT_MAX) →
  no_stale_report w → no_stale_report (adjust_counters s enabled w).2.
Proof.
  intros Hs Hec Hinv. rewrite adjust_counters_eq by done. cbv zeta.
  set (si := sensor_at w s) in *.
  assert (Hother : ∀ x k s', s' ≠ s →
            sensor_at (apply_edge si k (set_sensor_info (<[s := x]> (sensor_info w)) w)) s'
            = sensor_at w s').
  { intros x k s' Hne. unfold apply_edge. destruct (decide _); unfold sensor_at;
      cbn [sensor_info set_sensor_info set_trig_sensors_per_dev set_poll_sensors_per_dev
           set_active_poll_sensors]; by rewrite list_lookup_insert_ne. }
  assert (Hthis : ∀ x k,
            sensor_at (apply_edge si k (set_sensor_info (<[s := x]> (sensor_info w)) w)) s = x).
  { intros x k. unfold apply_edge. destruct (decide _); unfold sensor_at;
      cbn [sensor_info set_sensor_info set_trig_sensors_per_dev set_poll_sensors_per_dev
           set_active_poll_sensors]; by rewrite list_lookup_insert_eq. }
  assert (Hother' : ∀ x s', s' ≠ s →
            sensor_at (set_sensor_info (<[s := x]> (sensor_info w)) w) s' = sensor_at w s').
  { intros x s' Hne. unfold sensor_at. cbn [sensor_info set_sensor_info].
    by rewrite list_lookup_insert_ne. }
  assert (Hthis' : ∀ x, sensor_at (set_sensor_info (<[s := x]> (sensor_info w)) w) s = x).
  { intros x. unfold sensor_at. cbn [sensor_info set_sensor_info].
    by rewrite list_lookup_insert_eq. }
  destruct (enabled =? 0) eqn:En.
  - destruct (enable_count si =? 0) eqn:E0; [done |].
    destruct (wrap_int (enable_count si + -1) >? 0) eqn:E1; cbn [snd]; intros s' Hp.
    + destruct (decide (s' = s)) as [-> | Hne].
      * rewrite Hthis'. cbn [enable_count set_enable_count]. lia.
      * rewrite Hother' in Hp |- * by done. by apply Hinv.
    + destruct (decide (s' = s)) as [-> | Hne].
      * rewrite Hthis in Hp. cbn in Hp. done.
      * rewrite Hother in Hp |- * by done. by apply Hinv.
  - apply Z.eqb_neq in En. specialize (Hec En).
    assert (Hne1 : wrap_int (enable_count si + 1) ≠ 0).
    { destruct (decide (enable_count si = INT_MAX)) as [-> | Hlt]; [done |].
      rewrite wrap_int_small; unfold INT_MIN, INT_MAX in *; lia. }
    destruct (negb (wrap_int (enable_count si + 1) =? 1)) eqn:E1; cbn [snd]; intros s' Hp.
    + destruct (decide (s' = s)) as [-> | Hne].
      * rewrite Hthis'. cbn [enable_count set_enable_count]. done.
      * rewrite Hother' in Hp |- * by done. by apply Hinv.
    + destruct (decide (s' = s)) as [-> | Hne].
      * rewrite Hthis. cbn [enable_count set_enable_count]. done.
      * rewrite Hother in Hp |- * by done. by apply Hinv.
Qed.

Lemma no_stale_manage w s enabled d isp :
  (s < length (sensor_info w))%nat →
  no_stale_report w → no_stale_report (manage_device_fd K s enabled d isp w).2.
Proof.
  intros Hs Hinv. rewrite manage_device_fd_eq. cbv zeta.
  repeat match goal with
         | |- context [if ?c then _ else _] => destruct c eqn:?
         end; cbn [snd]; try exact Hinv;
    try (by apply (no_stale_same_slots w); [intros s0; split; reflexivity | exact Hinv]).
  apply no_stale_adjust; [exact Hs | done |].
  by apply (no_stale_same_slots w); [intros s0; split; reflexivity | exact Hinv].
Qed.

Lemma adjust_counters_length w s enabled :
  (s < length (sensor_info w))%nat →
  length (sensor_info (adjust_counters s enabled w).2) = length (sensor_info w).
Proof.
  intros Hs. rewrite adjust_counters_eq by done. cbv zeta. unfold apply_edge.
  repeat match goal with
         | |- context [if ?c then _ else _] => destruct c eqn:?
         end; cbn [snd sensor_info set_sensor_info set_trig_sensors_per_dev
                   set_poll_sensors_per_dev set_active_poll_sensors];
    rewrite ?length_insert; reflexivity.
Qed.

(** [sensor_activate] and [sensor_set_delay] keep pending reports with
    enabled sensors: if no disabled sensor has a report pending before the
    call, none has one after it.  For an enable the sensor's count must not
    be about to wrap around. *)
Theorem activation_keeps_no_stale_report (w : world) (s : nat) (enabled ns : Z) :
  (s < length (sensor_info w))%nat →
  no_stale_report w →
  ((enabled ≠ 0 → 0 ≤ enable_count (sensor_at w s) ≤ INT_MAX) →
   no_stale_report (sensor_activate K s enabled w).2)
  ∧ no_stale_report (sensor_set_delay K s ns w).2.
Proof.
  intros Hs Hinv. split.
  - intros Hec. unfold sensor_activate.
    cbv beta iota zeta delta [mbind M_bind bind gets].
    pose proof (no_stale_adjust w s enabled Hs Hec Hinv) as H1.
    pose proof (adjust_counters_length w s enabled Hs) as L1.
    destruct (adjust_counters s enabled w) as [r w1]. cbn [snd] in H1, L1.
    destruct (r <=? 0); [exact H1 |].
    destruct (configure_step K s enabled (bool_decide (num_channels (sensor_at w s) = 0%nat)) w1)
      as (cfg & w2 & Hrun & Hw2 & Hrel & _).
    rewrite Hrun.
    apply no_stale_manage.
    + rewrite <- (Forall2_length _ _ _ Hrel). lia.
    + by apply (no_stale_layout w1).
  - destruct (decide (ns = 0)) as [-> | Hns].
    + cbn. by apply (no_stale_same_slots w); [intros s0; split; reflexivity |].
    + rewrite sensor_set_delay_run by done. cbn [snd].
      apply (no_stale_same_slots w); [| exact Hinv]. intros s0.
      change (sensor_at (set_trace ?x (set_sensor_info ?l w)) s0)
        with (default sensor_zero (l !! s0)).
      destruct (decide (s0 = s)) as [-> | Hne].
      * by rewrite list_lookup_insert_eq.
      * by rewrite list_lookup_insert_ne.
Qed.

(** Steps of the poll loop that keep the invariant. *)









(** ** Poll-mode delivery *)

(** One round of the wait that times out: the state reaches the
    invalidation step with the sensors untouched. *)
Lemma timeout_round (w : world) (fuel : nat) :
  k_epoll_wait K (length (trace (get_poll_time K (keep_min_interval K w).2).2)) = Some [] →
  ∃ w5, sensor_info w5 = sensor_info w ∧ sensor_count w5 = sensor_count w
        ∧ active_poll_sensors w5 = active_poll_sensors w
        ∧ await_event K (S fuel) w
          = (let w6 := (invalidate_poll_sensors w5).2 in
             let r := return_first_available_sensor_report K (seq 0 (sensor_count w6)) w6 in
             match r.1 with
             | Some e => (Some (1, e), r.2)
             | None => await_event K fuel r.2
             end).
Proof.
  intros Hwait. cbn [await_event].
  rewrite keep_min_interval_eq in *. cbv zeta in *. cbn [snd] in Hwait.
  set (w1 := set_trace _ w) in *.
  destruct (get_poll_time_effect K w1) as (evs & Hw2 & _).
  cbv beta iota zeta delta [mbind M_bind bind].
  rewrite keep_min_interval_eq. cbv zeta. fold w1.
  destruct (get_poll_time K w1) as [timeout w2] eqn:Hg. cbn [snd] in Hw2, Hwait.
  unfold epoll_wait, get_timestamp, tick, emit.
  cbv beta iota zeta delta [mbind M_bind bind gets modify mret M_ret ret].
  rewrite Hwait. cbn [fmap option_fmap option_map]. rewrite take_nil.
  cbn [dispatch_events].
  cbv beta iota zeta delta [mbind M_bind bind gets modify mret M_ret ret].
  match goal with
  | |- context [invalidate_poll_sensors ?x] => set (w5 := x)
  end.
  exists w5. split; [subst w5; rewrite Hw2; reflexivity |]. split; [subst w5; rewrite Hw2; reflexivity |].
  split; [subst w5; rewrite Hw2; reflexivity |].
  destruct (invalidate_poll_sensors w5) as [[] w6]. cbn [snd]. cbv zeta.
  destruct (return_first_available_sensor_report K _ w6) as [[e |] w7]; reflexivity.
Qed.


Lemma invalidate_run (w : world) :
  active_poll_sensors w ≠ 0 →
  ∃ l', invalidate_poll_sensors w = (tt, set_sensor_info l' w)
        ∧ length l' = length (sensor_info w)
        ∧ ∀ s, default sensor_zero (l' !! s)
               = if decide ((s < sensor_count w)%nat ∧ (s < length (sensor_info w))%nat
                            ∧ enable_count (sensor_at w s) ≠ 0
                            ∧ num_channels (sensor_at w s) = 0%nat)
                 then set_report_pending 1 (sensor_at w s) else sensor_at w s.
Proof.
  intros Haps. unfold invalidate_poll_sensors.
  cbv beta iota zeta delta [mbind M_bind bind gets].
  replace (active_poll_sensors w =? 0) with false by (symmetry; by apply Z.eqb_neq).
  destruct (for_each_pointwise
              (λ _ si, if negb (enable_count si =? 0) && bool_decide (num_channels si = 0%nat)
                       then set_report_pending 1 si else si)
              (λ s, si ← gets (λ w, sensor_at w s);
                 if negb (enable_count si =? 0) && bool_decide (num_channels si = 0%nat)
                 then update_sensor s (set_report_pending 1)
                 else ret tt)
              (seq 0 (sensor_count w)) w) as (l' & Hrun & Hlen & Hl').
  - intros s w0. cbv beta iota zeta delta [mbind M_bind bind gets].
    destruct (_ && _); [reflexivity |].
    by rewrite insert_sensor_at_id, set_sensor_info_id.
  - apply NoDup_seq.
  - cbv beta iota zeta delta [mbind M_bind bind gets] in Hrun.
    exists l'. split; [exact Hrun |]. split; [exact Hlen |].
    intros s. rewrite Hl'.
    destruct (decide (s ∈ seq 0 (sensor_count w) ∧ _)) as [[Hin Hlt] | Hn].
    + apply elem_of_seq in Hin.
      destruct (enable_count (sensor_at w s) =? 0) eqn:E; cbn [negb andb].
      * apply Z.eqb_eq in E. destruct (decide _) as [(_ & _ & H & _) | _]; done.
      * apply Z.eqb_neq in E. destruct (bool_decide _) eqn:B.
        -- apply bool_decide_eq_true in B. rewrite decide_True; [done |].
           repeat split; [lia | done | done | done].
        -- apply bool_decide_eq_false in B.
           destruct (decide _) as [(_ & _ & _ & H) | _]; done.
    + destruct (decide _) as [(H1 & H2 & _) | _]; [| done].
      exfalso. apply Hn. split; [| done]. apply elem_of_seq. lia.
Qed.

(** Poll-mode sensors are served by the timeout of the wait.  When no
    report is pending, a poll-mode sensor is enabled and the wait returns
    without an event, the same [sensor_poll] call flags every enabled
    poll-mode sensor and returns 1 with the event of the lowest one; that
    sensor's flag is cleared and the other enabled poll-mode sensors are
    left pending for the next calls. *)
Theorem poll_sensor_delivered_on_timeout (w : world) (fuel : nat) (count : Z) (s : nat) :
  (∀ s', (s' < sensor_count w)%nat → report_pending (sensor_at w s') = 0) →
  (sensor_count w ≤ length (sensor_info w))%nat →
  active_poll_sensors w ≠ 0 →
  (s < sensor_count w)%nat →
  enable_count (sensor_at w s) ≠ 0 → num_channels (sensor_at w s) = 0%nat →
  k_epoll_wait K (length (trace (get_poll_time K (keep_min_interval K w).2).2)) = Some [] →
  let r := sensor_poll K (S fuel) count w in
  ∃ s0 w6,
    (s0 ≤ s)%nat
    ∧ enable_count (sensor_at w s0) ≠ 0 ∧ num_channels (sensor_at w s0) = 0%nat
    ∧ (∀ s', (s' < s0)%nat →
             enable_count (sensor_at w s') = 0 ∨ num_channels (sensor_at w s') ≠ 0%nat)
    ∧ (∀ s', sensor_at w6 s'
             = if decide ((s' < sensor_count w)%nat
                          ∧ enable_count (sensor_at w s') ≠ 0
                          ∧ num_channels (sensor_at w s') = 0%nat)
               then set_report_pending 1 (sensor_at w s') else sensor_at w s')
    ∧ r.1 = Some (1, (propagate_sensor_report K s0 w6).1)
    ∧ report_pending (sensor_at r.2 s0) = 0
    ∧ ∀ s', (s' < sensor_count w)%nat → s' ≠ s0 →
            report_pending (sensor_at r.2 s')
            = if decide (enable_count (sensor_at w s') ≠ 0
                         ∧ num_channels (sensor_at w s') = 0%nat)
              then 1 else 0.
Proof.
  intros Hnone Hcount Haps Hs Hen Hpm Hwait r.
  assert (Hr : r = await_event K (S fuel) w).
  { subst r. unfold sensor_poll. cbv beta iota zeta delta [mbind M_bind bind gets].
    rewrite return_first_none; [reflexivity |].
    apply Forall_forall. intros s' Hin. apply elem_of_seq in Hin. apply Hnone. lia. }
  destruct (timeout_round w fuel Hwait) as (w5 & Hinfo & Hcnt & Hact & Hrun).
  destruct (invalidate_run w5) as (l' & Hinv & Hlen & Hl'); [by rewrite Hact |].
  rewrite Hinv in Hrun. cbn [snd] in Hrun. cbv zeta in Hrun.
  set (w6 := set_sensor_info l' w5) in *.
  assert (Hsame : ∀ s', sensor_at w5 s' = sensor_at w s')
    by (intros s'; unfold sensor_at; by rewrite Hinfo).
  assert (Hat : ∀ s', sensor_at w6 s'
             = if decide ((s' < sensor_count w)%nat
                          ∧ enable_count (sensor_at w s') ≠ 0
                          ∧ num_channels (sensor_at w s') = 0%nat)
               then set_report_pending 1 (sensor_at w s') else sensor_at w s').
  { intros s'. change (sensor_at w6 s') with (default sensor_zero (l' !! s')).
    rewrite Hl', Hsame, Hcnt, Hinfo.
    destruct (decide ((s' < sensor_count w)%nat ∧ (s' < length (sensor_info w))%nat ∧ _))
      as [(H1 & H2 & H3 & H4) | Hn].
    - by rewrite decide_True.
    - rewrite decide_False; [done |]. intros (H1 & H2 & H3). apply Hn.
      repeat split; [done | lia | done | done]. }
  assert (Hpend : ∀ s', (s' < sensor_count w)%nat →
            report_pending (sensor_at w6 s')
            = if decide (enable_count (sensor_at w s') ≠ 0
                         ∧ num_channels (sensor_at w s') = 0%nat)
              then 1 else 0).
  { intros s' Hs'. rewrite Hat.
    destruct (decide (enable_count (sensor_at w s') ≠ 0 ∧ _)) as [[H1 H2] | Hn].
    - by rewrite decide_True.
    - rewrite decide_False; [by apply Hnone |]. intros (_ & H1 & H2). by apply Hn. }
  assert (Hc6 : sensor_count w6 = sensor_count w) by (subst w6; exact Hcnt).
  destruct (least_pending w6 (sensor_count w)) as [(s0 & H1 & H2 & H3) | Hno].
  2: { specialize (Hno s Hs). rewrite (Hpend s Hs), decide_True in Hno; done. }
  assert (Hs0 : enable_count (sensor_at w s0) ≠ 0 ∧ num_channels (sensor_at w s0) = 0%nat).
  { rewrite (Hpend s0 H1) in H2. destruct (decide _) as [H | _]; done. }
  assert (Hsplit : seq 0 (sensor_count w6) = seq 0 s0 ++ s0 :: seq (S s0) (sensor_count w - S s0)).
  { rewrite Hc6. replace (sensor_count w) with (s0 + S (sensor_count w - S s0))%nat at 1 by lia.
    rewrite seq_app. reflexivity. }
  rewrite Hsplit, return_first_spec in Hrun; [| | exact H2].
  2: { apply Forall_forall. intros s' Hin. apply elem_of_seq in Hin. apply H3. lia. }
  cbn [fst snd] in Hrun.
  exists s0, w6.
  split. { destruct (decide (s0 ≤ s)%nat) as [| Hgt]; [done |].
           specialize (H3 s ltac:(lia)). rewrite (Hpend s Hs), decide_True in H3; done. }
  split; [apply Hs0 |]. split; [apply Hs0 |].
  split. { intros s' Hlt. specialize (H3 s' Hlt). rewrite Hpend in H3 by lia.
           destruct (decide (enable_count (sensor_at w s') = 0)) as [| Hne]; [by left |].
           right. intros Hz. rewrite decide_True in H3; done. }
  split; [exact Hat |].
  rewrite Hr, Hrun. cbn [fst snd]. split; [reflexivity |].
  destruct (propagate_effect K s0 w6) as (ts & evs & -> & _).
  unfold update_sensor, modify. cbn [snd].
  assert (Hlt : (s0 < length (sensor_info w6))%nat).
  { change (sensor_info w6) with l'. rewrite Hlen, Hinfo. lia. }
  split.
  - unfold sensor_at at 1. cbn [sensor_info set_sensor_info set_trace].
    rewrite list_lookup_insert_eq; [reflexivity |]. by rewrite length_insert.
  - intros s' Hs' Hne. unfold sensor_at at 1. cbn [sensor_info set_sensor_info set_trace].
    rewrite !list_lookup_insert_ne by done. by apply Hpend.
Qed.

(** ** Negative delays *)

Lemma negative_delay_rate (ns : Z) :
  ns < 0 →
  let rate := if wrap_int (Z.quot 1000000000 ns) =? 0 then 1
              else wrap_int (Z.quot 1000000000 ns) in
  rate = (if ns <? -1000000000 then 1 else - (1000000000 / - ns))
  ∧ (-1000000000 ≤ ns → -1000000000 ≤ rate ≤ -1).
Proof.
  intros Hns rate. subst rate.
  assert (Hquot : Z.quot 1000000000 ns = - (1000000000 / - ns)).
  { replace ns with (- - ns) at 1 by lia.
    rewrite Z.quot_opp_r by lia. by rewrite Z.quot_div_nonneg by lia. }
  assert (Hq : 0 ≤ 1000000000 / - ns ≤ 1000000000).
  { split; [apply Z.div_pos; lia |]. apply Z.div_le_upper_bound; nia. }
  rewrite Hquot, wrap_int_small by (unfold INT_MIN, INT_MAX; lia).
  destruct (ns <? -1000000000) eqn:E.
  - apply Z.ltb_lt in E. rewrite Z.div_small by lia. cbn. split; [reflexivity | lia].
  - apply Z.ltb_ge in E.
    assert (1 ≤ 1000000000 / - ns) by (apply Z.div_le_lower_bound; lia).
    replace (- (1000000000 / - ns) =? 0) with false by (symmetry; apply Z.eqb_neq; lia).
    split; [reflexivity | lia].
Qed.

(** A negative delay is not rejected: the call returns 0, and for a
    delay between -1 s and -1 ns the sampling rate it stores, and writes
    to the sampling attribute when the attribute reads a different value,
    is the negative number [- (10^9 / - ns)]; below -1 s the rate is 1. *)
Theorem sensor_set_delay_accepts_negative (w : world) (s : nat) (ns : Z) :
  (s < length (sensor_info w))%nat → ns < 0 →
  let r := sensor_set_delay K s ns w in
  let si := sensor_at w s in
  let attr := SENSOR_SAMPLING_PATH (dev_num si) (tag (sensor_catalog (catalog_index si))) in
  let rate := sampling_rate (sensor_at r.2 s) in
  r.1 = 0
  ∧ rate = (if ns <? -1000000000 then 1 else - (1000000000 / - ns))
  ∧ (-1000000000 ≤ ns → -1000000000 ≤ rate ≤ -1)
  ∧ (∀ c, k_sysfs_read_int K (length (trace w)) attr = Some c → c ≠ rate →
          SysfsWriteInt attr rate ∈ emitted w r.2).
Proof.
  intros Hs Hns r si attr rate.
  assert (Hne : ns ≠ 0) by lia.
  pose proof (sensor_set_delay_run w s ns Hne) as Hrun. cbv zeta in Hrun.
  fold si attr in Hrun.
  destruct (negative_delay_rate ns Hns) as [Hrate Hneg].
  set (rate0 := if wrap_int (Z.quot 1000000000 ns) =? 0 then 1
                else wrap_int (Z.quot 1000000000 ns)) in *.
  assert (Hst : rate = rate0).
  { subst rate r. rewrite Hrun. cbn [snd]. unfold sensor_at at 1.
    cbn [sensor_info set_sensor_info set_trace].
    by rewrite list_lookup_insert_eq. }
  split; [subst r; by rewrite Hrun |].
  split; [by rewrite Hst |]. split; [by rewrite Hst |].
  intros c Hc Hdiff. rewrite Hst in *. subst r. rewrite Hrun. cbn [snd].
  unfold emitted. cbn [trace set_trace]. rewrite drop_app_length.
  rewrite Hc. replace (rate0 =? c) with false by (symmetry; apply Z.eqb_neq; congruence).
  apply list_elem_of_further.
  destruct (arr_get (trig_sensors_per_dev w) (dev_num si) =? 0).
  - apply list_elem_of_here.
  - apply list_elem_of_further, list_elem_of_here.
Qed.

(** ** The interval between waits *)

Lemma emits_only_ret {A} ok (a : A) : emits_only ok (ret a).
Proof. intros w. exists []. cbn. by rewrite app_nil_r. Qed.

Lemma emits_only_gets {A} ok (f : world → A) : emits_only ok (gets f).
Proof. intros w. exists []. cbn. by rewrite app_nil_r. Qed.

Lemma emits_only_emit (ok : event → bool) e : ok e = true → emits_only ok (emit e).
Proof. intros He w. exists [e]. cbn. repeat split. by constructor. Qed.

Lemma emits_only_update_sensor ok s f : emits_only ok (update_sensor s f).
Proof. intros w. exists []. cbn. by rewrite app_nil_r. Qed.

Lemma emits_only_bind {A B} ok (m : M A) (f : A → M B) :
  emits_only ok m → (∀ a, emits_only ok (f a)) → emits_only ok (bind f m).
Proof.
  intros Hm Hf w. unfold bind.
  destruct (Hm w) as (e1 & H1 & F1 & L1). destruct (m w) as [a w1]. cbn in H1, L1.
  destruct (Hf a w1) as (e2 & H2 & F2 & L2). exists (e1 ++ e2).
  rewrite H2, H1, app_assoc, L2, L1. split; [done |]. split; [| done].
  by apply Forall_app.
Qed.

Lemma emits_only_for_each {A} ok (l : list A) (body : A → M unit) :
  (∀ x, emits_only ok (body x)) → emits_only ok (for_each l body).
Proof.
  intros Hb. induction l as [| x l IH]; cbn [for_each]; [apply emits_only_ret |].
  apply emits_only_bind; [apply Hb | intros _; exact IH].
Qed.

Lemma emits_only_weaken {A} (ok ok' : event → bool) (m : M A) :
  (∀ e, ok e = true → ok' e = true) → emits_only ok m → emits_only ok' m.
Proof.
  intros Himp Hm w. destruct (Hm w) as (evs & H1 & H2 & H3).
  exists evs. split; [done |]. split; [| done].
  eapply Forall_impl; [exact H2 | exact Himp].
Qed.

Ltac emits_tac :=
  repeat first
    [ apply emits_only_ret
    | apply emits_only_gets
    | (apply emits_only_emit; reflexivity)
    | apply emits_only_update_sensor
    | match goal with
      | |- ∀ _, emits_only _ _ => intro
      | |- emits_only _ (match ?x with _ => _ end) => destruct x
      | |- emits_only _ (let '(_, _) := ?x in _) => destruct x
      end
    | apply emits_only_bind ].

Lemma emits_only_integrate d :
  emits_only is_dispatch_event (integrate_device_report K d).
Proof.
  unfold integrate_device_report, ALOGE, sys_read_report, tick.
  apply emits_only_bind; [apply emits_only_gets |]. intros trigs.
  destruct (_ || _ || _); [emits_tac |].
  apply emits_only_bind; [apply emits_only_gets |]. intros sz.
  apply emits_only_bind; [apply emits_only_gets |]. intros fd.
  apply emits_only_bind; [emits_tac |]. intros [bytes |]; [| emits_tac].
  apply emits_only_bind; [| emits_tac].
  apply emits_only_for_each. intros s. emits_tac.
Qed.

Lemma emits_only_dispatch evs : emits_only is_dispatch_event (dispatch_events K evs).
Proof.
  induction evs as [| e evs IH]; cbn [dispatch_events]; [apply emits_only_ret |].
  destruct (_ =? EPOLLIN); [| exact IH].
  destruct (_ =? INVALID_DEV_NUM).
  - unfold acknowledge_release. emits_tac.
  - apply emits_only_bind; [apply emits_only_integrate | intros _; exact IH].
Qed.

Lemma emits_only_invalidate : emits_only (λ _, false) invalidate_poll_sensors.
Proof.
  unfold invalidate_poll_sensors.
  apply emits_only_bind; [apply emits_only_gets |]. intros aps.
  destruct (_ =? 0); [apply emits_only_ret |].
  apply emits_only_bind; [apply emits_only_gets |]. intros n.
  apply emits_only_for_each. intros s. emits_tac.
Qed.

Lemma emits_only_acquire_fields s cs e :
  emits_only (λ e, negb (is_wait_event e)) (acquire_fields K s cs e).
Proof.
  revert e. induction cs as [| c cs IH]; intros e; cbn [acquire_fields].
  - apply emits_only_ret.
  - apply emits_only_bind; [unfold acquire_immediate_value, tick; emits_tac |].
    intros v. apply IH.
Qed.

Lemma emits_only_propagate s :
  emits_only (λ e, negb (is_wait_event e)) (propagate_sensor_report K s).
Proof.
  unfold propagate_sensor_report, ALOGE, get_timestamp, tick.
  apply emits_only_bind; [apply emits_only_gets |]. intros si.
  apply emits_only_bind; [emits_tac |]. intros ts.
  apply emits_only_bind; [emits_tac |]. intros nf.
  apply emits_only_bind; [emits_tac |]. intros ts'.
  apply emits_only_bind; [apply emits_only_update_sensor |]. intros _.
  destruct (decide _).
  - apply emits_only_bind; [apply emits_only_acquire_fields |]. emits_tac.
  - emits_tac.
Qed.

Lemma emits_only_return_first ss :
  emits_only (λ e, negb (is_wait_event e)) (return_first_available_sensor_report K ss).
Proof.
  induction ss as [| s ss IH]; cbn [return_first_available_sensor_report].
  - apply emits_only_ret.
  - apply emits_only_bind; [apply emits_only_gets |]. intros si.
    destruct (_ =? 0); [exact IH |].
    apply emits_only_bind; [apply emits_only_propagate |]. emits_tac.
Qed.


Lemma get_poll_time_clock w :
  ∃ pre, (get_poll_time K w).2 = set_trace (trace w ++ pre) w
         ∧ (pre = [] ∨ ∃ t, pre = [GetTimestamp t]).
Proof.
  unfold get_poll_time.
  cbv beta iota zeta delta [mbind M_bind bind get_timestamp tick emit gets modify
                              mret M_ret ret].
  destruct (_ =? 0).
  { exists []. split; [| by left]. rewrite app_nil_r.
    by destruct w as [sinfo scount polls trigs fds pfd pair last aps pset tr]. }
  destruct (_ =? INT64_MAX).
  { exists []. split; [| by left]. rewrite app_nil_r.
    by destruct w as [sinfo scount polls trigs fds pfd pair last aps pset tr]. }
  eexists [_]. split; [destruct (_ <=? _); reflexivity | right; by eexists].
Qed.

Lemma return_first_none_state ss w :
  (return_first_available_sensor_report K ss w).1 = None →
  (return_first_available_sensor_report K ss w).2 = w.
Proof.
  induction ss as [| s ss IH]; cbn [return_first_available_sensor_report]; [done |].
  cbv beta iota zeta delta [mbind M_bind bind gets modify mret M_ret ret].
  destruct (_ =? 0); [exact IH |].
  destruct (propagate_sensor_report K s w) as [e w1]. discriminate.
Qed.

Lemma dispatch_event_no_wait e : is_dispatch_event e = true → is_wait_event e = false.
Proof. by destruct e. Qed.

Lemma poll_rounds_prefix mid last evs last' :
  Forall (λ e, is_dispatch_event e = true) mid →
  poll_rounds last evs last' → poll_rounds last (mid ++ evs) last'.
Proof.
  intros Hmid Hr. destruct Hr as [last evs Hevs | last now timeout ts last' r mid' pre rest delta Hmid' Hpre Hrest].
  - apply rounds_end. apply Forall_app. split; [| done].
    eapply Forall_impl; [exact Hmid | exact dispatch_event_no_wait].
  - rewrite app_assoc. apply rounds_wait; [by apply Forall_app | done | done].
Qed.

(** The events of the wait loop are rounds. *)
Lemma await_event_rounds fuel : ∀ w,
  ∃ evs, trace (await_event K fuel w).2 = trace w ++ evs
         ∧ poll_rounds (last_poll_exit_ts w) evs
             (last_poll_exit_ts (await_event K fuel w).2).
Proof.
  induction fuel as [| fuel IH]; intros w.
  { exists []. cbn. split; [by rewrite app_nil_r |]. by apply rounds_end. }
  cbn [await_event]. cbv beta iota zeta delta [mbind M_bind bind].
  rewrite keep_min_interval_eq. cbv zeta.
  set (now := k_get_timestamp K (length (trace w))).
  set (delta := wrap_int (Z.quot (wrap_int64 (now - last_poll_exit_ts w)) 1000)).
  set (sleep := if (delta >? 0) && (delta <? POLL_MIN_INTERVAL)
                then [Usleep (POLL_MIN_INTERVAL - delta)] else []).
  set (w1 := set_trace (trace w ++ GetTimestamp now :: sleep) w).
  destruct (get_poll_time_clock w1) as (pre & Hw2 & Hpre).
  destruct (get_poll_time K w1) as [timeout w2]. cbn [snd] in Hw2.
  unfold epoll_wait, get_timestamp, tick, emit.
  cbv beta iota zeta delta [mbind M_bind bind gets modify mret M_ret ret].
  set (r := take MAX_DEVICES <$> k_epoll_wait K (length (trace w2))).
  cbn [trace set_trace].
  set (ts := k_get_timestamp K (length (trace w2 ++ [EpollWait timeout r]))).
  match goal with
  | |- context [set_last_poll_exit_ts ts ?x] => set (w5 := set_last_poll_exit_ts ts x)
  end.
  assert (Ht5 : trace w5 = trace w ++ GetTimestamp now :: sleep ++ pre
                             ++ EpollWait timeout r :: GetTimestamp ts :: []).
  { subst w5. cbn [trace set_last_poll_exit_ts set_trace]. rewrite Hw2. subst w1.
    cbn [trace set_trace]. rewrite <- !app_assoc. reflexivity. }
  assert (Hl5 : last_poll_exit_ts w5 = ts) by reflexivity.
  assert (Hround : ∀ wf rest,
            trace wf = trace w5 ++ rest →
            poll_rounds ts rest (last_poll_exit_ts wf) →
            ∃ evs, trace wf = trace w ++ evs
                   ∧ poll_rounds (last_poll_exit_ts w) evs (last_poll_exit_ts wf)).
  { intros wf rest Htr Hrest. eexists. split.
    - rewrite Htr, Ht5, <- app_assoc. reflexivity.
    - cbn [app]. rewrite <- !app_assoc. cbn [app].
      apply (rounds_wait (last_poll_exit_ts w) now timeout ts _ r [] pre rest);
        [constructor | exact Hpre | exact Hrest]. }
  clearbody w5. clear Hw2.
  destruct r as [es |].
  2:{ destruct (IH w5) as (rest & Htr & Hrest). rewrite Hl5 in Hrest.
      by apply (Hround _ rest). }
  destruct (emits_only_dispatch es w5) as (mid & Ht6 & Hmid & Hl6).
  destruct (dispatch_events K es w5) as [again w6]. cbn [snd] in Ht6, Hl6.
  destruct again.
  { destruct (IH w6) as (rest & Htr & Hrest). rewrite Hl6, Hl5 in Hrest.
    apply (Hround _ (mid ++ rest)).
    - by rewrite Htr, Ht6, app_assoc.
    - by apply poll_rounds_prefix. }
  destruct (emits_only_invalidate w6) as (none & Ht7 & Hnone & Hl7).
  destruct (invalidate_poll_sensors w6) as [[] w7]. cbn [snd] in Ht7, Hl7.
  assert (none = []) as -> by (destruct none as [| e x]; [done | by inversion Hnone]).
  rewrite app_nil_r in Ht7.
  destruct (emits_only_return_first (seq 0 (sensor_count w7)) w7) as (out & Ht8 & Hout & Hl8).
  pose proof (return_first_none_state (seq 0 (sensor_count w7)) w7) as Hsame.
  destruct (return_first_available_sensor_report K (seq 0 (sensor_count w7)) w7)
    as [[e |] w8]; cbn [fst snd] in *.
  - apply (Hround _ (mid ++ out)).
    + by rewrite Ht8, Ht7, Ht6, app_assoc.
    + rewrite Hl8, Hl7, Hl6, Hl5. apply rounds_end. apply Forall_app. split.
      * eapply Forall_impl; [exact Hmid | exact dispatch_event_no_wait].
      * eapply Forall_impl; [exact Hout |]. intros x Hx. by apply negb_true_iff.
  - rewrite Hsame by done.
    destruct (IH w7) as (rest & Htr & Hrest). rewrite Hl7, Hl6, Hl5 in Hrest.
    apply (Hround _ (mid ++ rest)).
    + by rewrite Htr, Ht7, Ht6, app_assoc.
    + by apply poll_rounds_prefix.
Qed.

(** Every wait of [sensor_poll] is preceded by the interval check: the
    events of a call are rounds of the wait loop, each of which reads the
    clock, sleeps [POLL_MIN_INTERVAL - delta] microseconds exactly when
    [0 < delta < POLL_MIN_INTERVAL] for [delta = (int) ((now - last) / 1000)]
    and [last] the clock as read after the previous wait (of this call or
    of an earlier one), and only then waits; nothing else in the call
    sleeps or waits. *)
Theorem min_interval_checked_before_every_wait (w : world) (fuel : nat) (count : Z) :
  let w' := (sensor_poll K fuel count w).2 in
  poll_rounds (last_poll_exit_ts w) (emitted w w') (last_poll_exit_ts w').
Proof.
  intros w'. subst w'. unfold sensor_poll.
  cbv beta iota zeta delta [mbind M_bind bind gets mret M_ret ret].
  destruct (emits_only_return_first (seq 0 (sensor_count w)) w) as (out & Ht & Hout & Hl).
  pose proof (return_first_none_state (seq 0 (sensor_count w)) w) as Hsame.
  destruct (return_first_available_sensor_report K (seq 0 (sensor_count w)) w)
    as [[e |] w1]; cbn [fst snd] in *.
  - unfold emitted. rewrite Ht, drop_app_length, Hl. apply rounds_end.
    eapply Forall_impl; [exact Hout |]. intros x Hx. by apply negb_true_iff.
  - rewrite Hsame by done.
    destruct (await_event_rounds fuel w) as (evs & Htr & Hr).
    unfold emitted. by rewrite Htr, drop_app_length.
Qed.

Lemma wrap_int_window (q : Z) :
  let m := q mod 2 ^ 32 in
  (0 < wrap_int q < POLL_MIN_INTERVAL ↔ 1 ≤ m < POLL_MIN_INTERVAL)
  ∧ (1 ≤ m < POLL_MIN_INTERVAL → wrap_int q = m).
Proof.
  unfold wrap_int, POLL_MIN_INTERVAL. cbv zeta.
  change (2 ^ 32) with 4294967296. change (2 ^ 31) with 2147483648.
  Z.div_mod_to_equations. lia.
Qed.

(** The sleep of the interval check, exactly.  With [elapsed] the clock
    minus [last_poll_exit_ts] (an int64), the check sleeps
    [POLL_MIN_INTERVAL - m] microseconds when [m], the whole microseconds
    of [elapsed] reduced modulo 2^32 by the conversion to int, lies between
    1 and [POLL_MIN_INTERVAL - 1], and does not sleep otherwise.  So between
    1 us and 10 ms the sleep completes the 10 ms; below 1 us, a clock that
    went back included, and from 10 ms up to 2^32 us there is no sleep;
    beyond that the rule repeats. *)
Theorem keep_min_interval_sleeps (w : world) :
  let now := k_get_timestamp K (length (trace w)) in
  let elapsed := now - last_poll_exit_ts w in
  ∃ sleep,
    keep_min_interval K w = (tt, set_trace (trace w ++ GetTimestamp now :: sleep) w)
    ∧ (- 2 ^ 63 ≤ elapsed < 2 ^ 63 →
       let m := (Z.quot elapsed 1000) mod 2 ^ 32 in
       sleep = if (1 <=? m) && (m <? POLL_MIN_INTERVAL)
               then [Usleep (POLL_MIN_INTERVAL - m)] else [])
    ∧ (1000 ≤ elapsed < 1000 * POLL_MIN_INTERVAL →
       sleep = [Usleep (POLL_MIN_INTERVAL - elapsed / 1000)]
       ∧ 1000 * POLL_MIN_INTERVAL
           ≤ elapsed + 1000 * (POLL_MIN_INTERVAL - elapsed / 1000)
           < 1000 * POLL_MIN_INTERVAL + 1000)
    ∧ (- 1000 * (2 ^ 32 - POLL_MIN_INTERVAL) < elapsed < 1000 → sleep = [])
    ∧ (1000 * POLL_MIN_INTERVAL ≤ elapsed < 1000 * 2 ^ 32 → sleep = []).
Proof.
  intros now elapsed. rewrite keep_min_interval_eq. cbv zeta. fold now elapsed.
  set (delta := wrap_int (Z.quot (wrap_int64 elapsed) 1000)).
  eexists. split; [reflexivity |].
  assert (Hrule : - 2 ^ 63 ≤ elapsed < 2 ^ 63 →
            let m := (Z.quot elapsed 1000) mod 2 ^ 32 in
            (if (delta >? 0) && (delta <? POLL_MIN_INTERVAL)
             then [Usleep (POLL_MIN_INTERVAL - delta)] else [])
            = if (1 <=? m) && (m <? POLL_MIN_INTERVAL)
              then [Usleep (POLL_MIN_INTERVAL - m)] else []).
  { intros Hr m.
    assert (Hw : wrap_int64 elapsed = elapsed).
    { unfold wrap_int64. rewrite Z.mod_small; lia. }
    subst delta. rewrite Hw.
    destruct (wrap_int_window (Z.quot elapsed 1000)) as [Hiff Heq].
    cbv zeta in Hiff, Heq. fold m in Hiff, Heq.
    destruct ((1 <=? m) && (m <? POLL_MIN_INTERVAL)) eqn:E.
    - apply andb_true_iff in E as [E1 E2]. apply Z.leb_le in E1. apply Z.ltb_lt in E2.
      rewrite Heq by lia.
      replace ((m >? 0) && (m <? POLL_MIN_INTERVAL)) with true; [reflexivity |].
      symmetry. apply andb_true_iff. split; [apply Z.gtb_lt | apply Z.ltb_lt]; lia.
    - replace ((_ >? 0) && (_ <? POLL_MIN_INTERVAL)) with false; [reflexivity |].
      symmetry. apply andb_false_iff.
      apply andb_false_iff in E.
      destruct (Z.gtb_spec (wrap_int (Z.quot elapsed 1000)) 0) as [Hp | Hn]; [| by left].
      right. apply Z.ltb_ge.
      destruct (Z.lt_ge_cases (wrap_int (Z.quot elapsed 1000)) POLL_MIN_INTERVAL)
        as [Hlt | Hge]; [| done].
      exfalso. destruct Hiff as [Hiff _]. specialize (Hiff ltac:(lia)).
      destruct E as [E | E]; [apply Z.leb_gt in E | apply Z.ltb_ge in E]; lia. }
  split; [exact Hrule |].
  unfold POLL_MIN_INTERVAL in *.
  change (2 ^ 32) with 4294967296 in *. change (2 ^ 63) with 9223372036854775808 in *.
  split; [| split].
  - intros He. rewrite Hrule by lia. cbv zeta.
    rewrite Z.quot_div_nonneg by lia.
    assert (1 ≤ elapsed / 1000 < 10000).
    { split; [apply Z.div_le_lower_bound; lia | apply Z.div_lt_upper_bound; lia]. }
    rewrite Z.mod_small by lia.
    pose proof (Z.mul_div_le elapsed 1000 ltac:(lia)).
    pose proof (Z.mul_succ_div_gt elapsed 1000 ltac:(lia)).
    replace ((1 <=? elapsed / 1000) && (elapsed / 1000 <? 10000)) with true.
    2:{ symmetry. apply andb_true_iff. split; [apply Z.leb_le | apply Z.ltb_lt]; lia. }
    split; [reflexivity | lia].
  - intros He. rewrite Hrule by lia. cbv zeta.
    replace ((1 <=? _) && (_ <? 10000)) with false; [reflexivity |].
    symmetry. apply andb_false_iff.
    assert (Hq : -4294957296 ≤ Z.quot elapsed 1000 ≤ 0).
    { destruct (Z.le_gt_cases 0 elapsed).
      - rewrite Z.quot_small by lia. lia.
      - replace elapsed with (- - elapsed) by lia. rewrite Z.quot_opp_l by lia.
        rewrite Z.quot_div_nonneg by lia.
        assert (0 ≤ - elapsed / 1000) by (apply Z.div_pos; lia).
        assert (- elapsed / 1000 ≤ 4294957296) by (apply Z.div_le_upper_bound; lia).
        lia. }
    set (q := Z.quot elapsed 1000) in *.
    destruct (Z.leb_spec 1 (q mod 4294967296)) as [H1 | H1]; [right | by left].
    apply Z.ltb_ge. clearbody q. Z.div_mod_to_equations. lia.
  - intros He. rewrite Hrule by lia. cbv zeta.
    rewrite Z.quot_div_nonneg by lia.
    assert (10000 ≤ elapsed / 1000 < 4294967296).
    { split; [apply Z.div_le_lower_bound; lia | apply Z.div_lt_upper_bound; lia]. }
    rewrite Z.mod_small by lia.
    replace ((1 <=? _) && (_ <? 10000)) with false; [reflexivity |].
    symmetry. apply andb_false_iff. right. apply Z.ltb_ge. lia.
Qed.

(** ** Registration with the waiter *)

(** [sensor_activate] registers a descriptor only in the call that opens
    it: an enable that finds the device's descriptor already open returns
    0 and leaves the descriptor table and the interest list as they are,
    so the device is watched after the call exactly if it was before,
    although for the first enable of a trigger-mode sensor the device's
    trigger count has gone up by one.  The call makes no [open] and no
    EPOLL_CTL_ADD. *)
Theorem enable_on_open_descriptor_never_registers (w : world) (s : nat) (enabled : Z) :
  (s < length (sensor_info w))%nat → enabled ≠ 0 →
  let si := sensor_at w s in
  let d := dev_num si in
  let r := (sensor_activate K s enabled w).1 in
  let w' := (sensor_activate K s enabled w).2 in
  arr_get (device_fd w) d ≠ -1 →
  r = 0
  ∧ device_fd w' = device_fd w ∧ poll_set w' = poll_set w
  ∧ (registered w' d ↔ registered w d)
  ∧ (enable_count si = 0 → num_channels si ≠ 0%nat →
     trig_sensors_per_dev w' = adjust_at (trig_sensors_per_dev w) d 1)
  ∧ Forall (λ e, is_sysfs_event e || is_layout_event e = true
                 ∨ e = WriteByte (poll_socket_pair w).2) (emitted w w').
Proof.
  intros Hs Hen si d r w' Hfd.
  destruct (sensor_activate_refines K w s enabled Hs)
    as (open_r & add_ok & cfg & Hr & Hctl & Htr & Hcfg & _ & _ & _).
  fold si r w' in Hr, Hctl, Htr, Hcfg.
  assert (Hkind : Forall (λ e, is_sysfs_event e || is_layout_event e = true) cfg).
  { destruct (_ && _); [by eapply configure_events_kind | subst cfg; constructor]. }
  pose proof (f_equal c_trigs Hctl) as Etrigs.
  pose proof (f_equal c_fds Hctl) as Hfds.
  pose proof (f_equal c_pset Hctl) as Hpset.
  cbn [ctl_of c_trigs c_fds c_pset] in Etrigs, Hfds, Hpset.
  unfold emitted. rewrite Htr, drop_app_length. clear Htr Hctl.
  unfold activate_ctl in *. fold d in Hr, Etrigs, Hfds, Hpset |- *.
  replace (enabled =? 0) with false in * by (symmetry; by apply Z.eqb_neq).
  cbn [ctl_of c_enable_count] in *. fold si in Hr, Etrigs, Hfds, Hpset |- *.
  destruct (negb (wrap_int (enable_count si + 1) =? 1)) eqn:Eedge.
  - cbn [fst snd with_enable_count c_trigs c_fds c_pset] in *.
    split; [exact Hr |]. split; [exact Hfds |]. split; [exact Hpset |].
    split; [unfold registered; by rewrite Hfds, Hpset |].
    split.
    + intros Hz. rewrite Hz in Eedge. discriminate Eedge.
    + rewrite app_nil_r. eapply Forall_impl; [exact Hkind |]. intros e He. by left.
  - rewrite edge_ctl_fds in *. cbn [ctl_of c_fds] in *.
    replace (arr_get (device_fd w) d =? -1) with false in *
      by (symmetry; by apply Z.eqb_neq).
    cbn [fst snd] in *. rewrite edge_ctl_fds in Hfds. rewrite edge_ctl_pset in Hpset.
    cbn [ctl_of c_fds c_pset] in *.
    split; [exact Hr |]. split; [exact Hfds |]. split; [exact Hpset |].
    split; [unfold registered; by rewrite Hfds, Hpset |].
    split.
    + intros _ Hnc. rewrite Etrigs. unfold edge_ctl. rewrite decide_True by done.
      reflexivity.
    + apply Forall_app. split.
      * eapply Forall_impl; [exact Hkind |]. intros e He. by left.
      * constructor; [by right | constructor].
Qed.

End Extended.

(** * Properties of utils.c *)

Section UtilsProperties.

Import Utils.
Context {F : Type} {L : Libc F}.
Variable O : os.

Ltac urun :=
  cbv beta iota zeta delta [mbind mret U_bind U_ret sys_open sys_read sys_write sys_close
                              clock_gettime sys_emit sys_tick Utils.ALOGW Utils.ALOGE].

Lemma sysfs_read_run path b buf_len tr :
  let fd := os_open O (length tr) path O_RDONLY in
  let data := take (Z.to_nat buf_len)
                <$> os_read O (S (length tr)) fd buf_len in
  sysfs_read O path (Some b) buf_len tr =
    if bool_decide (path = "") || (buf_len <? 1) then ((-1, Some b), tr)
    else if fd =? -1 then ((-1, Some b), tr ++ [SysOpen path O_RDONLY fd])
    else match data with
         | None =>
           ((-1, Some b),
            tr ++ [SysOpen path O_RDONLY fd; SysRead fd buf_len None; SysClose fd;
                   SysLog LOG_WARN "Cannot read from"])
         | Some bytes =>
           ((Z.of_nat (length bytes), Some (bytes ++ drop (length bytes) b)),
            tr ++ [SysOpen path O_RDONLY fd; SysRead fd buf_len (Some bytes); SysClose fd])
         end.
Proof.
  intros fd data. unfold sysfs_read.
  destruct (_ || _); [reflexivity |]. urun. fold fd.
  destruct (fd =? -1); [reflexivity |].
  rewrite length_app. cbn [length]. rewrite Nat.add_1_r. fold data.
  destruct data as [bytes |]; by rewrite <- !app_assoc.
Qed.

Lemma sysfs_write_run path b buf_len tr :
  let fd := os_open O (length tr) path O_WRONLY in
  let bytes := take (Z.to_nat buf_len) b in
  let len := os_write O (S (length tr)) fd bytes in
  sysfs_write O path (Some b) buf_len tr =
    if bool_decide (path = "") || (buf_len <? 1) then (-1, tr)
    else if fd =? -1 then (-1, tr ++ [SysOpen path O_WRONLY fd])
    else (len, tr ++ [SysOpen path O_WRONLY fd; SysWrite fd bytes len; SysClose fd]
                 ++ (if len =? -1 then [SysLog LOG_WARN "Cannot write to"]
                     else if negb (len =? buf_len)
                          then [SysLog LOG_WARN "Cannot write bytes to"] else [])).
Proof.
  intros fd bytes len. unfold sysfs_write.
  destruct (_ || _); [reflexivity |]. urun. fold fd.
  destruct (fd =? -1); [reflexivity |].
  rewrite length_app. cbn [length]. rewrite Nat.add_1_r. fold bytes. fold len.
  destruct (len =? -1); [by rewrite <- !app_assoc |].
  destruct (negb (len =? buf_len)); rewrite <- ?app_assoc; cbn [app]; try done.
Qed.

Lemma sysfs_write_int_run path value tr :
  let buf := bytes_of_string (pretty value) in
  let len := Z.of_nat (length buf) in
  let fd := os_open O (length tr) path O_WRONLY in
  let r := os_write O (S (length tr)) fd buf in
  sysfs_write_int O path value tr =
    if bool_decide (path = "") || (len <=? 0)
    then (-1, tr ++ [SysLog LOG_ERROR "Unexpected condition in sysfs_write_int"])
    else if fd =? -1 then (-1, tr ++ [SysOpen path O_WRONLY fd])
    else (r, tr ++ [SysOpen path O_WRONLY fd; SysWrite fd buf r]
               ++ (if negb (r =? len) then [SysLog LOG_WARN "Cannot write"] else [])
               ++ [SysClose fd]).
Proof.
  intros buf len fd r. unfold sysfs_write_int. fold buf. fold len.
  destruct (_ || _); [reflexivity |]. urun. fold fd.
  destruct (fd =? -1); [reflexivity |].
  rewrite length_app. cbn [length]. rewrite Nat.add_1_r. fold r.
  destruct (negb (r =? len)); rewrite <- ?app_assoc; cbn [app]; try done.
Qed.

(** The read of [sysfs_read_str] and what becomes of the buffer. *)
Lemma sysfs_read_str_run path b buf_len tr :
  let r := sysfs_read O path (Some b) buf_len tr in
  sysfs_read_str O path (Some b) buf_len tr =
    if buf_len <? 1 then ((-1, Some b), tr)
    else if r.1.1 =? -1
         then ((-1, r.1.2), r.2 ++ [SysLog LOG_WARN "Cannot read string from"])
         else ((r.1.1,
                (λ b', <[Z.to_nat (if r.1.1 =? 0 then 0 else r.1.1 - 1) := 0]> b') <$> r.1.2),
               r.2).
Proof.
  intros r. unfold sysfs_read_str.
  destruct (buf_len <? 1); [reflexivity |]. urun. fold r.
  destruct r as [[len b'] tr']. cbn [fst snd].
  by destruct (len =? -1).
Qed.

Lemma sysfs_read_num_run {A} path (str2num : list Z → A) stack tr :
  let r := sysfs_read_str O path (Some (take 20 (stack ++ replicate 20 0))) 20 tr in
  sysfs_read_num O path str2num stack tr =
    if r.1.1 <=? 0
    then ((-1, None), r.2 ++ [SysLog LOG_WARN "Cannot read number from"])
    else ((0, str2num <$> r.1.2), r.2).
Proof.
  intros r. unfold sysfs_read_num. urun. fold r.
  destruct r as [[len b'] tr']. cbn [fst snd].
  by destruct (len <=? 0).
Qed.

Lemma fd_discipline_logs held logs evs :
  Forall (λ e, ∃ l m, e = SysLog l m) logs →
  fd_discipline held (logs ++ evs) = fd_discipline held evs.
Proof.
  induction 1 as [| e logs (l & m & ->) _ IH]; [done |]. cbn. exact IH.
Qed.

Lemma sysfs_read_discipline path buf buf_len tr :
  ∃ evs, (sysfs_read O path buf buf_len tr).2 = tr ++ evs
         ∧ fd_discipline None evs = true.
Proof.
  destruct buf as [b |]; [| exists []; by rewrite app_nil_r].
  rewrite sysfs_read_run. cbv zeta.
  destruct (_ || _); [exists []; by rewrite app_nil_r |].
  destruct (os_open O (length tr) path O_RDONLY =? -1) eqn:E.
  { eexists. split; [reflexivity |]. cbn. by rewrite E. }
  destruct (take _ <$> _) as [bytes |]; (eexists; split; [reflexivity |]);
    cbn; rewrite E; cbn; by rewrite !bool_decide_eq_true_2.
Qed.

Lemma sysfs_write_discipline path buf buf_len tr :
  ∃ evs, (sysfs_write O path buf buf_len tr).2 = tr ++ evs
         ∧ fd_discipline None evs = true.
Proof.
  destruct buf as [b |]; [| exists []; by rewrite app_nil_r].
  rewrite sysfs_write_run. cbv zeta.
  destruct (_ || _); [exists []; by rewrite app_nil_r |].
  destruct (os_open O (length tr) path O_WRONLY =? -1) eqn:E.
  { eexists. split; [reflexivity |]. cbn. by rewrite E. }
  eexists. split; [reflexivity |]. cbn. rewrite E. cbn.
  rewrite !bool_decide_eq_true_2 by done. cbn.
  destruct (os_write O _ _ _ =? -1); [reflexivity |]. destruct (negb _); reflexivity.
Qed.

Lemma sysfs_read_str_discipline path buf buf_len tr :
  ∃ evs, (sysfs_read_str O path buf buf_len tr).2 = tr ++ evs
         ∧ fd_discipline None evs = true.
Proof.
  destruct buf as [b |]; [| exists []; by rewrite app_nil_r].
  rewrite sysfs_read_str_run. cbv zeta.
  destruct (buf_len <? 1); [exists []; by rewrite app_nil_r |].
  destruct (sysfs_read_discipline path (Some b) buf_len tr) as (evs & Hevs & Hd).
  destruct (_ =? -1); cbn [snd]; rewrite Hevs.
  - exists (evs ++ [SysLog LOG_WARN "Cannot read string from"]).
    split; [by rewrite app_assoc |].
    clear Hevs. revert Hd. generalize (@None Z).
    induction evs as [| e evs IH]; intros held Hd; [exact Hd |].
    destruct e; cbn in Hd |- *; try (by apply IH).
    + destruct held; [done | by apply IH].
    + apply andb_true_iff in Hd as [-> Hd]. by apply IH.
    + apply andb_true_iff in Hd as [-> Hd]. by apply IH.
    + apply andb_true_iff in Hd as [-> Hd]. by apply IH.
  - by exists evs.
Qed.

(** The accessors of utils.c never leak a descriptor: each one holds at
    most one descriptor at a time, reads and writes only on the descriptor
    it opened, and has closed it when it returns, whatever the kernel
    answers. *)
Theorem sysfs_accessors_close_what_they_open {A : Type}
    (path : string) (buf : option (list Z)) (buf_len value : Z)
    (str2num : list Z → A) (stack : list Z) (tr : list sys_event) :
  (∃ evs, (sysfs_read O path buf buf_len tr).2 = tr ++ evs
          ∧ fd_discipline None evs = true)
  ∧ (∃ evs, (sysfs_write O path buf buf_len tr).2 = tr ++ evs
            ∧ fd_discipline None evs = true)
  ∧ (∃ evs, (sysfs_read_str O path buf buf_len tr).2 = tr ++ evs
            ∧ fd_discipline None evs = true)
  ∧ (∃ evs, (sysfs_read_num O path str2num stack tr).2 = tr ++ evs
            ∧ fd_discipline None evs = true)
  ∧ (∃ evs, (sysfs_write_int O path value tr).2 = tr ++ evs
            ∧ fd_discipline None evs = true)
  ∧ (∃ evs, (sysfs_write_str O path buf tr).2 = tr ++ evs
            ∧ fd_discipline None evs = true).
Proof.
  split; [apply sysfs_read_discipline |].
  split; [apply sysfs_write_discipline |].
  split; [apply sysfs_read_str_discipline |].
  split.
  { rewrite sysfs_read_num_run. cbv zeta.
    destruct (sysfs_read_str_discipline path (Some (take 20 (stack ++ replicate 20 0))) 20 tr)
      as (evs & Hevs & Hd).
    destruct (_ <=? 0); cbn [snd]; rewrite Hevs; [| by exists evs].
    exists (evs ++ [SysLog LOG_WARN "Cannot read number from"]).
    split; [by rewrite app_assoc |].
    clear Hevs. revert Hd. generalize (@None Z).
    induction evs as [| e evs IH]; intros held Hd; [exact Hd |].
    destruct e; cbn in Hd |- *; try (by apply IH).
    + destruct held; [done | by apply IH].
    + apply andb_true_iff in Hd as [-> Hd]. by apply IH.
    + apply andb_true_iff in Hd as [-> Hd]. by apply IH.
    + apply andb_true_iff in Hd as [-> Hd]. by apply IH. }
  split.
  { rewrite sysfs_write_int_run. cbv zeta.
    destruct (_ || _); [by eexists |].
    destruct (os_open O (length tr) path O_WRONLY =? -1) eqn:E.
    { eexists. split; [reflexivity |]. cbn. by rewrite E. }
    eexists. split; [reflexivity |]. cbn. rewrite E. cbn.
    rewrite !bool_decide_eq_true_2 by done. cbn.
    destruct (negb _); cbn; by rewrite !bool_decide_eq_true_2. }
  unfold sysfs_write_str. destruct buf as [s |]; [| exists []; by rewrite app_nil_r].
  destruct (_ =? 0); [exists []; by rewrite app_nil_r |].
  apply sysfs_write_discipline.
Qed.

(** ** Invalid arguments *)

(** The accessors reject a NULL buffer, an empty path and a length below 1
    with -1 before making any system call; [sysfs_write_str] does the same
    for a NULL or empty string, and [sysfs_write_int] reports the empty
    path as an error without touching the file system. *)
Theorem sysfs_accessors_reject_bad_arguments
    (path : string) (buf : option (list Z)) (buf_len value : Z) (tr : list sys_event) :
  ((buf = None ∨ path = "" ∨ buf_len < 1) →
   sysfs_read O path buf buf_len tr = ((-1, buf), tr)
   ∧ sysfs_write O path buf buf_len tr = (-1, tr))
  ∧ ((buf = None ∨ buf_len < 1) → sysfs_read_str O path buf buf_len tr = ((-1, buf), tr))
  ∧ ((buf = None ∨ (∃ s, buf = Some s ∧ default 0 (s !! 0%nat) = 0) ∨ path = "") →
     sysfs_write_str O path buf tr = (-1, tr))
  ∧ sysfs_write_int O "" value tr
    = (-1, tr ++ [SysLog LOG_ERROR "Unexpected condition in sysfs_write_int"]).
Proof.
  split.
  { intros H. destruct buf as [b |]; [| done].
    rewrite sysfs_read_run, sysfs_write_run. cbv zeta.
    destruct H as [H | [-> | H]]; [done | done |].
    replace (buf_len <? 1) with true by (symmetry; apply Z.ltb_lt; lia).
    by rewrite orb_true_r. }
  split.
  { intros H. destruct buf as [b |]; [| done].
    rewrite sysfs_read_str_run. cbv zeta.
    destruct H as [H | H]; [done |].
    by replace (buf_len <? 1) with true by (symmetry; apply Z.ltb_lt; lia). }
  split; [| reflexivity].
  intros H. unfold sysfs_write_str. destruct buf as [s |]; [| done].
  destruct (default 0 (s !! 0%nat) =? 0) eqn:E; [done |].
  destruct H as [H | [(s' & [= <-] & H) | ->]]; [done | | ].
  - rewrite H in E. discriminate.
  - by rewrite sysfs_write_run.
Qed.

(** ** Strings and numbers *)

Lemma c_str_insert_nul (l : list Z) : ∀ n,
  (n < length l)%nat → c_str (<[n := 0]> l) = c_str (take n l).
Proof.
  induction l as [| b l IH]; intros n Hn; [cbn in Hn; lia |].
  destruct n as [| n]; [reflexivity |].
  cbn [c_str take]. change (<[S n := 0]> (b :: l)) with (b :: <[n := 0]> l).
  cbn [c_str]. destruct (b =? 0); [done |]. f_equal. apply IH. cbn in Hn. lia.
Qed.

Lemma c_str_length (l : list Z) : (length (c_str l) ≤ length l)%nat.
Proof.
  induction l as [| b l IH]; [done |]. cbn [c_str]. destruct (b =? 0); cbn; lia.
Qed.

(** Outcome of [sysfs_read_str] on a buffer of [buf_len] bytes. *)
Lemma sysfs_read_str_cases path b buf_len tr :
  1 ≤ buf_len → length b = Z.to_nat buf_len →
  let fd := os_open O (length tr) path O_RDONLY in
  let r := sysfs_read_str O path (Some b) buf_len tr in
  (r.1.1 = -1 ∧ r.1.2 = Some b
   ∧ (path = "" ∨ fd = -1 ∨ os_read O (S (length tr)) fd buf_len = None))
  ∨ (∃ data b',
       path ≠ "" ∧ fd ≠ -1
       ∧ take (Z.to_nat buf_len) <$> os_read O (S (length tr)) fd buf_len = Some data
       ∧ r.1 = (Z.of_nat (length data), Some b')
       ∧ r.2 = tr ++ [SysOpen path O_RDONLY fd; SysRead fd buf_len (Some data); SysClose fd]
       ∧ length b' = length b
       ∧ b' !! (length data - 1)%nat = Some 0
       ∧ c_str b' = c_str (take (length data - 1) data)).
Proof.
  intros Hlen Hb fd r. subst r. rewrite sysfs_read_str_run. cbv zeta.
  replace (buf_len <? 1) with false by (symmetry; apply Z.ltb_ge; lia).
  rewrite sysfs_read_run. cbv zeta. fold fd.
  replace (buf_len <? 1) with false by (symmetry; apply Z.ltb_ge; lia).
  rewrite orb_false_r.
  destruct (bool_decide (path = "")) eqn:Ep.
  { apply bool_decide_eq_true in Ep. left. cbn. tauto. }
  apply bool_decide_eq_false in Ep.
  destruct (fd =? -1) eqn:Ef.
  { apply Z.eqb_eq in Ef. left. cbn. tauto. }
  apply Z.eqb_neq in Ef.
  destruct (os_read O (S (length tr)) fd buf_len) as [raw |] eqn:Er; cbn [fmap option_fmap option_map].
  2:{ left. cbn. tauto. }
  set (data := take (Z.to_nat buf_len) raw).
  assert (Hd : (length data ≤ Z.to_nat buf_len)%nat) by (subst data; rewrite length_take; lia).
  cbn [fst snd].
  replace (Z.of_nat (length data) =? -1) with false by (symmetry; apply Z.eqb_neq; lia).
  right. exists data. eexists. split; [done |]. split; [done |]. split; [done |].
  split; [reflexivity |]. split; [reflexivity |].
  set (idx := Z.to_nat (if Z.of_nat (length data) =? 0 then 0 else Z.of_nat (length data) - 1)).
  assert (Hidx : idx = (length data - 1)%nat).
  { subst idx. destruct (Z.of_nat (length data) =? 0) eqn:E0; [apply Z.eqb_eq in E0 | ]; lia. }
  rewrite Hidx.
  assert (Hfull : length (data ++ drop (length data) b) = length b).
  { rewrite length_app, length_drop. lia. }
  split; [by rewrite length_insert |].
  split.
  { apply list_lookup_insert_eq. rewrite Hfull. lia. }
  rewrite c_str_insert_nul by (rewrite Hfull; lia).
  by rewrite take_app_le by lia.
Qed.

(** On success [sysfs_read_str] leaves a NUL-terminated string inside the
    buffer: the byte at index [len - 1] (index 0 for an empty read) is 0,
    so the string is at most [buf_len - 1] bytes long.  It is what was
    read without its last byte, cut at the first NUL if there is one, and
    owes nothing to what the buffer held before. *)
Theorem sysfs_read_str_terminates (path : string) (b : list Z) (buf_len : Z)
    (tr : list sys_event) (len : Z) (b' : list Z) :
  1 ≤ buf_len → length b = Z.to_nat buf_len →
  (sysfs_read_str O path (Some b) buf_len tr).1 = (len, Some b') → len ≠ -1 →
  0 ≤ len ≤ buf_len
  ∧ length b' = length b
  ∧ b' !! Z.to_nat (Z.max 0 (len - 1)) = Some 0
  ∧ (Z.of_nat (length (c_str b')) ≤ Z.max 0 (len - 1) < buf_len)
  ∧ ∃ fd data,
      SysRead fd buf_len (Some data) ∈ (sysfs_read_str O path (Some b) buf_len tr).2
      ∧ len = Z.of_nat (length data)
      ∧ c_str b' = c_str (take (length data - 1) data).
Proof.
  intros Hlen Hb Hr Hok.
  destruct (sysfs_read_str_cases path b buf_len tr Hlen Hb)
    as [(H1 & _) | (data & b0 & Hp & Hfd & Hdata & Hres & Htr & Hl & Hnul & Hstr)].
  { rewrite Hr in H1. cbn in H1. done. }
  rewrite Hr in Hres. injection Hres as -> <-.
  assert (Hd : (length data ≤ Z.to_nat buf_len)%nat).
  { destruct (os_read O _ _ _) as [raw |]; [| discriminate].
    cbn in Hdata. injection Hdata as <-. rewrite length_take. lia. }
  split; [lia |]. split; [exact Hl |]. split.
  { replace (Z.to_nat (Z.max 0 (Z.of_nat (length data) - 1))) with (length data - 1)%nat
      by lia. exact Hnul. }
  split.
  { rewrite Hstr. pose proof (c_str_length (take (length data - 1) data)) as Hc.
    rewrite length_take in Hc. lia. }
  eexists _, data. split; [| done].
  rewrite Htr. apply elem_of_app. right.
  apply list_elem_of_further, list_elem_of_here.
Qed.

(** [sysfs_read_int] succeeds exactly when the attribute could be opened
    and at least one byte was read.  The number is then parsed from at
    most the first 19 bytes read, without the last one, and does not depend
    on what the uninitialised buffer held. *)
Theorem sysfs_read_int_value (path : string) (stack : list Z) (tr : list sys_event) :
  let fd := os_open O (length tr) path O_RDONLY in
  let data := if bool_decide (path = "") || (fd =? -1) then None
              else take 20 <$> os_read O (S (length tr)) fd 20 in
  (sysfs_read_int O path stack tr).1
  = match data with
    | Some (x :: bytes) => (0, Some (atoi (c_str (take (length bytes) (x :: bytes)))))
    | _ => (-1, None)
    end.
Proof.
  intros fd data. unfold sysfs_read_int. rewrite sysfs_read_num_run. cbv zeta.
  set (b := take 20 (stack ++ replicate 20 0)).
  assert (Hb : length b = Z.to_nat 20).
  { subst b. rewrite length_take, length_app, length_replicate. lia. }
  destruct (sysfs_read_str_cases path b 20 tr ltac:(lia) Hb)
    as [(H1 & H2 & H3) | (bytes & b' & Hp & Hfd & Hdata & Hres & Htr & Hl & Hnul & Hstr)].
  - fold fd in H3. rewrite H1. cbn [fst].
    subst data. destruct H3 as [-> | [-> | H3]]; [done | by rewrite orb_true_r |].
    destruct (_ || _); [done |]. by rewrite H3.
  - fold fd in Hfd, Hdata. rewrite Hres. cbn [fst snd].
    subst data. rewrite bool_decide_eq_false_2 by done.
    replace (fd =? -1) with false by (symmetry; by apply Z.eqb_neq).
    cbn [orb]. change (Z.to_nat 20) with 20%nat in Hdata. rewrite Hdata.
    destruct bytes as [| x bytes]; [reflexivity |].
    cbn [length] in *. replace (Z.of_nat (S (length bytes)) <=? 0) with false
      by (symmetry; apply Z.leb_gt; lia).
    cbn [fmap option_fmap option_map]. unfold str2int. rewrite Hstr.
    by replace (S (length bytes) - 1)%nat with (length bytes) by lia.
Qed.

Lemma c_str_take (s : list Z) : take (length (c_str s)) s = c_str s.
Proof.
  induction s as [| b s IH]; [done |]. cbn [c_str].
  destruct (b =? 0); [done |]. cbn [length take]. by rewrite IH.
Qed.

(** [sysfs_write_str] writes the string without its terminator: once the
    attribute is open, the bytes handed to [write] are those of the string
    up to the first NUL, and what [write] returns, a short count included,
    is the result. *)
Theorem sysfs_write_str_writes_the_string (path : string) (s : list Z)
    (tr : list sys_event) :
  path ≠ "" → default 0 (s !! 0%nat) ≠ 0 →
  let fd := os_open O (length tr) path O_WRONLY in
  let r := os_write O (S (length tr)) fd (c_str s) in
  (fd = -1 → sysfs_write_str O path (Some s) tr = (-1, tr ++ [SysOpen path O_WRONLY (-1)]))
  ∧ (fd ≠ -1 →
     ∃ logs,
       sysfs_write_str O path (Some s) tr
       = (r, tr ++ [SysOpen path O_WRONLY fd; SysWrite fd (c_str s) r; SysClose fd] ++ logs)
       ∧ Forall (λ e, ∃ l m, e = SysLog l m) logs
       ∧ (logs = [] ↔ r = Z.of_nat (length (c_str s)))).
Proof.
  intros Hp Hs fd r. unfold sysfs_write_str.
  replace (default 0 (s !! 0%nat) =? 0) with false by (symmetry; by apply Z.eqb_neq).
  rewrite sysfs_write_run. cbv zeta. fold fd.
  rewrite Nat2Z.id, c_str_take. fold r.
  rewrite bool_decide_eq_false_2 by done.
  assert (Hlen : (1 ≤ length (c_str s))%nat).
  { destruct s as [| b s']; cbn in Hs; [done |]. cbn [c_str].
    replace (b =? 0) with false by (symmetry; by apply Z.eqb_neq). cbn. lia. }
  replace (Z.of_nat (length (c_str s)) <? 1) with false by (symmetry; apply Z.ltb_ge; lia).
  cbn [orb]. split.
  - intros Hfd. rewrite Hfd. reflexivity.
  - intros Hfd. replace (fd =? -1) with false by (symmetry; by apply Z.eqb_neq).
    eexists. split; [reflexivity |].
    destruct (r =? -1) eqn:E1.
    { apply Z.eqb_eq in E1. split; [repeat constructor; by eexists _, _ |].
      split; [done | lia]. }
    destruct (r =? Z.of_nat (length (c_str s))) eqn:E2; cbn [negb].
    + apply Z.eqb_eq in E2. by split.
    + apply Z.eqb_neq in E2. split; [repeat constructor; by eexists _, _ |]. by split.
Qed.

(** ** Timestamps *)

Lemma wrap_bits_small bits z :
  1 ≤ bits → - 2 ^ (bits - 1) ≤ z < 2 ^ (bits - 1) → wrap_bits bits z = z.
Proof.
  intros Hb Hz. unfold wrap_bits.
  assert (H2 : 2 ^ bits = 2 * 2 ^ (bits - 1)).
  { replace bits with (Z.succ (bits - 1)) at 1 by lia. apply Z.pow_succ_r. lia. }
  rewrite Z.mod_small by lia. lia.
Qed.

(** [set_timestamp] splits a number of nanoseconds into the seconds and
    nanoseconds from which the [get_timestamp_*] functions compute it back,
    as long as the seconds fit [time_t].  C's division truncates towards
    zero, so for a negative number the nanoseconds field is not positive,
    below the range a [timespec] is meant to have. *)
Theorem set_timestamp_round_trip (target_ns : Z) :
  - 2 ^ 63 ≤ target_ns < 2 ^ 63 →
  32 ≤ long_bits → 1 ≤ time_t_bits →
  - 2 ^ (time_t_bits - 1) ≤ Z.quot target_ns 1000000000 < 2 ^ (time_t_bits - 1) →
  let ts := set_timestamp target_ns in
  timestamp_of ts = target_ns
  ∧ (0 ≤ target_ns → 0 ≤ tv_nsec ts < 1000000000)
  ∧ (target_ns < 0 → -1000000000 < tv_nsec ts ≤ 0)
  ∧ ∀ tr,
      (os_clock O (length tr) CLOCK_REALTIME = ts →
       (get_timestamp_realtime O tr).1 = target_ns)
      ∧ (os_clock O (length tr) CLOCK_BOOTTIME = ts →
         (get_timestamp_boot O tr).1 = target_ns)
      ∧ (os_clock O (length tr) CLOCK_MONOTONIC = ts →
         (get_timestamp_monotonic O tr).1 = target_ns).
Proof.
  intros Hrange Hlong Htime Hfit ts.
  assert (Hrem : -1000000000 < Z.rem target_ns 1000000000 < 1000000000).
  { pose proof (Z.rem_bound_abs target_ns 1000000000 ltac:(lia)). lia. }
  assert (Hsplit : target_ns = 1000000000 * Z.quot target_ns 1000000000
                               + Z.rem target_ns 1000000000)
    by (apply Z.quot_rem'; lia).
  assert (Hpow : 2 ^ 31 ≤ 2 ^ (long_bits - 1)) by (apply Z.pow_le_mono_r; lia).
  assert (Hsec : tv_sec ts = Z.quot target_ns 1000000000).
  { subst ts. cbn [set_timestamp tv_sec]. by apply wrap_bits_small. }
  assert (Hns : tv_nsec ts = Z.rem target_ns 1000000000).
  { subst ts. cbn [set_timestamp tv_nsec]. apply wrap_bits_small; lia. }
  assert (Hback : timestamp_of ts = target_ns).
  { unfold timestamp_of. rewrite Hsec, Hns.
    assert (Hq : -2 ^ 63 < 1000000000 * Z.quot target_ns 1000000000 < 2 ^ 63).
    { destruct (Z.le_gt_cases 0 target_ns) as [Hpos | Hneg].
      - pose proof (Z.quot_pos target_ns 1000000000 Hpos ltac:(lia)).
        pose proof (Z.rem_nonneg target_ns 1000000000 ltac:(lia) Hpos). lia.
      - pose proof (Z.quot_le_upper_bound 0 1000000000 target_ns).
        assert (Z.quot target_ns 1000000000 ≤ 0).
        { rewrite <- (Z.quot_0_l 1000000000) by lia. apply Z.quot_le_mono; lia. }
        pose proof (Z.rem_nonpos target_ns 1000000000 ltac:(lia) ltac:(lia)). lia. }
    unfold wrap_int64. rewrite (Z.mod_small (1000000000 * _ + 2 ^ 63)) by lia.
    replace (1000000000 * Z.quot target_ns 1000000000 + 2 ^ 63 - 2 ^ 63
             + Z.rem target_ns 1000000000) with target_ns by lia.
    rewrite Z.mod_small by lia. lia. }
  split; [exact Hback |]. split.
  { intros Hpos. rewrite Hns.
    pose proof (Z.rem_nonneg target_ns 1000000000 ltac:(lia) Hpos). lia. }
  split.
  { intros Hneg. rewrite Hns.
    pose proof (Z.rem_nonpos target_ns 1000000000 ltac:(lia) ltac:(lia)). lia. }
  intros tr. repeat split; intros Hclock;
    unfold get_timestamp_realtime, get_timestamp_boot, get_timestamp_monotonic;
    urun; cbn [fst]; by rewrite Hclock.
Qed.

End UtilsProperties.

(** * The further properties on concrete inputs *)

Section ExtendedExamples.

Import Demo.
#[local] Existing Instance Demo.platform.

(** An event for device 5, which has no sensor, is refused. *)
Lemma integrate_device_report_failure_witness :
  let w := booted [accel] in
  ∃ evs, (integrate_device_report healthy 5 w).2 = set_trace (trace w ++ evs) w.
Proof.
  intros w.
  destruct (integrate_device_report_failure healthy w 5) as (_ & H & _).
  apply H. vm_compute. reflexivity.
Defined.

(** A report for the streaming accelerometer. *)
Lemma integrate_device_report_success_witness :
  let w' := (integrate_device_report reporting 0 streaming).2 in
  ∃ bytes : list Z, (length bytes ≤ Z.to_nat (expected_report_size streaming 0))%nat
           ∧ length (sensor_info w') = length (sensor_info streaming).
Proof.
  intros w'.
  destruct (integrate_device_report_success reporting streaming 0) as (bytes & _ & H1 & H2 & _).
  - vm_compute. reflexivity.
  - exists bytes. split; [exact H1 | exact H2].
Defined.

(** The three 16-bit channels of the accelerometer, out of an eight-byte
    report. *)
Lemma copy_channels_packs_slices_witness :
  copy_channels (sensor_at streaming 0) [1; 2; 3; 4; 5; 6; 7; 8] [0%nat; 1%nat; 2%nat] 0
    (replicate 8 9)
  = [1; 2; 3; 4; 5; 6; 9; 9].
Proof.
  destruct (copy_channels_packs_slices (sensor_at streaming 0) [1; 2; 3; 4; 5; 6; 7; 8]
              (replicate 8 9) [0%nat; 1%nat; 2%nat]) as [H _].
  - repeat constructor; vm_compute; (discriminate || lia).
  - vm_compute. lia.
  - vm_compute. discriminate.
  - rewrite H. vm_compute. reflexivity.
Defined.

(** A wakeup followed by a report for device 0: the report is not read. *)
Lemma dispatch_events_wakeup_ends_batch_witness :
  let w := booted [accel] in
  let wake := {| events := EPOLLIN; data_u32 := INVALID_DEV_NUM |} in
  dispatch_events healthy [wake; {| events := EPOLLIN; data_u32 := 0 |}] w
  = (true, set_trace (trace w ++ [ReadByte 4]) w).
Proof.
  intros w wake.
  destruct (dispatch_events_wakeup_ends_batch healthy w []
              [{| events := EPOLLIN; data_u32 := 0 |}] wake) as [_ H].
  destruct H as [_ H]; [reflexivity | reflexivity | constructor |].
  exact H.
Defined.

(** Two sensors, the second of which has a report pending. *)
Lemma sensor_poll_returns_lowest_pending_witness :
  let w := (update_sensor 1 (set_report_pending 1) (booted [accel; temp])).2 in
  ∃ w0 s0, report_pending (sensor_at w0 s0) ≠ 0
           ∧ report_pending (sensor_at (sensor_poll healthy 0 1 w).2 s0) = 0.
Proof.
  intros w.
  destruct (sensor_poll_returns_lowest_pending healthy w 0 1 1
              (propagate_sensor_report healthy 1 w).1)
    as (_ & w0 & s0 & _ & H1 & _ & _ & _ & H2).
  - vm_compute. reflexivity.
  - exists w0, s0. split; [exact H1 | exact H2].
Defined.

(** The light sensor at 10 Hz. *)
Lemma get_poll_time_timeout_witness : 0 ≤ (get_poll_time healthy polled).1 ≤ 1000.
Proof.
  destruct (get_poll_time_timeout healthy polled) as [_ H].
  destruct H as (s0 & _ & _ & _ & _ & H).
  - vm_compute. discriminate.
  - exists 0%nat. split; [vm_compute; lia | vm_compute; reflexivity].
  - intros [| s] Hs Hq; [vm_compute; repeat split; discriminate |].
    vm_compute in Hs. lia.
  - vm_compute. reflexivity.
  - exact H.
Defined.

(** The first enable of the accelerometer when /dev/iio:device0 cannot be
    opened. *)
Lemma failed_open_is_rolled_back_witness :
  let w := booted [accel] in
  let w' := (sensor_activate no_device 0 1 w).2 in
  (sensor_activate no_device 0 1 w).1 = -1
  ∧ enable_count (sensor_at w' 0) = 0
  ∧ counters w' = counters w.
Proof.
  intros w w'.
  destruct (failed_open_is_rolled_back no_device w 0 1 (DEV_FILE_PATH 0))
    as (H1 & _ & _ & _ & H2 & H3 & _).
  - vm_compute. lia.
  - repeat split; repeat constructor; vm_compute; discriminate.
  - vm_compute. do 15 apply list_elem_of_further. apply list_elem_of_here.
  - split; [exact H1 |]. split; [exact H2 | exact H3].
Defined.

(** 20 ms on the accelerometer, whose rate attribute reads 10. *)
Lemma sensor_set_delay_protocol_witness :
  let w := booted [accel] in
  emitted w (sensor_set_delay healthy 0 20000000 w).2
  = [SysfsReadInt (SENSOR_SAMPLING_PATH 0 "accel") (Some 10);
     SysfsWriteInt (SENSOR_SAMPLING_PATH 0 "accel") 50; WriteByte 5].
Proof.
  intros w.
  destruct (sensor_set_delay_protocol healthy w 0 20000000) as (_ & H & _).
  - discriminate.
  - rewrite H. vm_compute. reflexivity.
Defined.

(** The event of the streaming accelerometer. *)
Lemma propagate_shapes_trigger_event_witness :
  ∃ e0, (propagate_sensor_report healthy 0 streaming).1
        = finalize (ops (sensor_at streaming 0)) 0%nat e0
        ∧ sensor e0 = 0 ∧ length (data e0) = 16%nat.
Proof.
  destruct (propagate_shapes_trigger_event healthy streaming 0 3)
    as (e0 & H1 & _ & H2 & _ & _ & H3 & _).
  - vm_compute. discriminate.
  - vm_compute. reflexivity.
  - exists e0. rewrite H1. split; [reflexivity |]. split; [exact H2 | exact H3].
Defined.

(** The event of the light sensor. *)
Lemma propagate_samples_poll_sensor_witness :
  ∃ e0, (propagate_sensor_report healthy 0 polled).1
        = finalize (ops (sensor_at polled 0)) 0%nat e0
        ∧ data e0 !! 1%nat = Some 0.
Proof.
  destruct (propagate_samples_poll_sensor healthy polled 0 1)
    as (e0 & H1 & _ & _ & _ & _ & _ & _ & H2).
  - vm_compute. reflexivity.
  - vm_compute. reflexivity.
  - exists e0. rewrite H1. split; [reflexivity |]. apply H2. lia.
Defined.

(** The z channel of the accelerometer comes third, at offset 4. *)
Lemma assign_offsets_running_sum_witness :
  let w := booted [accel] in
  let t := (read_sensors healthy 0 [0%nat] tables_zero w).1 in
  let w' := (assign_offsets t [0%nat; 1%nat; 2%nat] 0 w).2 in
  offset (channel_at (sensor_at w' 0) 2) = 4 ∧ size (channel_at (sensor_at w' 0) 2) = 2.
Proof.
  intros w t w'.
  destruct (assign_offsets_running_sum t [0%nat; 1%nat; 2%nat] 0 w 2 2) as [H1 H2].
  - reflexivity.
  - vm_compute. discriminate.
  - vm_compute. lia.
  - vm_compute. lia.
  - intros k' j Hk Hj. exfalso.
    destruct k' as [| [| [| k']]]; try lia. discriminate Hj.
  - split; [exact H1 | exact H2].
Defined.

(** From start-up, where nothing is pending. *)
Lemma activation_keeps_no_stale_report_witness :
  no_stale_report (sensor_activate healthy 0 1 (booted [accel])).2
  ∧ no_stale_report (sensor_set_delay healthy 0 20000000 (booted [accel])).2.
Proof.
  destruct (activation_keeps_no_stale_report healthy (booted [accel]) 0 1 20000000)
    as [H1 H2].
  - vm_compute. lia.
  - intros [| s] H; exfalso; apply H; reflexivity.
  - split; [| exact H2]. apply H1. intros _. vm_compute. split; discriminate.
Defined.


(** The light sensor, enabled, on a wait that returns with no event. *)
Lemma poll_sensor_delivered_on_timeout_witness :
  ∃ w6, (sensor_poll racing 1 1 polled).1 = Some (1, (propagate_sensor_report racing 0 w6).1).
Proof.
  destruct (poll_sensor_delivered_on_timeout racing polled 0 1 0)
    as (s0 & w6 & Hle & _ & _ & _ & _ & H & _).
  - intros [| s'] Hs'; [reflexivity | vm_compute in Hs'; lia].
  - vm_compute. lia.
  - vm_compute. discriminate.
  - vm_compute. lia.
  - vm_compute. discriminate.
  - reflexivity.
  - vm_compute. reflexivity.
  - exists w6. replace s0 with 0%nat in H by lia. exact H.
Defined.

(** A delay of -20 ms stores -50. *)
Lemma sensor_set_delay_accepts_negative_witness :
  sampling_rate (sensor_at (sensor_set_delay healthy 0 (-20000000) (booted [accel])).2 0) = -50.
Proof.
  destruct (sensor_set_delay_accepts_negative healthy (booted [accel]) 0 (-20000000))
    as (_ & H & _).
  - vm_compute. lia.
  - lia.
  - rewrite H. reflexivity.
Defined.

(** C5 at work: the temperature sensor, sensor 1, has a report pending and
    the accelerometer has none; no fuel is needed. *)
Lemma pending_report_is_returned_witness :
  let w := (update_sensor 1 (set_report_pending 1) (booted [accel; temp])).2 in
  ∃ s0 e0, (sensor_poll healthy 0 1 w).1
           = Some (1, finalize (ops (sensor_at w s0)) s0 e0)
           ∧ sensor e0 = Z.of_nat s0
           ∧ report_pending (sensor_at w s0) ≠ 0
           ∧ report_pending (sensor_at (sensor_poll healthy 0 1 w).2 s0) = 0.
Proof.
  intros w.
  destruct (pending_report_is_returned healthy w 0 1)
    as (s0 & e0 & _ & Hp & _ & Hr & _ & Hsn & _ & _ & _ & _ & _ & _ & _ & Hc & _).
  - exists 1%nat. split; vm_compute; [lia | discriminate].
  - exists s0, e0. split; [exact Hr |]. split; [exact Hsn |]. split; [exact Hp | exact Hc].
Defined.

(** 2^32 us and 5 ms after the last wait the check sleeps 5 ms. *)
Lemma keep_min_interval_sleeps_witness :
  let w := set_last_poll_exit_ts (3000000 - 4294972296000) (booted [light]) in
  emitted w (keep_min_interval healthy w).2 = [GetTimestamp 3000000; Usleep 5000].
Proof.
  intros w.
  destruct (keep_min_interval_sleeps healthy w) as (sleep & Hrun & Hrule & _).
  rewrite Hrun, Hrule by (vm_compute; split; [discriminate | reflexivity]).
  vm_compute. reflexivity.
Defined.

(** The accelerometer enabled after the light sensor has opened device 0. *)
Lemma enable_on_open_descriptor_never_registers_witness :
  let w := (sensor_activate healthy 1 1 (booted [accel; light])).2 in
  let w' := (sensor_activate healthy 0 1 w).2 in
  (sensor_activate healthy 0 1 w).1 = 0
  ∧ poll_set w' = poll_set w
  ∧ arr_get (trig_sensors_per_dev w') 0 = 1.
Proof.
  intros w w'.
  destruct (enable_on_open_descriptor_never_registers healthy w 0 1)
    as (H1 & _ & H2 & _ & H3 & _).
  - vm_compute. lia.
  - discriminate.
  - vm_compute. discriminate.
  - split; [exact H1 |]. split; [exact H2 |].
    subst w'. rewrite H3; [reflexivity | reflexivity | vm_compute; discriminate].
Defined.

End ExtendedExamples.

Section UtilsExamples.

Import Utils Demo.
#[local] Existing Instance Demo.libc.

(** A read of length 0 and the write of an empty string. *)
Lemma sysfs_accessors_reject_bad_arguments_witness :
  sysfs_read attribute_os "in_temp_raw" (Some [0; 0]) 0 [] = ((-1, Some [0; 0]), [])
  ∧ sysfs_write_str attribute_os "trigger/current_trigger" (Some [0]) [] = (-1, []).
Proof.
  destruct (sysfs_accessors_reject_bad_arguments attribute_os "in_temp_raw"
              (Some [0; 0]) 0 0 []) as [H1 _].
  destruct (sysfs_accessors_reject_bad_arguments attribute_os "trigger/current_trigger"
              (Some [0]) 1 0 []) as (_ & _ & H3 & _).
  split.
  - apply H1. right. right. lia.
  - apply H3. right. left. exists [0]. split; reflexivity.
Defined.

(** Reading "42\n" into an eight-byte buffer. *)
Lemma sysfs_read_str_terminates_witness :
  let b' := [52; 50; 0; 0; 0; 0; 0; 0] in
  (sysfs_read_str attribute_os "in_temp_raw" (Some (replicate 8 0)) 8 []).1 = (3, Some b')
  ∧ b' !! Z.to_nat (Z.max 0 (3 - 1)) = Some 0
  ∧ Z.of_nat (length (c_str b')) ≤ Z.max 0 (3 - 1) < 8.
Proof.
  intros b'.
  assert (H : (sysfs_read_str attribute_os "in_temp_raw" (Some (replicate 8 0)) 8 []).1
              = (3, Some b')) by (vm_compute; reflexivity).
  destruct (sysfs_read_str_terminates attribute_os "in_temp_raw" (replicate 8 0) 8 [] 3 b')
    as (_ & _ & H1 & H2 & _).
  - lia.
  - reflexivity.
  - exact H.
  - discriminate.
  - split; [exact H |]. split; [exact H1 | exact H2].
Defined.

(** Writing "none" to an attribute. *)
Lemma sysfs_write_str_writes_the_string_witness :
  ∃ logs,
    sysfs_write_str attribute_os "current_trigger" (Some [110; 111; 110; 101; 0]) []
    = (4, [SysOpen "current_trigger" O_WRONLY 7; SysWrite 7 [110; 111; 110; 101] 4;
           SysClose 7] ++ logs).
Proof.
  destruct (sysfs_write_str_writes_the_string attribute_os "current_trigger"
              [110; 111; 110; 101; 0] []) as [_ H].
  - discriminate.
  - vm_compute. discriminate.
  - destruct H as (logs & H & _); [vm_compute; discriminate |].
    exists logs. exact H.
Defined.

(** 1500 s and 123 ns. *)
Lemma set_timestamp_round_trip_witness :
  timestamp_of (set_timestamp 1500000000123) = 1500000000123
  ∧ (get_timestamp_boot attribute_os []).1 = 1500000000123.
Proof.
  destruct (set_timestamp_round_trip attribute_os 1500000000123) as (H1 & _ & _ & H2).
  - lia.
  - vm_compute. discriminate.
  - vm_compute. discriminate.
  - vm_compute. split; [discriminate | reflexivity].
  - split; [exact H1 |]. apply (H2 []). vm_compute. reflexivity.
Defined.

End UtilsExamples.
